(** * rgispy.sample: datastream decoding and mask sampling

    A shallow embedding of [src/rgispy/sample.py].  Python values are
    modelled as the code has them: integers as [Z], [str] as [string]
    (ASCII text), byte strings as lists of bytes ([Z] in 0..255), floats
    as IEEE 754 values ([spec_float]), numpy arrays as a dtype, a shape
    and a flat list of cells, dictionaries as [gmap], exceptions as a
    result type.  File objects and tables are mutable and shared, so they
    live in a store that the computations thread; generators are frames
    stepped by [next] and [close].

    Functions of numpy, ctypes and the interpreter are written out where
    their behaviour on the values at hand is fixed.  What depends on
    pandas, on the standard library's date parsing or on the machine is a
    field of the class [Env]. *)

From Stdlib Require Import ZArith List String Ascii Bool Lia.
From Stdlib Require Import Numbers.DecimalString.
From Stdlib Require Import Floats.SpecFloat.
From stdpp Require Import base gmap strings.
Import ListNotations.
Local Open Scope string_scope.
Local Open Scope list_scope.
Local Open Scope Z_scope.

(** ** Exceptions and results *)

Inductive exn :=
| Exception (msg : string)        (* [raise Exception(...)] *)
| AssertionError (msg : string)   (* a failed [assert] *)
| ValueError (msg : string)
| OverflowError (msg : string)
| IndexError
| KeyError (key : string)
| UnboundLocalError (var : string)
| TypeError (msg : string)
| FileNotFoundError (path : string)
| BadGzipFile
| DateParseError.

Inductive result (A : Type) :=
| Ok (a : A)
| Raise (e : exn).
Arguments Ok {A} a.
Arguments Raise {A} e.

#[global] Instance result_ret : MRet result := fun A a => Ok a.
#[global] Instance result_bind : MBind result := fun A B k r =>
  match r with
  | Ok a => k a
  | Raise e => Raise e
  end.

Definition is_ok {A} (r : result A) : bool :=
  match r with Ok _ => true | Raise _ => false end.

(** ** Python strings *)

(** [str.lower] on ASCII text: the letters A..Z move to a..z. *)
Definition lower_ascii (c : ascii) : ascii :=
  let n := nat_of_ascii c in
  if (andb (Nat.leb 65 n) (Nat.leb n 90)) then ascii_of_nat (n + 32) else c.

Fixpoint lower (s : string) : string :=
  match s with
  | EmptyString => EmptyString
  | String c s' => String (lower_ascii c) (lower s')
  end.

(** [x in [a; b; ...]] on strings. *)
Definition str_in (x : string) (l : list string) : bool :=
  existsb (String.eqb x) l.

(** [str(n)] for a Python int. *)
Definition str_of_int (n : Z) : string := NilZero.string_of_int (Z.to_int n).

(** ** numpy element types *)

Inductive nptype := np_int16 | np_int32 | np_float32 | np_float64.

(** [npType(1).itemsize] *)
Definition itemsize (t : nptype) : Z :=
  match t with
  | np_int16 => 2
  | np_int32 => 4
  | np_float32 => 4
  | np_float64 => 8
  end.

Definition is_float_type (t : nptype) : bool :=
  match t with
  | np_float32 | np_float64 => true
  | _ => false
  end.

(** ** _npType *)

Definition _npType (nType : Z) : result nptype :=
  if nType =? 5 then Ok np_int16
  else if nType =? 6 then Ok np_int32
  else if nType =? 7 then Ok np_float32
  else if nType =? 8 then Ok np_float64
  else Raise (Exception ("Unknown value format: type " +:+ str_of_int nType)).

(** ** Bytes, machine integers and floats

    A byte is a [Z] in 0..255.  The module reads the header with a native
    ctypes [Structure] and the records with native numpy dtypes, and never
    looks at the [Swap] field, so fields are decoded in the byte order of
    the machine: little-endian here. *)

Abbreviation bytes := (list Z).

Fixpoint le_uint (bs : bytes) : Z :=
  match bs with
  | [] => 0
  | b :: bs' => b mod 256 + 256 * le_uint bs'
  end.

(** two's complement reading of an unsigned [w]-bit value *)
Definition to_signed (w : Z) (u : Z) : Z :=
  let u := u mod 2 ^ w in
  if u <? 2 ^ (w - 1) then u else u - 2 ^ w.

Definition le_int (w : Z) (bs : bytes) : Z := to_signed w (le_uint bs).

(** Python slice [bs[lo:hi]] for [0 <= lo <= hi]. *)
Definition slice (lo hi : nat) (bs : bytes) : bytes :=
  firstn (hi - lo) (skipn lo bs).

(** IEEE 754 binary formats as [prec], [emax] of [SpecFloat]. *)
Definition prec_of (t : nptype) : Z :=
  match t with np_float32 => 24 | _ => 53 end.
Definition emax_of (t : nptype) : Z :=
  match t with np_float32 => 128 | _ => 1024 end.

(** The float whose bit pattern is [x]: [mw] mantissa bits, [ew] exponent
    bits, one sign bit. *)
Definition float_of_bits (mw ew : Z) (x : Z) : spec_float :=
  let sign := Z.testbit x (mw + ew) in
  let ex := (x / 2 ^ mw) mod 2 ^ ew in
  let mx := x mod 2 ^ mw in
  let emin := 3 - 2 ^ (ew - 1) - (mw + 1) in
  if ex =? 0 then
    match mx with
    | Zpos p => S754_finite sign p emin
    | _ => S754_zero sign
    end
  else if ex =? 2 ^ ew - 1 then
    if mx =? 0 then S754_infinity sign else S754_nan
  else
    match mx + 2 ^ mw with
    | Zpos p => S754_finite sign p (ex + emin - 1)
    | _ => S754_nan
    end.

Definition float64_of_bytes (bs : bytes) : spec_float :=
  float_of_bits 52 11 (le_uint bs).
Definition float32_of_bytes (bs : bytes) : spec_float :=
  float_of_bits 23 8 (le_uint bs).

(** Conversion of a double to the format of dtype [t] (round to nearest
    even); the identity for float64. *)
Definition round_float (t : nptype) (f : spec_float) : spec_float :=
  match t, f with
  | np_float32, S754_finite s m e => binary_round 24 128 s m e
  | _, _ => f
  end.

(** [float(z)] *)
Definition float_of_Z (z : Z) : spec_float := binary_normalize 53 1024 z 0 false.

(** [float(z)] in the format of dtype [t] *)
Definition float_of_Z_as (t : nptype) (z : Z) : spec_float :=
  binary_normalize (prec_of t) (emax_of t) z 0 false.

(** Truncation toward zero of a finite float. *)
Definition trunc_float (f : spec_float) : option Z :=
  match f with
  | S754_zero _ => Some 0
  | S754_finite s m e =>
      let a := match e with
               | Zneg k => Z.pos m / 2 ^ Z.pos k
               | _ => Z.pos m * 2 ^ e
               end in
      Some (if s then - a else a)
  | _ => None
  end.

(** The C conversion of a double to a signed integer of [w] bits, as the
    casts of arrays do it: truncation toward zero; what does not fit,
    not-a-number and the infinities included, gives the smallest integer
    (x86). *)
Definition float_to_int (w : Z) (f : spec_float) : Z :=
  match trunc_float f with
  | Some z => if (- 2 ^ (w - 1) <=? z) && (z <? 2 ^ (w - 1)) then z
              else - 2 ^ (w - 1)
  | None => - 2 ^ (w - 1)
  end.

(** ** Scalars and arrays

    A Python number is an [int] or a [float]; so is an array cell, by the
    array's dtype. *)

Inductive scalar :=
| SInt (z : Z)
| SFloat (f : spec_float).

Definition nan : scalar := SFloat S754_nan.

Definition int_bits (t : nptype) : Z :=
  match t with np_int16 => 16 | _ => 32 end.

(** the Python int [z] is a value of the integer dtype [t] *)
Definition int_fits (t : nptype) (z : Z) : bool :=
  (- 2 ^ (int_bits t - 1) <=? z) && (z <? 2 ^ (int_bits t - 1)).

(** Conversion of a Python number to a cell of dtype [t], as numpy does it
    when the number is stored into an array of that dtype.  A float that
    is not a number has no integer; a Python int out of the range of an
    integer dtype is refused with [OverflowError] (numpy 2). *)
Definition cast_scalar (t : nptype) (v : scalar) : result scalar :=
  if is_float_type t then
    match v with
    | SInt z => Ok (SFloat (round_float t (float_of_Z z)))
    | SFloat f => Ok (SFloat (round_float t f))
    end
  else
    match v with
    | SInt z =>
        if int_fits t z then Ok (SInt z)
        else Raise (OverflowError "Python integer out of bounds")
    | SFloat f =>
        match f with
        | S754_nan => Raise (ValueError "cannot convert float NaN to integer")
        | S754_infinity _ =>
            Raise (ValueError "cannot convert float infinity to integer")
        | _ => match trunc_float f with
               | Some z => Ok (SInt (to_signed (int_bits t) z))
               | None => Raise (ValueError "cannot convert float to integer")
               end
        end
    end.

Definition scalar_to_float (v : scalar) : spec_float :=
  match v with
  | SInt z => float_of_Z z
  | SFloat f => f
  end.

(** [cell == v] for a cell of an array of dtype [t] and a Python number
    [v]: integers compare as integers; a float array compares in its own
    format, the Python float being converted to it. *)
Definition cell_eqb (t : nptype) (c v : scalar) : bool :=
  match c, v with
  | SInt a, SInt b => a =? b
  | _, _ =>
      if is_float_type t
      then SFeqb (scalar_to_float c) (round_float t (scalar_to_float v))
      else SFeqb (scalar_to_float c) (scalar_to_float v)
  end.

Record ndarray := {
  dtype : nptype;
  shape : list Z;
  data : list scalar
}.

Definition prod_shape (sh : list Z) : Z := fold_right Z.mul 1 sh.

Definition nd_size (a : ndarray) : Z := Z.of_nat (length (data a)).

(** The array invariant of numpy: as many cells as the shape says. *)
Definition well_shaped (a : ndarray) : Prop :=
  prod_shape (shape a) = nd_size a /\ Forall (fun d => 0 <= d) (shape a).

(** [a.flatten()] *)
Definition flatten (a : ndarray) : ndarray :=
  {| dtype := dtype a; shape := [nd_size a]; data := data a |}.

(** [a.reshape(sh)] *)
Definition reshape (a : ndarray) (sh : list Z) : result ndarray :=
  if (prod_shape sh =? nd_size a) && forallb (fun d => 0 <=? d) sh
  then Ok {| dtype := dtype a; shape := sh; data := data a |}
  else Raise (ValueError "cannot reshape array").

(** Conversion of a cell to dtype [t] by a cast of the array: it never
    raises. *)
Definition cast_cell (t : nptype) (c : scalar) : scalar :=
  if is_float_type t then
    match c with
    | SInt z => SFloat (float_of_Z_as t z)
    | SFloat f => SFloat (round_float t f)
    end
  else
    match c with
    | SInt z => SInt (to_signed (int_bits t) z)
    | SFloat f => SInt (float_to_int (int_bits t) f)
    end.

(** [a.astype(t)] *)
Definition astype (a : ndarray) (t : nptype) : ndarray :=
  {| dtype := t; shape := shape a; data := map (cast_cell t) (data a) |}.

(** [np.frombuffer(buf, dtype=t)] *)
Fixpoint chunks (fuel : nat) (n : nat) (bs : bytes) : list bytes :=
  match fuel with
  | O => []
  | S fuel' =>
      match bs with
      | [] => []
      | _ => firstn n bs :: chunks fuel' n (skipn n bs)
      end
  end.

Definition decode_cell (t : nptype) (bs : bytes) : scalar :=
  match t with
  | np_int16 => SInt (le_int 16 bs)
  | np_int32 => SInt (le_int 32 bs)
  | np_float32 => SFloat (float32_of_bytes bs)
  | np_float64 => SFloat (float64_of_bytes bs)
  end.

Definition frombuffer (buf : bytes) (t : nptype) : result ndarray :=
  let n := Z.of_nat (length buf) in
  if negb (n mod itemsize t =? 0)
  then Raise (ValueError "buffer size must be a multiple of element size")
  else
    let cells := map (decode_cell t)
                     (chunks (length buf) (Z.to_nat (itemsize t)) buf) in
    Ok {| dtype := t; shape := [n / itemsize t]; data := cells |}.

(** [np.insert(a, 0, v)] on a one-dimensional array: a new array of the
    same dtype with [v], converted to that dtype, in front. *)
Definition insert0 (a : ndarray) (v : scalar) : result ndarray :=
  c ← cast_scalar (dtype a) v;
  Ok {| dtype := dtype a; shape := [nd_size a + 1]; data := c :: data a |}.

(** [a[idx]] for a one-dimensional [a] and an integer array [idx]: the
    cells at those positions, in the shape of [idx]; a negative position
    counts from the end, a position out of range is an [IndexError]. *)
Definition take1 (cells : list scalar) (c : scalar) : result scalar :=
  match c with
  | SFloat _ => Raise IndexError
  | SInt i =>
      let n := Z.of_nat (length cells) in
      if (i <? - n) || (n <=? i) then Raise IndexError
      else
        let j := if i <? 0 then i + n else i in
        match nth_error cells (Z.to_nat j) with
        | Some c => Ok c
        | None => Raise IndexError
        end
  end.

Definition fancy_index (a idx : ndarray) : result ndarray :=
  d ← mapM (take1 (data a)) (data idx);
  Ok {| dtype := dtype a; shape := shape idx; data := d |}.

(** [a[a == v] = x]: [x] is first converted to the dtype of [a], then
    stored in every cell that compares equal to [v]. *)
Definition assign_where_eq (a : ndarray) (v x : scalar) : result ndarray :=
  let mask := map (fun c => cell_eqb (dtype a) c v) (data a) in
  x' ← cast_scalar (dtype a) x;
  Ok {| dtype := dtype a; shape := shape a;
        data := map (fun cm : scalar * bool => if snd cm then x' else fst cm)
                    (combine (data a) mask) |}.

(** [np.nan_to_num(a, copy=True, nan=0.0).astype("int32")] on a float64
    array: not-a-number becomes 0, the infinities the largest and
    smallest double; then every cell is truncated to a 32-bit integer. *)
Definition max_double : spec_float := S754_finite false (2 ^ 53 - 1) 971.
Definition min_double : spec_float := S754_finite true (2 ^ 53 - 1) 971.

Definition nan_to_num0 (c : scalar) : scalar :=
  match c with
  | SFloat S754_nan => SFloat (S754_zero false)
  | SFloat (S754_infinity false) => SFloat max_double
  | SFloat (S754_infinity true) => SFloat min_double
  | _ => c
  end.

Definition nan_to_num_int32 (a : ndarray) : ndarray :=
  astype {| dtype := dtype a; shape := shape a;
            data := map nan_to_num0 (data a) |} np_int32.

(** ** Dates and tables *)

(** [datetime.datetime] at midnight *)
Record datetime := { dt_year : Z; dt_month : Z; dt_day : Z }.

(** A column label of a pandas table: a timestamp or a text. *)
Inductive colkey :=
| KDate (d : datetime)
| KStr (s : string).

(** [pd.DataFrame]: row labels and labelled columns of cells. *)
Record DataFrame := {
  df_index : list Z;
  df_columns : list (colkey * list scalar)
}.

(** A variable of an xarray dataset: its array and its attributes. *)
Record layer := {
  l_data : ndarray;
  l_attrs : gmap string string
}.

(** ** The environment

    What the module asks of pandas, the standard library and the operating
    system, and what depends on their versions or on the machine. *)

Class Env := {
  (** [pd.Period(s).year]: the year of the period pandas parses from the
      text [s], or the error it raises *)
  Period : string -> result Z;
  (** [datetime.datetime.strptime(b.decode(), fmt)] *)
  strptime : bytes -> string -> result datetime;
  (** [d.strftime("%Y-%m-%d")] *)
  strftime : datetime -> string;
  (** [Path(p).resolve()] *)
  resolve : string -> string;
  (** the payload of a gzip file *)
  gunzip : bytes -> result bytes;
  (** [sp.Popen(cmd, stdout=sp.PIPE)]: the bytes the process writes to its
      standard output, or the error of the launch *)
  Popen : list string -> result bytes;
  (** [xa.open_dataset(p)]: the variables of the dataset, by name *)
  open_dataset : string -> result (gmap string layer);
  (** [pd.date_range(start="1/1/y", end="12/31/y", freq=f)] *)
  date_range : Z -> string -> list datetime;
  (** [list(set(xs))]: the distinct elements, in the interpreter's order *)
  list_set : list Z -> list Z;
  (** [a.mean()] and [a.sum()] of the selected cells *)
  np_mean : list scalar -> scalar;
  np_sum : list scalar -> scalar;
  (** [df[key] = pd.DataFrame(data=d, index=i, columns=["values"])] *)
  setitem_frame : DataFrame -> datetime -> list scalar -> list Z -> result DataFrame
}.

(** ** n_records *)

(** pandas: [ccalendar.is_leapyear], as [Period.is_leap_year] calls it on
    the period's year. *)
Definition is_leap_year (year : Z) : bool :=
  (Z.land year 3 =? 0) && (negb (year mod 100 =? 0) || (year mod 400 =? 0)).

Definition n_records `{Env} (year : Z) (time_step : string) : result Z :=
  let time_step := lower time_step in
  if negb (str_in time_step ["annual"; "monthly"; "daily"])
  then Raise (AssertionError "time_step must be annual monthly or daily")
  else if String.eqb time_step "annual" then Ok 1
  else if String.eqb time_step "monthly" then Ok 12
  else
    p ← Period (str_of_int year +:+ "-01-01");
    let days := if is_leap_year p then 366 else 365 in
    Ok days.

(** ** The world: file objects, files, tables

    File objects and tables are mutable and shared, so they live in a
    store and the program holds their identities. *)

Inductive reader_kind := GzipFile | BufferedReader | TextIOWrapper.

(** the [name] attribute of a file object: a path, or a file descriptor *)
Inductive py_name :=
| NameStr (s : string)
| NameInt (fd : Z).

Record fileobj := {
  f_kind : reader_kind;
  f_name : py_name;
  f_content : result bytes;   (* what is still to be read, or the error reading raises *)
  f_closed : bool;
  f_buffer : option nat       (* the [buffer] attribute, when there is one *)
}.

Record world := {
  objects : gmap nat fileobj;      (* file objects by identity *)
  files : gmap string bytes;       (* the regular files, by path *)
  frames : gmap nat DataFrame;     (* DataFrame objects by identity *)
  dirs : gset string;              (* directories made *)
  csv_files : gmap string DataFrame (* tables written by [to_csv], by path *)
}.

Definition set_objects (o : gmap nat fileobj) (w : world) : world :=
  {| objects := o; files := files w; frames := frames w; dirs := dirs w;
     csv_files := csv_files w |}.
Definition set_frames (f : gmap nat DataFrame) (w : world) : world :=
  {| objects := objects w; files := files w; frames := f; dirs := dirs w;
     csv_files := csv_files w |}.
Definition set_dirs (d : gset string) (w : world) : world :=
  {| objects := objects w; files := files w; frames := frames w; dirs := d;
     csv_files := csv_files w |}.
Definition set_csv_files (c : gmap string DataFrame) (w : world) : world :=
  {| objects := objects w; files := files w; frames := frames w; dirs := dirs w;
     csv_files := c |}.

(** Computations that may raise and that act on the world; what was done
    before an exception stays done. *)
Definition M (A : Type) : Type := world -> result A * world.

#[global] Instance M_ret : MRet M := fun A a w => (Ok a, w).
#[global] Instance M_bind : MBind M := fun A B k m w =>
  match m w with
  | (Ok a, w') => k a w'
  | (Raise e, w') => (Raise e, w')
  end.

Definition lift {A} (r : result A) : M A := fun w => (r, w).
Definition raise {A} (e : exn) : M A := fun w => (Raise e, w).

Definition get_object (h : nat) : M fileobj := fun w =>
  match objects w !! h with
  | Some f => (Ok f, w)
  | None => (Raise (ValueError "no such file object"), w)
  end.

Definition new_object (f : fileobj) : M nat := fun w =>
  let h := fresh (dom (objects w)) in
  (Ok h, set_objects (<[h := f]> (objects w)) w).

Definition set_content (f : fileobj) (c : bytes) : fileobj :=
  {| f_kind := f_kind f; f_name := f_name f; f_content := Ok c;
     f_closed := f_closed f; f_buffer := f_buffer f |}.

Definition set_closed (f : fileobj) : fileobj :=
  {| f_kind := f_kind f; f_name := f_name f; f_content := f_content f;
     f_closed := true; f_buffer := f_buffer f |}.

Definition set_object (h : nat) (f : fileobj) : M unit := fun w =>
  (Ok tt, set_objects (<[h := f]> (objects w)) w).

(** [ifile.read(n)].  A binary reader, buffered or gzip, delivers [n]
    bytes, or fewer at the end of the stream; for -1 it delivers all that
    is left, and any other negative [n] is refused.  A text stream
    delivers [str], which the decoders of bytes refuse. *)
Definition read (ifile : nat) (n : Z) : M bytes :=
  f ← get_object ifile;
  if f_closed f then raise (ValueError "read of closed file")
  else
    match f_kind f with
    | TextIOWrapper => raise (TypeError "a bytes-like object is required")
    | _ =>
        c ← lift (f_content f);
        if n =? -1 then
          _ ← set_object ifile (set_content f []);
          mret c
        else if n <? 0
        then raise (ValueError "read length must be non-negative or -1")
        else
          _ ← set_object ifile (set_content f (skipn (Z.to_nat n) c));
          mret (firstn (Z.to_nat n) c)
    end.

(** [f.close()] *)
Definition close (h : nat) : M unit := fun w =>
  match objects w !! h with
  | Some f => (Ok tt, set_objects (<[h := set_closed f]> (objects w)) w)
  | None => (Ok tt, w)
  end.

(** [gzip.open(p)] and [open(p, "rb")] *)
Definition gzip_open `{Env} (p : string) : M nat := fun w =>
  match files w !! p with
  | None => (Raise (FileNotFoundError p), w)
  | Some bs =>
      new_object {| f_kind := GzipFile; f_name := NameStr p;
                    f_content := match gunzip bs with
                                 | Ok c => Ok c
                                 | Raise _ => Raise BadGzipFile
                                 end;
                    f_closed := false; f_buffer := None |} w
  end.

Definition open_rb (p : string) : M nat := fun w =>
  match files w !! p with
  | None => (Raise (FileNotFoundError p), w)
  | Some bs =>
      new_object {| f_kind := BufferedReader; f_name := NameStr p;
                    f_content := Ok bs; f_closed := false; f_buffer := None |} w
  end.

(** ** The header: MFdsHeader and headDS *)

(** The ctypes structure: [Swap] and [Type] are shorts at offsets 0 and 2,
    [ItemNum] an int at 4, the union [Missing] eight bytes at 8, [Date]
    twenty-four characters at 16; forty bytes in all. *)
Record MFdsHeader := {
  Swap : Z;
  Type_ : Z;
  ItemNum : Z;
  Missing : bytes;
  Date : bytes
}.

Definition from_buffer_copy (b : bytes) : result MFdsHeader :=
  if (length b <? 40)%nat then Raise (ValueError "Buffer size too small")
  else Ok {| Swap := le_int 16 (slice 0 2 b);
             Type_ := le_int 16 (slice 2 4 b);
             ItemNum := le_int 32 (slice 4 8 b);
             Missing := slice 8 16 b;
             Date := slice 16 40 b |}.

(** the two readings of the union *)
Definition Missing_Int (h : MFdsHeader) : Z := le_int 32 (slice 0 4 (Missing h)).
Definition Missing_Float (h : MFdsHeader) : spec_float := float64_of_bytes (Missing h).

(** a character array reads as the bytes before its first NUL *)
Fixpoint until_nul (bs : bytes) : bytes :=
  match bs with
  | [] => []
  | b :: bs' => if b =? 0 then [] else b :: until_nul bs'
  end.

(** [headDS] after its read: the fields of the forty bytes *)
Definition parse_header `{Env} (time_step : string) (forty : bytes)
  : result (Z * nptype * scalar * datetime * Z) :=
  dump40 ← from_buffer_copy forty;
  let Type' := Type_ dump40 in
  let NoData := if Type' >? 6 then SFloat (Missing_Float dump40)
                else SInt (Missing_Int dump40) in
  npType ← _npType Type';
  let date_format :=
    if String.eqb time_step "daily" then "%Y-%m-%d"
    else if String.eqb time_step "monthly" then "%Y-%m"
    else "%Y" in
  Date' ← strptime (until_nul (Date dump40)) date_format;
  let Items := ItemNum dump40 in
  Ok (Type', npType, NoData, Date', Items).

Definition headDS `{Env} (ifile : nat) (time_step : string)
  : M (Z * nptype * scalar * datetime * Z) :=
  forty ← read ifile 40;
  lift (parse_header time_step forty).

(** ** recordDS *)

Definition recordDS (ifile : nat) (items : Z) (npType : nptype) (skip : bool)
  : M ndarray :=
  _ ← (if skip then read ifile 40 else mret []);
  let nbytes := items * itemsize npType in
  buf ← read ifile nbytes;
  lift (frombuffer buf npType).

(** ** iter_ds *)

(** The body of the loop of [iter_ds] after the record is read: the
    missing value goes in front of the record, the identifiers pick their
    cells, and the cells equal to the missing value are overwritten with
    not-a-number.  The conversion to float is computed and dropped, as the
    source does ([_ = Data.astype("float")]). *)
Definition remap (cell_id : ndarray) (rgisType : Z) (NoData : scalar)
    (Data : ndarray) : result ndarray :=
  Data ← insert0 Data NoData;
  Data ← (picked ← fancy_index Data (flatten cell_id); reshape picked (shape cell_id));
  let _ := if rgisType <=? 6 then Some (astype Data np_float64) else None in
  assign_where_eq Data NoData nan.

(** What one call of [next] on a generator gives. *)
Inductive outcome (Y : Type) :=
| Yielded (y : Y)
| Stopped
| Raised (e : exn).
Arguments Yielded {Y} y.
Arguments Stopped {Y}.
Arguments Raised {Y} e.

(** The frame of the generator [iter_ds]: created and not yet run,
    suspended at its [yield] with its local variables, or finished. *)
Inductive ds_gen :=
| DsCreated (file_buf : nat) (mask_id : ndarray) (year : Z) (time_step : string)
| DsSuspended (file_buf : nat) (time_step : string) (cell_id : ndarray)
    (nRecords rgisType : Z) (npType : nptype) (NoData : scalar)
    (Date' : datetime) (Cells day : Z)
| DsFinished.

(** One turn of the loop, up to the [yield]. *)
Definition ds_iteration `{Env} (file_buf : nat) (time_step : string)
    (cell_id : ndarray) (rgisType : Z) (npType : nptype) (NoData : scalar)
    (Date' : datetime) (Cells day : Z) : M (ndarray * datetime) :=
  Date' ← (if negb (day =? 0)
           then '(_, _, _, Date', _) ← headDS file_buf time_step; mret Date'
           else mret Date');
  Data ← recordDS file_buf Cells npType false;
  Data ← lift (remap cell_id rgisType NoData Data);
  mret (Data, Date').

(** The loop [for day in range(0, nRecords)] entered at [day]. *)
Definition ds_loop `{Env} (file_buf : nat) (time_step : string)
    (cell_id : ndarray) (nRecords rgisType : Z) (npType : nptype)
    (NoData : scalar) (Date' : datetime) (Cells day : Z) (w : world)
  : outcome (ndarray * datetime) * ds_gen * world :=
  if day <? nRecords then
    match ds_iteration file_buf time_step cell_id rgisType npType NoData
                       Date' Cells day w with
    | (Ok (Data, Date''), w') =>
        (Yielded (Data, Date''),
         DsSuspended file_buf time_step cell_id nRecords rgisType npType
                     NoData Date'' Cells day,
         w')
    | (Raise e, w') => (Raised e, DsFinished, w')
    end
  else (Stopped, DsFinished, w).

Definition iter_ds_next `{Env} (g : ds_gen) (w : world)
  : outcome (ndarray * datetime) * ds_gen * world :=
  match g with
  | DsCreated file_buf mask_id year time_step =>
      let cell_id := nan_to_num_int32 mask_id in
      let start : M (Z * (Z * nptype * scalar * datetime * Z)) :=
        nRecords ← lift (n_records year time_step);
        head ← headDS file_buf time_step;
        mret (nRecords, head) in
      match start w with
      | (Ok (nRecords, (rgisType, npType, NoData, Date', Cells)), w') =>
          ds_loop file_buf time_step cell_id nRecords rgisType npType NoData
                  Date' Cells 0 w'
      | (Raise e, w') => (Raised e, DsFinished, w')
      end
  | DsSuspended file_buf time_step cell_id nRecords rgisType npType NoData
                Date' Cells day =>
      ds_loop file_buf time_step cell_id nRecords rgisType npType NoData
              Date' Cells (day + 1) w
  | DsFinished => (Stopped, DsFinished, w)
  end.

Definition iter_ds (file_buf : nat) (mask_id : ndarray) (year : Z)
    (time_step : string) : ds_gen :=
  DsCreated file_buf mask_id year time_step.

(** ** Consuming a generator *)

Section Generators.
Context {G Y : Type}.
Variable next : G -> world -> outcome Y * G * world.

(** [list(gen)]: every item up to the end or to the exception.  The
    answer is [None] when [fuel] calls of [next] did not reach either. *)
Fixpoint drain (fuel : nat) (g : G) (w : world)
  : list Y * option (result unit) * world :=
  match fuel with
  | O => ([], None, w)
  | S fuel' =>
      match next g w with
      | (Yielded y, g', w') =>
          let '(ys, r, w'') := drain fuel' g' w' in (y :: ys, r, w'')
      | (Stopped, _, w') => ([], Some (Ok tt), w')
      | (Raised e, _, w') => ([], Some (Raise e), w')
      end
  end.

(** [for y in gen: body(y)] *)
Fixpoint for_loop (body : Y -> M unit) (fuel : nat) (g : G) (w : world)
  : option (result unit) * world :=
  match fuel with
  | O => (None, w)
  | S fuel' =>
      match next g w with
      | (Yielded y, g', w') =>
          match body y w' with
          | (Ok _, w'') => for_loop body fuel' g' w''
          | (Raise e, w'') => (Some (Raise e), w'')
          end
      | (Stopped, _, w') => (Some (Ok tt), w')
      | (Raised e, _, w') => (Some (Raise e), w')
      end
  end.
End Generators.

(** [iter_ds] yields at most 366 items, so 367 calls of [next] end it. *)
Definition ds_fuel : nat := 367.

(** ** gdbc_to_ds_buffer and iter_gdbc *)

(** [c.isspace()] for a character below 256: the blank, the controls 9 to
    13 and 28 to 31, the next-line control 133 and the no-break space
    160 *)
Definition is_space (c : ascii) : bool :=
  let n := nat_of_ascii c in
  (n =? 32)%nat || ((9 <=? n)%nat && (n <=? 13)%nat)
  || ((28 <=? n)%nat && (n <=? 31)%nat) || (n =? 133)%nat || (n =? 160)%nat.

(** [s.split()]: the words between runs of white space *)
Fixpoint split_ws_aux (s : string) (word : string) : list string :=
  match s with
  | EmptyString => if String.eqb word "" then [] else [word]
  | String c s' =>
      if is_space c
      then (if String.eqb word "" then split_ws_aux s' ""
            else word :: split_ws_aux s' "")
      else split_ws_aux s' (word +:+ String c EmptyString)
  end.
Definition split_ws (s : string) : list string := split_ws_aux s "".

(** the reading end of the pipe of a new process; its [name] is the file
    descriptor *)
Definition new_pipe (out : bytes) : M nat := fun w =>
  let h := fresh (dom (objects w)) in
  new_object {| f_kind := BufferedReader; f_name := NameInt (Z.of_nat h);
                f_content := Ok out; f_closed := false; f_buffer := None |} w.

Definition gdbc_to_ds_buffer `{Env} (gdbc network : string) : M nat :=
  let cmd := split_ws ("rgis2ds --template " +:+ network +:+ " " +:+ gdbc) in
  out ← lift (Popen cmd);
  new_pipe out.

(** The frame of the generator [iter_gdbc]. *)
Inductive gdbc_gen :=
| GdbcCreated (gdbc network : string) (mask_id : ndarray) (year : Z)
    (time_step : string)
| GdbcSuspended (file_buf : nat) (inner : ds_gen)
| GdbcFinished.

(** The [for] over [iter_ds] inside the [try]: an item of the inner
    generator is yielded on; its end ends this generator; its exception is
    not a [GeneratorExit] and goes through the [except]. *)
Definition gdbc_loop `{Env} (file_buf : nat) (inner : ds_gen) (w : world)
  : outcome (ndarray * datetime) * gdbc_gen * world :=
  match iter_ds_next inner w with
  | (Yielded y, inner', w') => (Yielded y, GdbcSuspended file_buf inner', w')
  | (Stopped, _, w') => (Stopped, GdbcFinished, w')
  | (Raised e, _, w') => (Raised e, GdbcFinished, w')
  end.

Definition iter_gdbc_next `{Env} (g : gdbc_gen) (w : world)
  : outcome (ndarray * datetime) * gdbc_gen * world :=
  match g with
  | GdbcCreated gdbc network mask_id year time_step =>
      match gdbc_to_ds_buffer gdbc network w with
      | (Ok file_buf, w') =>
          gdbc_loop file_buf (iter_ds file_buf mask_id year time_step) w'
      | (Raise e, w') => (Raised e, GdbcFinished, w')
      end
  | GdbcSuspended file_buf inner => gdbc_loop file_buf inner w
  | GdbcFinished => (Stopped, GdbcFinished, w)
  end.

(** [gen.close()]: a generator that has not started, or has finished, is
    only marked finished.  One suspended at its [yield] gets a
    [GeneratorExit] there; [iter_gdbc] catches it, closes [file_buf] and
    runs off its end, so [close] returns. *)
Definition iter_gdbc_close (g : gdbc_gen) (w : world)
  : result unit * gdbc_gen * world :=
  match g with
  | GdbcCreated _ _ _ _ _ => (Ok tt, GdbcFinished, w)
  | GdbcSuspended file_buf _ =>
      let '(r, w') := close file_buf w in (r, GdbcFinished, w')
  | GdbcFinished => (Ok tt, GdbcFinished, w)
  end.

Definition iter_gdbc (gdbc network : string) (mask_id : ndarray) (year : Z)
    (time_step : string) : gdbc_gen :=
  GdbcCreated gdbc network mask_id year time_step.

(** ** get_true_datastream *)

(** [s.split(".", 1)]: the text before the first dot and the text after
    it, or the text alone when it has no dot. *)
Fixpoint split_dot_once (s : string) : list string :=
  match s with
  | EmptyString => [EmptyString]
  | String c s' =>
      if Ascii.eqb c "."%char then [EmptyString; s']
      else match split_dot_once s' with
           | a :: rest => String c a :: rest
           | [] => [String c EmptyString]
           end
  end.

(** [l[-1]] of a list of texts that is not empty *)
Definition last_item (l : list string) : string := List.last l EmptyString.

Definition _is_compressed (file_name : string) : result bool :=
  let extension := last_item (split_dot_once file_name) in
  if negb (str_in extension ["gds.gz"; "ds.gz"; "gds"; "ds"])
  then Raise (AssertionError "extension must be either gz or gds or ds")
  else if str_in extension ["gds.gz"; "ds.gz"] then Ok true
  else if str_in extension ["gds"; "ds"] then Ok false
  else Ok false (* falls off the end: [None], which is false in a test *).

(** [Path(p).name]: the last component of a path *)
Fixpoint path_name_aux (s : string) (acc : string) : string :=
  match s with
  | EmptyString => acc
  | String c s' =>
      if Ascii.eqb c "/"%char then path_name_aux s' EmptyString
      else path_name_aux s' (acc +:+ String c EmptyString)
  end.
Definition path_name (p : string) : string := path_name_aux p EmptyString.

(** The argument of [get_true_datastream]: something [Path] accepts, or a
    file object, on which [Path] raises [TypeError]. *)
Inductive file_arg :=
| PathLike (p : string)
| FileObj (h : nat).

Definition name_is_stdin (n : py_name) : bool :=
  match n with
  | NameStr s => String.eqb s "<stdin>"
  | NameInt _ => false
  end.

Definition get_true_datastream `{Env} (file_in : file_arg) : M nat :=
  match file_in with
  | PathLike p =>
      let file_in := resolve p in
      c ← lift (_is_compressed (path_name file_in));
      if (c : bool) then gzip_open file_in else open_rb file_in
  | FileObj h =>
      f ← get_object h;
      let datastream_path := f_name f in
      if negb (name_is_stdin datastream_path) then
        match datastream_path with
        | NameInt _ => mret h   (* [Path] of an int: [TypeError], caught *)
        | NameStr s =>
            let datastream_name := path_name s in
            c ← lift (_is_compressed datastream_name);
            if (c : bool) then
              datastream ← gzip_open datastream_name;
              _ ← close h;
              mret datastream
            else mret h
        end
      else
        match f_buffer f with
        | Some file_buf => mret file_buf
        | None => mret h        (* [AttributeError]: already a buffer *)
        end
  end.

(** ** get_masks *)

Definition getitem {V} (d : gmap string V) (k : string) : result V :=
  match d !! k with
  | Some v => Ok v
  | None => Raise (KeyError k)
  end.

Definition is_nan (c : scalar) : bool :=
  match c with
  | SFloat S754_nan => true
  | _ => false
  end.

(** [a[~np.isnan(a)].astype("int")] as a list of Python ints *)
Definition int64_of_cell (c : scalar) : Z :=
  match c with
  | SInt z => z
  | SFloat f => float_to_int 64 f
  end.

Definition non_nan_ints (cells : list scalar) : list Z :=
  map int64_of_cell (List.filter (fun c => negb (is_nan c)) cells).

Definition upper_ascii (c : ascii) : ascii :=
  let n := nat_of_ascii c in
  if (andb (Nat.leb 97 n) (Nat.leb n 122)) then ascii_of_nat (n - 32) else c.

(** [s.capitalize()] *)
Definition capitalize (s : string) : string :=
  match s with
  | EmptyString => EmptyString
  | String c s' => String (upper_ascii c) (lower s')
  end.

(** [base.joinpath(a, b)] for relative components *)
Definition joinpath (base a b : string) : string :=
  base +:+ "/" +:+ a +:+ "/" +:+ b.

(** [p.mkdir(exist_ok=True, parents=True)] *)
Definition mkdir (p : string) : M unit := fun w =>
  (Ok tt, set_dirs ({[ p ]} ∪ dirs w) w).

(** [pd.DataFrame(index=i, columns=c)]: a new table object, every cell
    not-a-number *)
Definition new_frame (index : list Z) (columns : list datetime) : M nat := fun w =>
  let df := {| df_index := index;
               df_columns := map (fun d => (KDate d, map (fun _ => nan) index))
                                 columns |} in
  let r := fresh (dom (frames w)) in
  (Ok r, set_frames (<[r := df]> (frames w)) w).

(** One element of the list [masks]; the table is held by identity. *)
Record mask_entry := {
  me_name : string;
  me_Mask : ndarray;
  me_MaskType : string;
  me_MaskValues : list Z;
  me_OutputPath : string;
  me_dfOut : nat
}.

(** The loop of [get_masks].  [dfOut] is a local variable of the function:
    unbound until a layer of type Polygon or Point binds it, and left as
    it is by a layer of any other type. *)
Fixpoint get_masks_loop `{Env} (mask_ds : gmap string layer)
    (mask_layers : list string) (output_dir : string) (year : Z)
    (time_step : string) (dfOut : option nat) (masks : list mask_entry)
  : M (list mask_entry) :=
  match mask_layers with
  | [] => mret masks
  | m :: rest =>
      var ← lift (getitem mask_ds m);
      let Mask := l_data var in
      MaskType ← lift (getitem (l_attrs var) "Type");
      let MaskValues := list_set (non_nan_ints (data (flatten Mask))) in
      let OutputPath := joinpath output_dir m (capitalize time_step) in
      _ ← mkdir OutputPath;
      let date_cols :=
        if String.eqb time_step "daily" then date_range year "D"
        else if String.eqb time_step "monthly" then date_range year "MS"
        else date_range year "YS" in
      dfOut ← (if String.eqb MaskType "Polygon"
               then r ← new_frame MaskValues date_cols; mret (Some r)
               else if String.eqb MaskType "Point"
               then r ← new_frame MaskValues date_cols; mret (Some r)
               else mret dfOut);
      match dfOut with
      | None => raise (UnboundLocalError "dfOut")
      | Some r =>
          get_masks_loop mask_ds rest output_dir year time_step (Some r)
            (masks ++ [{| me_name := m; me_Mask := Mask;
                          me_MaskType := MaskType;
                          me_MaskValues := MaskValues;
                          me_OutputPath := OutputPath; me_dfOut := r |}])
      end
  end.

Definition get_masks `{Env} (mask_ds : gmap string layer)
    (mask_layers : list string) (output_dir : string) (year : Z)
    (time_step : string) : M (list mask_entry) :=
  get_masks_loop mask_ds mask_layers output_dir year time_step None [].

(** ** sample_ds *)

Definition shape_eqb (a b : list Z) : bool :=
  (length a =? length b)%nat && forallb (fun p => fst p =? snd p) (combine a b).

(** [a[m]] for a boolean array [m] of the shape of [a]: the cells where
    [m] holds; with another shape, an [IndexError] *)
Definition select (a : ndarray) (mshape : list Z) (m : list bool)
  : result (list scalar) :=
  if shape_eqb (shape a) mshape
  then Ok (map fst (List.filter snd (combine (data a) m)))
  else Raise IndexError.

Definition colkey_eqb (a b : colkey) : bool :=
  match a, b with
  | KStr x, KStr y => String.eqb x y
  | KDate x, KDate y =>
      (dt_year x =? dt_year y) && (dt_month x =? dt_month y)
      && (dt_day x =? dt_day y)
  | _, _ => false
  end.

(** [df[key] = vals] for a list [vals]: one value per row, in a column
    that is replaced when [key] is there and added at the end when not *)
Definition setitem_list (df : DataFrame) (key : colkey) (vals : list scalar)
  : result DataFrame :=
  if negb (length vals =? length (df_index df))%nat
  then Raise (ValueError "Length of values does not match length of index")
  else
    let cols := df_columns df in
    Ok {| df_index := df_index df;
          df_columns :=
            if existsb (fun c => colkey_eqb (fst c) key) cols
            then map (fun c => if colkey_eqb (fst c) key then (key, vals) else c)
                     cols
            else cols ++ [(key, vals)] |}.

(** a change of the table object [r] in place *)
Definition update_frame (r : nat) (f : DataFrame -> result DataFrame)
  : M unit := fun w =>
  match frames w !! r with
  | None => (Raise (ValueError "no such table object"), w)
  | Some df =>
      match f df with
      | Ok df' => (Ok tt, set_frames (<[r := df']> (frames w)) w)
      | Raise e => (Raise e, w)
      end
  end.

(** what the loop of [sample_ds] does with one record for one mask *)
Definition sample_mask `{Env} (Data : ndarray) (Date' : datetime)
    (me : mask_entry) : M unit :=
  let Mask := me_Mask me in
  if String.eqb (me_MaskType me) "Polygon" then
    let cells_of i :=
      select Data (shape Mask)
             (map (fun c => cell_eqb (dtype Mask) c (SInt i)) (data Mask)) in
    means ← lift (mapM (fun i => cs ← cells_of i; Ok (np_mean cs))
                       (me_MaskValues me));
    _ ← update_frame (me_dfOut me)
          (fun df => setitem_list df (KStr ("mean_" +:+ strftime Date')) means);
    sums ← lift (mapM (fun i => cs ← cells_of i; Ok (np_sum cs))
                      (me_MaskValues me));
    update_frame (me_dfOut me)
      (fun df => setitem_list df (KStr ("sum_" +:+ strftime Date')) sums)
  else if String.eqb (me_MaskType me) "Point" then
    let present := map (fun c => negb (is_nan c)) (data Mask) in
    values ← lift (select Data (shape Mask) present);
    update_frame (me_dfOut me)
      (fun df => setitem_frame df Date' values (non_nan_ints (data Mask)))
  else mret tt.

Fixpoint for_masks {A} (f : A -> M unit) (l : list A) : M unit :=
  match l with
  | [] => mret tt
  | x :: l' => _ ← f x; for_masks f l'
  end.

(** the first loop of [sample_ds]: over the records, and for each over
    the masks *)
Definition sample_iterate `{Env} (file_buf : nat) (ID : ndarray) (year : Z)
    (time_step : string) (masks : list mask_entry) : M unit := fun w =>
  match for_loop iter_ds_next
          (fun y => for_masks (sample_mask (fst y) (snd y)) masks)
          ds_fuel (iter_ds file_buf ID year time_step) w with
  | (Some r, w') => (r, w')
  | (None, w') => (Raise (Exception "iteration did not end"), w')
  end.

(** [df.to_csv(p)] *)
Definition to_csv (r : nat) (p : string) : M unit := fun w =>
  match frames w !! r with
  | None => (Raise (ValueError "no such table object"), w)
  | Some df => (Ok tt, set_csv_files (<[p := df]> (csv_files w)) w)
  end.

(** the second loop of [sample_ds]: the tables are written *)
Definition write_tables (masks : list mask_entry) (variable : string)
    (year : Z) : M unit :=
  for_masks
    (fun me => to_csv (me_dfOut me)
                 (me_OutputPath me +:+ "/" +:+ variable +:+ "_"
                  +:+ str_of_int year +:+ ".csv"))
    masks.

(** [sample_ds] up to its first loop: the stream, the mask dataset, the
    tables and the identifier grid *)
Definition sample_setup `{Env} (mask_nc : string) (file_in : file_arg)
    (mask_layers : list string) (output_dir : string) (year : Z)
    (time_step : string) : M (nat * list mask_entry * ndarray) :=
  file_buf ← get_true_datastream file_in;
  mask_ds ← lift (open_dataset mask_nc);
  masks ← get_masks mask_ds mask_layers output_dir year time_step;
  ID ← lift (getitem mask_ds "ID");
  mret (file_buf, masks, l_data ID).

Definition sample_ds `{Env} (mask_nc : string) (file_in : file_arg)
    (mask_layers : list string) (output_dir : string) (year : Z)
    (variable time_step : string) : M unit :=
  '(file_buf, masks, ID) ← sample_setup mask_nc file_in mask_layers
                              output_dir year time_step;
  _ ← sample_iterate file_buf ID year time_step masks;
  write_tables masks variable year.

(** ** An environment and streams for the examples

    The library functions on the inputs the examples give them:
    zero-padded ASCII dates, files that are already plain, tables with
    distinct row labels. *)

Definition digits_val (bs : bytes) : option Z :=
  match bs with
  | [] => None
  | _ => fold_left (fun acc b =>
                      match acc with
                      | Some a => if (48 <=? b) && (b <=? 57)
                                  then Some (10 * a + (b - 48)) else None
                      | None => None
                      end) bs (Some 0)
  end.

Definition example_strptime (b : bytes) (fmt : string) : result datetime :=
  let bad := Raise (ValueError "time data does not match format") in
  let num lo hi := digits_val (slice lo hi b) in
  let dash i := match nth_error b i with Some 45 => true | _ => false end in
  if String.eqb fmt "%Y" then
    match num 0%nat 4%nat with
    | Some y => if (length b =? 4)%nat
                then Ok {| dt_year := y; dt_month := 1; dt_day := 1 |} else bad
    | None => bad
    end
  else if String.eqb fmt "%Y-%m" then
    match num 0%nat 4%nat, num 5%nat 7%nat with
    | Some y, Some m =>
        if (length b =? 7)%nat && dash 4%nat && (1 <=? m) && (m <=? 12)
        then Ok {| dt_year := y; dt_month := m; dt_day := 1 |} else bad
    | _, _ => bad
    end
  else if String.eqb fmt "%Y-%m-%d" then
    match num 0%nat 4%nat, num 5%nat 7%nat, num 8%nat 10%nat with
    | Some y, Some m, Some d =>
        if (length b =? 10)%nat && dash 4%nat && dash 7%nat
           && (1 <=? m) && (m <=? 12) && (1 <=? d) && (d <=? 31)
        then Ok {| dt_year := y; dt_month := m; dt_day := d |} else bad
    | _, _, _ => bad
    end
  else bad.

(** pandas on the text of a date [YYYY-01-01] with a four-digit year: the
    period of that day, whose year is [YYYY].  A text [Y-01-01] with one
    digit from 1 to 9 in front is no ISO date; it is read as month, day
    and a two-digit year: the first day of month [Y] of 2001. *)
Definition example_Period (s : string) : result Z :=
  match s with
  | String a (String b (String c (String d rest))) =>
      match digits_val (map (fun x => Z.of_nat (nat_of_ascii x)) [a; b; c; d]) with
      | Some y => if String.eqb rest "-01-01" then Ok y else Raise DateParseError
      | None =>
          let m := Z.of_nat (nat_of_ascii a) - 48 in
          if (1 <=? m) && (m <=? 9)
             && String.eqb (String b (String c (String d rest))) "-01-01"
          then Ok 2001 else Raise DateParseError
      end
  | _ => Raise DateParseError
  end.

Definition two_digits (n : Z) : string :=
  (if n <? 10 then "0" else "") +:+ str_of_int n.

Definition example_strftime (d : datetime) : string :=
  str_of_int (dt_year d) +:+ "-" +:+ two_digits (dt_month d) +:+ "-"
  +:+ two_digits (dt_day d).

Definition days_in_month (y m : Z) : Z :=
  if m =? 2 then (if is_leap_year y then 29 else 28)
  else if (m =? 4) || (m =? 6) || (m =? 9) || (m =? 11) then 30 else 31.

Definition Zrange (n : Z) : list Z := map Z.of_nat (seq 1 (Z.to_nat n)).

Definition example_date_range (y : Z) (freq : string) : list datetime :=
  if String.eqb freq "D" then
    flat_map (fun m => map (fun d => {| dt_year := y; dt_month := m; dt_day := d |})
                           (Zrange (days_in_month y m)))
             (Zrange 12)
  else if String.eqb freq "MS" then
    map (fun m => {| dt_year := y; dt_month := m; dt_day := 1 |}) (Zrange 12)
  else [{| dt_year := y; dt_month := 1; dt_day := 1 |}].

Fixpoint example_list_set (xs : list Z) : list Z :=
  match xs with
  | [] => []
  | x :: xs' => x :: List.filter (fun y => negb (y =? x)) (example_list_set xs')
  end.

Definition example_sum (cs : list scalar) : scalar :=
  SFloat (fold_left (fun acc c => SFadd 53 1024 acc (scalar_to_float c)) cs
                    (S754_zero false)).

Definition example_mean (cs : list scalar) : scalar :=
  SFloat (SFdiv 53 1024 (scalar_to_float (example_sum cs))
                (float_of_Z (Z.of_nat (length cs)))).

Definition example_setitem_frame (df : DataFrame) (key : datetime)
    (values : list scalar) (index : list Z) : result DataFrame :=
  let cell i := match List.find (fun p => fst p =? i) (combine index values) with
                | Some p => snd p
                | None => nan
                end in
  setitem_list df (KDate key) (map cell (df_index df)).

(** the bytes of numbers, little-endian *)
Fixpoint le_bytes (n : nat) (z : Z) : bytes :=
  match n with
  | O => []
  | S n' => z mod 256 :: le_bytes n' (z / 256)
  end.

Definition float64_bits (f : spec_float) : Z :=
  let sign (s : bool) := if s then 2 ^ 63 else 0 in
  match f with
  | S754_zero s => sign s
  | S754_infinity s => sign s + 2047 * 2 ^ 52
  | S754_nan => 2047 * 2 ^ 52 + 2 ^ 51
  | S754_finite s m e =>
      if Z.pos m <? 2 ^ 52 then sign s + Z.pos m
      else sign s + (e + 1075) * 2 ^ 52 + (Z.pos m - 2 ^ 52)
  end.

Definition double_bytes (z : Z) : bytes := le_bytes 8 (float64_bits (float_of_Z z)).

Definition ascii_bytes (s : string) : bytes :=
  map (fun c => Z.of_nat (nat_of_ascii c)) (list_ascii_of_string s).

Definition pad (n : nat) (bs : bytes) : bytes :=
  firstn n (bs ++ repeat 0 n)%list.

(** a header of forty bytes *)
Definition header_bytes (type items : Z) (missing : bytes) (date : string)
  : bytes :=
  (le_bytes 2 0 ++ le_bytes 2 type ++ le_bytes 4 items ++ pad 8 missing
   ++ pad 24 (ascii_bytes date))%list.

(** The grid of identifiers [[nan, 1], [2, 1]] of the mask dataset. *)
Definition example_ID : ndarray :=
  {| dtype := np_float64; shape := [2; 2];
     data := [nan; SFloat (float_of_Z 1); SFloat (float_of_Z 2);
              SFloat (float_of_Z 1)] |}.

(** One float64 record [10, 20] with missing value -9999, for a year. *)
Definition example_double_stream : bytes :=
  (header_bytes 8 2 (double_bytes (-9999)) "2000"
   ++ double_bytes 10 ++ double_bytes 20)%list.

(** The same record as 32-bit integers. *)
Definition example_int_stream : bytes :=
  (header_bytes 6 2 (le_bytes 4 (-9999)) "2000"
   ++ le_bytes 4 10 ++ le_bytes 4 20)%list.

(** Twelve float64 records, one a month: month [m] holds [m] and
    [-9999]. *)
Definition example_monthly_stream : bytes :=
  flat_map (fun m => header_bytes 8 2 (double_bytes (-9999))
                                  ("2001-" +:+ two_digits m)
                     ++ double_bytes m ++ double_bytes (-9999))
           (Zrange 12).

Definition example_masks : gmap string layer :=
  let ty (t : string) : gmap string string := {[ "Type" := t ]} in
  let grid cells := {| dtype := np_float64; shape := [2; 2]; data := cells |} in
  {[ "ID" := {| l_data := example_ID; l_attrs := ∅ |};
     "Gauges" := {| l_data := grid [nan; SFloat (float_of_Z 1);
                                    SFloat (float_of_Z 2); nan];
                    l_attrs := ty "Point" |};
     "Basins" := {| l_data := grid [nan; SFloat (float_of_Z 1);
                                    SFloat (float_of_Z 1); SFloat (float_of_Z 1)];
                    l_attrs := ty "Polygon" |};
     "Rivers" := {| l_data := example_ID; l_attrs := ty "Line" |} ]}.

Definition example_env : Env := {|
  Period := example_Period;
  strptime := example_strptime;
  strftime := example_strftime;
  resolve := fun p => p;
  gunzip := fun b => Ok b;
  Popen := fun cmd =>
    match cmd with
    | [_; _; _; gdbc] =>
        if String.eqb gdbc "/data/q_2001.gdbc" then Ok example_monthly_stream
        else Ok example_int_stream
    | _ => Raise (FileNotFoundError "rgis2ds")
    end;
  open_dataset := fun _ => Ok example_masks;
  date_range := example_date_range;
  list_set := example_list_set;
  np_mean := example_mean;
  np_sum := example_sum;
  setitem_frame := example_setitem_frame
|}.

(** a world with the three streams as files and nothing open *)
Definition example_world : world := {|
  objects := ∅;
  files := {[ "/data/q_2000.gds" := example_double_stream;
              "/data/q.2000.gds" := example_double_stream;
              "/data/q_2000.ds.gz" := example_double_stream;
              "/data/n_2000.gds" := example_int_stream;
              "/data/q_2001.gds" := example_monthly_stream ]};
  frames := ∅;
  dirs := ∅;
  csv_files := ∅
|}.

(** a world whose only file object, 0, is a binary reader over [stream] *)
Definition example_open (stream : bytes) : world := {|
  objects := {[ 0%nat := {| f_kind := BufferedReader;
                            f_name := NameStr "/data/stream.gds";
                            f_content := Ok stream; f_closed := false;
                            f_buffer := None |} ]};
  files := ∅;
  frames := ∅;
  dirs := ∅;
  csv_files := ∅
|}.

(** the identifiers [[0, 1], [2, 1]] as 32-bit integers *)
Definition example_cell_id : ndarray :=
  {| dtype := np_int32; shape := [2; 2];
     data := [SInt 0; SInt 1; SInt 2; SInt 1] |}.

(** ** Notions for the statements *)

(** the bytes of a stream of records, each a header and its cells *)
Definition stream_of (chunks : list (bytes * bytes)) : bytes :=
  flat_map (fun ch => (fst ch ++ snd ch)%list) chunks.

(** [chunk] is a header of forty bytes that [headDS] reads, with the date
    of [y], and a record of [Cells] cells that decodes and remaps to the
    grid of [y] *)
Definition record_ok `{Env} (time_step : string) (cell_id : ndarray)
    (rgisType : Z) (npType : nptype) (NoData : scalar) (Cells : Z)
    (chunk : bytes * bytes) (y : ndarray * datetime) : Prop :=
  length (fst chunk) = 40%nat
  /\ Z.of_nat (length (snd chunk)) = Cells * itemsize npType
  /\ (exists t' n' m' c',
         parse_header time_step (fst chunk) = Ok (t', n', m', snd y, c'))
  /\ (Data ← frombuffer (snd chunk) npType;
      remap cell_id rgisType NoData Data) = Ok (fst y).

(** the records of [example_monthly_stream], and what [iter_ds] makes of
    them over [example_ID] *)
Definition example_monthly_chunks : list (bytes * bytes) :=
  map (fun m => (header_bytes 8 2 (double_bytes (-9999))
                              ("2001-" +:+ two_digits m),
                 double_bytes m ++ double_bytes (-9999)))
      (Zrange 12).

Definition example_monthly_yields : list (ndarray * datetime) :=
  map (fun m => ({| dtype := np_float64; shape := [2; 2];
                    data := [nan; SFloat (float_of_Z m); nan;
                             SFloat (float_of_Z m)] |},
                 {| dt_year := 2001; dt_month := m; dt_day := 1 |}))
      (Zrange 12).

(** Twelve records of 32-bit integers (type code 6), one a month: month
    [m] holds [m] and the missing value -9999. *)
Definition example_monthly_int_chunks : list (bytes * bytes) :=
  map (fun m => (header_bytes 6 2 (le_bytes 4 (-9999))
                              ("2001-" +:+ two_digits m),
                 le_bytes 4 m ++ le_bytes 4 (-9999)))
      (Zrange 12).

(** the file object [h] with [c] left to read *)
Definition with_content (h : nat) (f : fileobj) (c : bytes) (w : world)
  : world :=
  set_objects (<[h := set_content f c]> (objects w)) w.

(** [k] calls of [next], each of which yields *)
Fixpoint take_items {G Y : Type}
    (next : G -> world -> outcome Y * G * world) (k : nat) (g : G)
    (w : world) : option (list Y * G * world) :=
  match k with
  | O => Some ([], g, w)
  | S k' =>
      match next g w with
      | (Yielded y, g', w') =>
          match take_items next k' g' w' with
          | Some (ys, g'', w'') => Some (y :: ys, g'', w'')
          | None => None
          end
      | _ => None
      end
  end.


(** a text without a dot *)
Fixpoint no_dot (s : string) : bool :=
  match s with
  | EmptyString => true
  | String c s' => negb (Ascii.eqb c "."%char) && no_dot s'
  end.

(** [s.endswith(suffix)] *)
Definition ends_with (suffix s : string) : bool :=
  let n := String.length s in
  let m := String.length suffix in
  (m <=? n)%nat && String.eqb (substring (n - m) m s) suffix.

(** the kind of the file object [h] *)
Definition kind_of (w : world) (h : nat) : option reader_kind :=
  f_kind <$> objects w !! h.

(** the file object [h] is closed *)
Definition is_closed (w : world) (h : nat) : bool :=
  match objects w !! h with
  | Some f => f_closed f
  | None => false
  end.

(** a layer that is in the dataset and has a [Type] attribute *)
Definition typed_layer (mask_ds : gmap string layer) (m : string) : Prop :=
  exists var t, mask_ds !! m = Some var /\ l_attrs var !! "Type" = Some t.

(** [m] leaves the world related by [R] to the one it started in *)
Definition keeps {A} (R : world -> world -> Prop) (m : M A) : Prop :=
  forall w, R w (snd (m w)).

(** no table has been written between [w] and [w'] *)
Definition same_csv (w w' : world) : Prop := csv_files w' = csv_files w.

(** the file objects of [w] are still there in [w'], open if they were
    open and closed if they were closed *)
Definition objects_stay (w w' : world) : Prop :=
  forall h f, objects w !! h = Some f ->
              exists f', objects w' !! h = Some f' /\ f_closed f' = f_closed f.


(** ** sample_gdbc *)

(** [needle in s] for texts *)
Fixpoint str_contains (needle s : string) : bool :=
  String.prefix needle s
  || match s with
     | EmptyString => false
     | String _ s' => str_contains needle s'
     end.

Definition sample_gdbc `{Env} (mask_nc file_path network : string)
    (mask_layers : list string) (output_dir : string) (year : Z)
    (variable time_step : string) : M unit :=
  if negb (str_contains "gdbn" (last_item (split_dot_once (path_name network))))
  then raise (AssertionError "Network must be gdbn")
  else
    ds ← gdbc_to_ds_buffer file_path network;
    sample_ds mask_nc (FileObj ds) mask_layers output_dir year variable
              time_step.

(** ** More notions for the statements *)

(** a text of printable ASCII characters other than the blank: a word for
    every reading of white space *)
Definition plain_char (c : ascii) : bool :=
  let n := nat_of_ascii c in
  (33 <=? n)%nat && (n <=? 126)%nat.

Fixpoint plain_word (s : string) : bool :=
  match s with
  | EmptyString => true
  | String c s' => plain_char c && plain_word s'
  end.

(** between [w] and [w'] only file objects have changed: the files on
    disk, the tables, the directories and the written tables are the
    same *)
Definition only_objects_change (w w' : world) : Prop :=
  files w' = files w /\ frames w' = frames w /\ dirs w' = dirs w
  /\ csv_files w' = csv_files w.

(** the path of the table that [sample_ds] writes for a mask *)
Definition csv_path (me : mask_entry) (variable : string) (year : Z) : string :=
  me_OutputPath me +:+ "/" +:+ variable +:+ "_" +:+ str_of_int year +:+ ".csv".

(** the last of [masks] whose table goes to the path [p] *)
Definition last_at_path (masks : list mask_entry) (variable : string)
    (year : Z) (p : string) : option mask_entry :=
  List.find (fun me => String.eqb (csv_path me variable year) p) (rev masks).

(** a forty-byte header with type code 7, two items, missing value -9999
    and the date 2000 *)
Definition example_header : bytes :=
  header_bytes 7 2 (double_bytes (-9999)) "2000".

(** the file object of [example_open] *)
Definition example_file : fileobj :=
  {| f_kind := BufferedReader; f_name := NameStr "/data/stream.gds";
     f_content := Ok []; f_closed := false; f_buffer := None |}.

(** the float64 record [10, 20] *)
Definition example_record : ndarray :=
  {| dtype := np_float64; shape := [2];
     data := [SFloat (float_of_Z 10); SFloat (float_of_Z 20)] |}.

(** a 2 by 2 grid of 32-bit identifiers *)
Definition example_ids (ids : list Z) : ndarray :=
  {| dtype := np_int32; shape := [2; 2]; data := map SInt ids |}.

(** between [w] and [w'] no file object other than [h] has changed *)
Definition others_same (h : nat) (w w' : world) : Prop :=
  forall h', h' <> h -> objects w' !! h' = objects w !! h'.

(** the generator [g] of [iter_ds] reads from the file object [h] *)
Definition reads_from (h : nat) (g : ds_gen) : Prop :=
  match g with
  | DsCreated file_buf _ _ _ => file_buf = h
  | DsSuspended file_buf _ _ _ _ _ _ _ _ _ => file_buf = h
  | DsFinished => True
  end.

(** a world whose only file object, 0, is an open reader with the given
    name and [buffer], over the regular files [local] *)
Definition example_object (name : py_name) (buffer : option nat) : fileobj :=
  {| f_kind := BufferedReader; f_name := name; f_content := Ok [];
     f_closed := false; f_buffer := buffer |}.

Definition example_held (name : py_name) (buffer : option nat)
    (local : gmap string bytes) : world := {|
  objects := {[ 0%nat := example_object name buffer ]};
  files := local;
  frames := ∅;
  dirs := ∅;
  csv_files := ∅
|}.

(** the layer [m] is in the dataset and its [Type] is Polygon or Point *)
Definition known_layer (mask_ds : gmap string layer) (m : string) : Prop :=
  exists var t, mask_ds !! m = Some var /\ l_attrs var !! "Type" = Some t
                /\ (t = "Polygon" \/ t = "Point").

(** the column labels [get_masks] gives the table of a layer *)
Definition date_cols `{Env} (year : Z) (time_step : string) : list datetime :=
  if String.eqb time_step "daily" then date_range year "D"
  else if String.eqb time_step "monthly" then date_range year "MS"
  else date_range year "YS".

(** the table [pd.DataFrame(index=index, columns=columns)] *)
Definition empty_table (index : list Z) (columns : list datetime)
  : DataFrame :=
  {| df_index := index;
     df_columns := map (fun d => (KDate d, map (fun _ => nan) index))
                       columns |}.

(** the element of [masks] is the one of its layer: the array and the
    type of the layer, the identifiers that are in the array, and the
    directory of the layer and the time step under [output_dir] *)
Definition entry_of_layer `{Env} (mask_ds : gmap string layer)
    (output_dir time_step : string) (me : mask_entry) : Prop :=
  exists var,
    mask_ds !! me_name me = Some var
    /\ me_Mask me = l_data var
    /\ l_attrs var !! "Type" = Some (me_MaskType me)
    /\ me_MaskValues me = list_set (non_nan_ints (data (flatten (l_data var))))
    /\ me_OutputPath me
       = joinpath output_dir (me_name me) (capitalize time_step).

(** between [w] and [w'] the table of [me] has been made: a new object,
    with a row for each identifier and no value yet *)
Definition new_table `{Env} (year : Z) (time_step : string) (w w' : world)
    (me : mask_entry) : Prop :=
  frames w !! me_dfOut me = None
  /\ frames w' !! me_dfOut me
     = Some (empty_table (me_MaskValues me) (date_cols year time_step)).

(** the tables of [w] are still there in [w'] (changed in place or not) *)
Definition frames_stay (w w' : world) : Prop :=
  forall r, is_Some (frames w !! r) -> is_Some (frames w' !! r).

(** the path of the table of the layer [m] *)
Definition table_path (output_dir m time_step variable : string) (year : Z)
  : string :=
  joinpath output_dir m (capitalize time_step)
  +:+ "/" +:+ variable +:+ "_" +:+ str_of_int year +:+ ".csv".

(** * Properties *)

(** ** Strings and leap years *)

Lemma lower_ascii_idem c : lower_ascii (lower_ascii c) = lower_ascii c.
Proof.
  destruct c as [[] [] [] [] [] [] [] []]; reflexivity.
Qed.

Lemma lower_idem s : lower (lower s) = lower s.
Proof.
  induction s as [|c s IH]; simpl; [reflexivity|].
  now rewrite lower_ascii_idem, IH.
Qed.

Lemma is_leap_year_spec y :
  is_leap_year y = true <->
  (y mod 4 = 0 /\ (y mod 100 <> 0 \/ y mod 400 = 0)).
Proof.
  unfold is_leap_year.
  change 3 with (Z.ones 2). rewrite Z.land_ones by lia.
  change (2 ^ 2) with 4.
  rewrite andb_true_iff, orb_true_iff, negb_true_iff.
  rewrite !Z.eqb_eq, Z.eqb_neq. tauto.
Qed.

(** ** The type mapper *)

(** C6: [_npType] maps 5 to the 16-bit integer, 6 to the 32-bit integer,
    7 to the 32-bit float and 8 to the 64-bit float, and raises its
    exception for every other code.  It is a function of its argument
    alone: it neither reads nor changes the world. *)
Theorem _npType_table (n : Z) :
  _npType 5 = Ok np_int16 /\
  _npType 6 = Ok np_int32 /\
  _npType 7 = Ok np_float32 /\
  _npType 8 = Ok np_float64 /\
  (n <> 5 -> n <> 6 -> n <> 7 -> n <> 8 ->
   _npType n = Raise (Exception ("Unknown value format: type " +:+ str_of_int n))).
Proof.
  repeat split; intros.
  unfold _npType.
  repeat match goal with
         | |- context [?a =? ?b] => destruct (Z.eqb_spec a b); [lia|]
         end.
  reflexivity.
Qed.

Lemma _npType_table_witness :
  _npType 3 = Raise (Exception "Unknown value format: type 3").
Proof.
  apply (proj2 (proj2 (proj2 (proj2 (_npType_table 3))))); lia.
Defined.

(** ** The record count *)

Section RecordCount.
Context `{Env}.

Lemma n_records_lower (y : Z) (s : string) :
  n_records y s = n_records y (lower s).
Proof. unfold n_records. now rewrite lower_idem. Qed.


(** C10: the time step is matched without regard to case: a text whose
    lower-case form is one of the three names counts as that name. *)
Theorem n_records_any_case (y : Z) (s : string) :
  In (lower s) ["annual"; "monthly"; "daily"] ->
  n_records y s = n_records y (lower s) /\
  (lower s = "annual" -> n_records y s = Ok 1) /\
  (lower s = "monthly" -> n_records y s = Ok 12) /\
  (lower s = "daily" ->
   n_records y s
   = (p ← Period (str_of_int y +:+ "-01-01");
      Ok (if is_leap_year p then 366 else 365))).
Proof.
  intros _. split; [apply n_records_lower|].
  unfold n_records.
  repeat split; intros ->; reflexivity.
Qed.
End RecordCount.



Example n_records_year_4 :
  @n_records example_env 4 "daily" = Ok 365.
Proof. reflexivity. Qed.

Lemma n_records_any_case_witness :
  @n_records example_env 2000 "Daily" = @n_records example_env 2000 "daily"
  /\ @n_records example_env 2000 "MONTHLY" = Ok 12.
Proof.
  split.
  - apply (proj1 (@n_records_any_case example_env 2000 "Daily"
                    ltac:(simpl; tauto))).
  - apply (proj1 (proj2 (proj2 (@n_records_any_case example_env 2000 "MONTHLY"
                                  ltac:(simpl; tauto))))).
    reflexivity.
Defined.

(** ** The stream source resolver *)

Lemma split_dot_once_dotted (stem ext : string) :
  no_dot stem = true ->
  split_dot_once (stem +:+ "." +:+ ext) = [stem; ext].
Proof.
  induction stem as [|c stem IH]; simpl; intros Hd; [reflexivity|].
  apply andb_true_iff in Hd as [Hc Hd].
  apply negb_true_iff in Hc. rewrite Hc.
  now rewrite (IH Hd).
Qed.

Lemma split_dot_once_plain (s : string) :
  no_dot s = true -> split_dot_once s = [s].
Proof.
  induction s as [|c s IH]; simpl; intros Hd; [reflexivity|].
  apply andb_true_iff in Hd as [Hc Hd].
  apply negb_true_iff in Hc. rewrite Hc.
  now rewrite (IH Hd).
Qed.

(** The extension [_is_compressed] looks at is the text after the first
    dot of the name, or the name itself when it has no dot. *)
Lemma extension_after_first_dot (name stem ext : string) :
  (name = stem +:+ "." +:+ ext /\ no_dot stem = true)
  \/ (name = ext /\ no_dot ext = true) ->
  last_item (split_dot_once name) = ext.
Proof.
  intros [[-> Hd] | [-> Hd]].
  - now rewrite split_dot_once_dotted.
  - now rewrite split_dot_once_plain.
Qed.

Lemma new_object_kind (f : fileobj) (w : world) :
  exists h w', new_object f w = (Ok h, w') /\ kind_of w' h = Some (f_kind f).
Proof.
  eexists _, _. split; [reflexivity|].
  unfold kind_of. cbn. now rewrite lookup_insert_eq.
Qed.

Section Resolver.
Context `{Env}.

End Resolver.



(** ** Running computations *)

Lemma run_bind {A B} (m : M A) (k : A -> M B) (w : world) :
  (m ≫= k) w = match m w with
               | (Ok a, w') => k a w'
               | (Raise e, w') => (Raise e, w')
               end.
Proof. reflexivity. Qed.

Lemma result_bind_ok {A B} (a : A) (k : A -> result B) : (Ok a ≫= k) = k a.
Proof. reflexivity. Qed.

Lemma result_bind_raise {A B} (e : exn) (k : A -> result B) :
  (Raise e ≫= k) = Raise e.
Proof. reflexivity. Qed.

Ltac rrun := rewrite ?result_bind_ok, ?result_bind_raise.

Ltac mrun :=
  repeat (rewrite run_bind;
          unfold lift, mkdir, mret, M_ret, new_frame, raise;
          cbn beta iota zeta).

(** ** The mask table builder *)

Section Masks.
Context `{Env}.

(** One turn of the loop of [get_masks], for a layer that is there. *)
Lemma get_masks_loop_step (mask_ds : gmap string layer) (out : string)
    (year : Z) (ts m : string) (rest : list string) (var : layer)
    (t : string) (dfOut : option nat) (acc : list mask_entry) (w : world) :
  mask_ds !! m = Some var ->
  l_attrs var !! "Type" = Some t ->
  exists (w1 : world) (entry : nat -> mask_entry),
    csv_files w1 = csv_files w
    /\ (forall r, me_name (entry r) = m)
    /\ get_masks_loop mask_ds (m :: rest) out year ts dfOut acc w
       = if String.eqb t "Polygon" || String.eqb t "Point"
         then
           let r := fresh (dom (frames w1)) in
           get_masks_loop mask_ds rest out year ts (Some r)
             (acc ++ [entry r])
             (set_frames
                (<[r := {| df_index := me_MaskValues (entry r);
                           df_columns :=
                             map (fun d => (KDate d,
                                            map (fun _ => nan)
                                                (me_MaskValues (entry r))))
                                 (if String.eqb ts "daily"
                                  then date_range year "D"
                                  else if String.eqb ts "monthly"
                                       then date_range year "MS"
                                       else date_range year "YS") |}]>
                   (frames w1)) w1)
         else
           match dfOut with
           | Some r =>
               get_masks_loop mask_ds rest out year ts (Some r)
                 (acc ++ [entry r]) w1
           | None => (Raise (UnboundLocalError "dfOut"), w1)
           end.
Proof.
  intros Hvar Ht.
  exists (set_dirs ({[ joinpath out m (capitalize ts) ]} ∪ dirs w) w).
  exists (fun r =>
            {| me_name := m; me_Mask := l_data var; me_MaskType := t;
               me_MaskValues :=
                 list_set (non_nan_ints (data (flatten (l_data var))));
               me_OutputPath := joinpath out m (capitalize ts);
               me_dfOut := r |}).
  split; [reflexivity|]. split; [reflexivity|].
  cbn [get_masks_loop]. unfold getitem. rewrite Hvar.
  rewrite run_bind. unfold lift at 1. cbn beta iota. rewrite Ht.
  mrun.
  destruct (String.eqb t "Polygon"); [mrun; reflexivity|].
  destruct (String.eqb t "Point"); [mrun; reflexivity|].
  mrun. cbn [orb]. destruct dfOut; reflexivity.
Qed.

(** Once a table is bound to [dfOut] the loop runs to its end over
    layers of any type, and writes no file. *)
Lemma get_masks_loop_bound (mask_ds : gmap string layer) (out : string)
    (year : Z) (ts : string) (layers : list string) :
  Forall (typed_layer mask_ds) layers ->
  forall (r : nat) (acc : list mask_entry) (w : world),
  exists masks w',
    get_masks_loop mask_ds layers out year ts (Some r) acc w = (Ok masks, w')
    /\ map me_name masks = (map me_name acc ++ layers)%list
    /\ csv_files w' = csv_files w.
Proof.
  induction 1 as [|m rest (var & t & Hvar & Ht) _ IH]; intros r acc w.
  - exists acc, w. cbn. now rewrite app_nil_r.
  - destruct (get_masks_loop_step mask_ds out year ts m rest var t (Some r)
                acc w Hvar Ht) as (w1 & entry & Hcsv1 & Hname & ->).
    destruct (String.eqb t "Polygon" || String.eqb t "Point"); cbn zeta;
      match goal with
      | |- context [get_masks_loop _ _ _ _ _ (Some ?r') ?acc' ?w'] =>
          destruct (IH r' acc' w') as (masks & w2 & -> & Hnames & Hcsv)
      end;
      exists masks, w2; (split; [reflexivity|]);
      (split; [rewrite Hnames, map_app; cbn; rewrite Hname;
               now rewrite <- app_assoc
              | rewrite Hcsv; cbn; exact Hcsv1 ]).
Qed.

(** C9, amended: [get_masks] has no check of the type of a layer.  It
    fails for a layer whose [Type] is neither Polygon nor Point when that
    layer is the first of the list, and then with the error of the
    unbound variable [dfOut]; after a first layer of type Polygon or
    Point it runs to its end whatever the types of the later layers. *)
Theorem get_masks_unknown_type (mask_ds : gmap string layer)
    (m : string) (rest : list string) (out : string) (year : Z)
    (ts : string) (w : world) (var : layer) (t : string) :
  mask_ds !! m = Some var ->
  l_attrs var !! "Type" = Some t ->
  (t <> "Polygon" -> t <> "Point" ->
   exists w',
     get_masks mask_ds (m :: rest) out year ts w
     = (Raise (UnboundLocalError "dfOut"), w')) /\
  (t = "Polygon" \/ t = "Point" ->
   Forall (typed_layer mask_ds) rest ->
   exists masks w',
     get_masks mask_ds (m :: rest) out year ts w = (Ok masks, w')
     /\ map me_name masks = m :: rest).
Proof.
  intros Hvar Ht. unfold get_masks.
  destruct (get_masks_loop_step mask_ds out year ts m rest var t None
              [] w Hvar Ht) as (w1 & entry & _ & Hname & ->).
  split.
  - intros Hpoly Hpoint.
    apply String.eqb_neq in Hpoly, Hpoint. rewrite Hpoly, Hpoint.
    exists w1. reflexivity.
  - intros Hknown Hrest.
    replace (String.eqb t "Polygon" || String.eqb t "Point") with true
      by (destruct Hknown as [-> | ->]; reflexivity).
    cbn zeta.
    match goal with
    | |- context [get_masks_loop _ _ _ _ _ (Some ?r') ?acc' ?w'] =>
        destruct (get_masks_loop_bound mask_ds out year ts rest Hrest
                    r' acc' w') as (masks & w2 & -> & Hnames & _)
    end.
    exists masks, w2. split; [reflexivity|].
    rewrite Hnames. cbn. now rewrite Hname.
Qed.
End Masks.

Lemma get_masks_unknown_type_witness :
  (exists w',
      @get_masks example_env example_masks ["Rivers"; "Gauges"] "/out" 2000
                 "annual" example_world
      = (Raise (UnboundLocalError "dfOut"), w'))
  /\ (exists masks w',
         @get_masks example_env example_masks ["Gauges"; "Rivers"] "/out" 2000
                    "annual" example_world
         = (Ok masks, w')
         /\ map me_name masks = ["Gauges"; "Rivers"]).
Proof.
  split.
  - refine (proj1 (@get_masks_unknown_type example_env example_masks "Rivers"
                     ["Gauges"] "/out" 2000 "annual" example_world
                     _ "Line" eq_refl eq_refl) _ _); discriminate.
  - refine (proj2 (@get_masks_unknown_type example_env example_masks "Gauges"
                     ["Rivers"] "/out" 2000 "annual" example_world
                     _ "Point" eq_refl eq_refl) _ _).
    + right; reflexivity.
    + repeat constructor. eexists _, "Line". split; reflexivity.
Defined.

(** C9 as stated fails: a layer of an unknown type after a layer of type
    Point does not make [get_masks] fail; it is given the table of the
    layer before it. *)
Lemma get_masks_unknown_type_counterexample :
  ~ (forall (E : Env) (mask_ds : gmap string layer) (mask_layers : list string)
            (out : string) (year : Z) (ts : string) (w : world)
            (m : string) (var : layer) (t : string),
        In m mask_layers ->
        mask_ds !! m = Some var ->
        l_attrs var !! "Type" = Some t ->
        t <> "Point" -> t <> "Polygon" ->
        exists e w',
          @get_masks E mask_ds mask_layers out year ts w = (Raise e, w')).
Proof.
  intros claim.
  destruct (claim example_env example_masks ["Gauges"; "Rivers"] "/out" 2000
                  "annual" example_world "Rivers" _ "Line"
                  ltac:(simpl; tauto) eq_refl eq_refl
                  ltac:(discriminate) ltac:(discriminate))
    as (e & w' & Hrun).
  vm_compute in Hrun. discriminate Hrun.
Qed.

(** In that run the two layers hold the same table object. *)
Example get_masks_shares_table :
  (masks ← fst (@get_masks example_env example_masks ["Gauges"; "Rivers"]
                          "/out" 2000 "annual" example_world);
   Ok (map me_dfOut masks))
  = Ok [0%nat; 0%nat].
Proof. vm_compute. reflexivity. Qed.

(** ** The remap of one record *)

(** The steps before the sentinel step keep the dtype of the record. *)
Lemma insert0_dtype (a b : ndarray) (v : scalar) :
  insert0 a v = Ok b -> dtype b = dtype a.
Proof.
  unfold insert0. destruct (cast_scalar (dtype a) v); cbn; [|discriminate].
  now intros [= <-].
Qed.

Lemma fancy_index_dtype (a idx b : ndarray) :
  fancy_index a idx = Ok b -> dtype b = dtype a.
Proof.
  unfold fancy_index. destruct (mapM _ _); cbn; [|discriminate].
  now intros [= <-].
Qed.

Lemma reshape_dtype (a b : ndarray) (sh : list Z) :
  reshape a sh = Ok b -> dtype b = dtype a.
Proof.
  unfold reshape. destruct (_ && _); [|discriminate]. now intros [= <-].
Qed.

(** The float copy of the grid is dropped, so for an integer record the
    store of not-a-number is refused, whatever the record and the
    identifiers are. *)
Lemma remap_integer_raises (cell_id : ndarray) (rgisType : Z)
    (NoData : scalar) (Data : ndarray) :
  is_float_type (dtype Data) = false ->
  exists e, remap cell_id rgisType NoData Data = Raise e.
Proof.
  intros Hint. unfold remap.
  destruct (insert0 Data NoData) as [d1|e] eqn:H1; rrun; [|eauto].
  destruct (fancy_index d1 (flatten cell_id)) as [d2|e] eqn:H2; rrun; [|eauto].
  destruct (reshape d2 (shape cell_id)) as [d3|e] eqn:H3; rrun; [|eauto].
  assert (Hd : dtype d3 = dtype Data).
  { rewrite (reshape_dtype _ _ _ H3), (fancy_index_dtype _ _ _ H2).
    apply (insert0_dtype _ _ _ H1). }
  cbn zeta.
  unfold assign_where_eq, cast_scalar, nan. rewrite Hd, Hint. rrun. eauto.
Qed.

Lemma cell_eqb_nan (t : nptype) (v : scalar) :
  is_float_type t = true -> cell_eqb t nan v = false.
Proof. intros Ht. unfold cell_eqb, nan. rewrite Ht. now destruct v. Qed.

(** Where the store goes through, the sentinel is gone: in a grid of a
    float dtype no cell compares equal to the missing value. *)
Lemma remap_float_no_sentinel (cell_id : ndarray) (rgisType : Z)
    (NoData : scalar) (Data g : ndarray) :
  is_float_type (dtype Data) = true ->
  remap cell_id rgisType NoData Data = Ok g ->
  dtype g = dtype Data
  /\ Forall (fun c => cell_eqb (dtype g) c NoData = false) (data g).
Proof.
  intros Hfl. unfold remap.
  destruct (insert0 Data NoData) as [d1|e] eqn:H1; rrun; [|discriminate].
  destruct (fancy_index d1 (flatten cell_id)) as [d2|e] eqn:H2; rrun;
    [|discriminate].
  destruct (reshape d2 (shape cell_id)) as [d3|e] eqn:H3; rrun; [|discriminate].
  assert (Hd : dtype d3 = dtype Data).
  { rewrite (reshape_dtype _ _ _ H3), (fancy_index_dtype _ _ _ H2).
    apply (insert0_dtype _ _ _ H1). }
  cbn zeta.
  unfold assign_where_eq, cast_scalar, nan. rewrite Hd, Hfl. rrun.
  intros [= <-]. cbn [dtype data]. split; [reflexivity|].
  replace (round_float (dtype Data) S754_nan) with S754_nan
    by (now destruct (dtype Data)).
  induction (data d3) as [|c cs IH]; cbn [map combine]; constructor;
    [|exact IH].
  cbn [fst snd].
  destruct (cell_eqb (dtype Data) c NoData) eqn:Hc.
  - exact (cell_eqb_nan _ NoData Hfl).
  - exact Hc.
Qed.

(** ** The remap of a float record, cell by cell *)

Lemma mapM_result_map {A B} (f : A -> result B) (g : A -> B) (l : list A) :
  Forall (fun x => f x = Ok (g x)) l -> mapM f l = Ok (map g l).
Proof.
  induction 1 as [|x l Hx _ IH]; cbn; [reflexivity|].
  rewrite Hx. rrun. rewrite IH. reflexivity.
Qed.

Lemma take1_in_range (cells : list scalar) (i : Z) (d : scalar) :
  0 <= i < Z.of_nat (length cells) ->
  take1 cells (SInt i) = Ok (nth (Z.to_nat i) cells d).
Proof.
  intros Hi. unfold take1.
  replace (i <? - Z.of_nat (length cells)) with false
    by (symmetry; apply Z.ltb_ge; lia).
  replace (Z.of_nat (length cells) <=? i) with false
    by (symmetry; apply Z.leb_gt; lia).
  replace (i <? 0) with false by (symmetry; apply Z.ltb_ge; lia).
  cbn [orb].
  destruct (nth_error cells (Z.to_nat i)) as [c|] eqn:Hnth.
  - now rewrite (nth_error_nth _ _ d Hnth).
  - apply nth_error_None in Hnth. lia.
Qed.

Lemma assign_mask_map {A} (p : A -> bool) (x : A) (l : list A) :
  map (fun cm : A * bool => if snd cm then x else fst cm) (combine l (map p l))
  = map (fun c => if p c then x else c) l.
Proof.
  induction l as [|c l IH]; cbn [map combine fst snd]; [reflexivity|].
  now rewrite IH.
Qed.

(** For a record of a float dtype and identifiers within the record, the
    grid has the shape of the identifier grid, and its cell for the
    identifier [i] is cell [i] of the record with the missing value put in
    front, or not-a-number when that cell equals the missing value. *)
Lemma remap_float_cells (cell_id : ndarray) (rgisType : Z) (NoData : scalar)
    (Data : ndarray) (ids : list Z) :
  is_float_type (dtype Data) = true ->
  well_shaped cell_id ->
  data cell_id = map SInt ids ->
  Forall (fun i => 0 <= i <= nd_size Data) ids ->
  exists missing,
    cast_scalar (dtype Data) NoData = Ok missing
    /\ remap cell_id rgisType NoData Data
       = Ok {| dtype := dtype Data;
               shape := shape cell_id;
               data :=
                 map (fun i =>
                        let c := nth (Z.to_nat i) (missing :: data Data) nan in
                        if cell_eqb (dtype Data) c NoData then nan else c)
                     ids |}.
Proof.
  intros Hfl [Hprod Hnonneg] Hids Hrange.
  assert (Hcast : exists missing, cast_scalar (dtype Data) NoData = Ok missing).
  { unfold cast_scalar. rewrite Hfl. destruct NoData; eauto. }
  destruct Hcast as [missing Hcast]. exists missing. split; [exact Hcast|].
  unfold remap, insert0. rewrite Hcast. rrun.
  unfold fancy_index. cbn [data dtype flatten shape].
  rewrite Hids.
  rewrite (mapM_result_map _
             (fun c => match c with
                       | SInt i => nth (Z.to_nat i) (missing :: data Data) nan
                       | SFloat _ => nan
                       end)).
  2:{ apply List.Forall_forall. intros c Hc. apply in_map_iff in Hc as (i & <- & Hi).
      rewrite List.Forall_forall in Hrange. specialize (Hrange i Hi).
      apply take1_in_range. unfold nd_size in Hrange. cbn [length]. lia. }
  rrun.
  unfold reshape, nd_size. cbn [data shape dtype].
  rewrite !length_map. unfold nd_size in Hprod. rewrite Hids, length_map in Hprod.
  rewrite Hprod, Z.eqb_refl.
  replace (forallb (fun d => 0 <=? d) (shape cell_id)) with true.
  2:{ symmetry. apply forallb_forall. intros d Hd.
      rewrite List.Forall_forall in Hnonneg. apply Z.leb_le, Hnonneg, Hd. }
  cbn [andb]. rrun. cbn zeta.
  unfold assign_where_eq, cast_scalar, nan. cbn [dtype data shape].
  rewrite Hfl. rrun.
  replace (round_float (dtype Data) S754_nan) with S754_nan
    by (now destruct (dtype Data)).
  do 2 f_equal.
  rewrite assign_mask_map, !map_map. reflexivity.
Qed.

(** C1: the failing input.  A stream of one 32-bit integer record [10, 20]
    with missing value -9999, read over the identifiers [[nan, 1], [2, 1]]:
    the claim has the grid converted to float and the cell of identifier 0
    set to not-a-number; the code raises at the first record and yields
    nothing. *)
Theorem iter_ds_integer_stream_raises :
  drain (@iter_ds_next example_env) ds_fuel
        (iter_ds 0 example_ID 2000 "annual") (example_open example_int_stream)
  = ([], Some (Raise (ValueError "cannot convert float NaN to integer")),
     example_open []).
Proof. vm_compute. reflexivity. Qed.

(** C2: the example of the claim.  With the record [10, 20] held as
    64-bit floats the grid is [[nan, 10], [20, 10]]; with the same record
    held as 32-bit integers (type code 6) the code raises instead. *)
Theorem remap_example_by_type :
  remap example_cell_id 8 (SFloat (float_of_Z (-9999)))
        {| dtype := np_float64; shape := [2];
           data := [SFloat (float_of_Z 10); SFloat (float_of_Z 20)] |}
  = Ok {| dtype := np_float64; shape := [2; 2];
          data := [nan; SFloat (float_of_Z 10); SFloat (float_of_Z 20);
                   SFloat (float_of_Z 10)] |}
  /\ remap example_cell_id 6 (SInt (-9999))
           {| dtype := np_int32; shape := [2]; data := [SInt 10; SInt 20] |}
     = Raise (ValueError "cannot convert float NaN to integer").
Proof. split; vm_compute; reflexivity. Qed.

(** ** Reading a stream *)

Section Reading.
Context `{Env}.
Variables (h : nat) (f : fileobj) (w0 : world).
Hypothesis f_open : f_closed f = false.
Hypothesis f_binary : f_kind f <> TextIOWrapper.

Lemma with_content_again (c c' : bytes) :
  set_objects (<[h := set_content (set_content f c) c']>
                 (objects (with_content h f c w0)))
              (with_content h f c w0)
  = with_content h f c' w0.
Proof.
  unfold with_content, set_objects, set_content. cbn.
  now rewrite insert_insert_eq.
Qed.

(** A read of [n] bytes takes them from the front of what is left. *)
Lemma read_with_content (c : bytes) (n : Z) :
  0 <= n ->
  read h n (with_content h f c w0)
  = (Ok (firstn (Z.to_nat n) c), with_content h f (skipn (Z.to_nat n) c) w0).
Proof.
  intros Hn. unfold read.
  rewrite run_bind. unfold get_object, with_content at 1. cbn [objects set_objects].
  rewrite lookup_insert_eq. cbn [f_closed set_content]. rewrite f_open.
  assert (Hneg : (n <? 0) = false) by (apply Z.ltb_ge; lia).
  assert (Hm1 : (n =? -1) = false) by (apply Z.eqb_neq; lia).
  change (f_kind (set_content f c)) with (f_kind f).
  destruct (f_kind f) eqn:Hk; try congruence;
    rewrite run_bind; unfold lift at 1; cbn [f_content set_content];
    rewrite ?Hneg, ?Hm1;
    rewrite run_bind; unfold set_object at 1; cbn beta iota;
    unfold mret, M_ret; f_equal; apply with_content_again.
Qed.

Lemma headDS_with_content (ts : string) (hd c : bytes) :
  length hd = 40%nat ->
  headDS h ts (with_content h f (hd ++ c) w0)
  = (parse_header ts hd, with_content h f c w0).
Proof.
  intros Hlen. unfold headDS. rewrite run_bind.
  rewrite read_with_content by lia.
  change (Z.to_nat 40) with 40%nat. rewrite <- Hlen.
  rewrite firstn_app, Nat.sub_diag, firstn_all, firstn_O, app_nil_r.
  rewrite skipn_app, Nat.sub_diag, skipn_all, skipn_O. cbn [app].
  unfold lift. now destruct (parse_header ts hd).
Qed.

Lemma recordDS_with_content (Cells : Z) (npType : nptype) (rc c : bytes) :
  Z.of_nat (length rc) = Cells * itemsize npType ->
  recordDS h Cells npType false (with_content h f (rc ++ c) w0)
  = (frombuffer rc npType, with_content h f c w0).
Proof.
  intros Hlen. unfold recordDS. rewrite run_bind. unfold mret at 1, M_ret at 1.
  cbn beta iota. rewrite run_bind.
  rewrite read_with_content by lia.
  rewrite <- Hlen, Nat2Z.id.
  rewrite firstn_app, Nat.sub_diag, firstn_all, firstn_O, app_nil_r.
  rewrite skipn_app, Nat.sub_diag, skipn_all, skipn_O. cbn [app].
  unfold lift. now destruct (frombuffer rc npType).
Qed.

Section Loop.
Variables (ts : string) (cell_id : ndarray) (n rgisType : Z)
          (npType : nptype) (NoData : scalar) (Cells : Z).

(** A turn of the loop after the first reads the header of its record,
    then the record, and nothing else. *)
Lemma ds_iteration_later (Date0 : datetime) (day : Z) (chunk : bytes * bytes)
    (y : ndarray * datetime) (c : bytes) :
  day <> 0 ->
  record_ok ts cell_id rgisType npType NoData Cells chunk y ->
  ds_iteration h ts cell_id rgisType npType NoData Date0 Cells day
               (with_content h f (fst chunk ++ snd chunk ++ c) w0)
  = (Ok y, with_content h f c w0).
Proof.
  intros Hday (Hhd & Hrc & (t' & n' & m' & c' & Hparse) & Hremap).
  unfold ds_iteration.
  apply Z.eqb_neq in Hday. rewrite Hday. cbn [negb].
  rewrite !run_bind.
  rewrite headDS_with_content by exact Hhd. rewrite Hparse.
  unfold mret at 1, M_ret at 1. cbn beta iota.
  rewrite run_bind, recordDS_with_content by exact Hrc.
  destruct (frombuffer (snd chunk) npType) as [arr|e];
    rewrite ?result_bind_ok, ?result_bind_raise in Hremap; [|discriminate].
  rewrite run_bind. unfold lift at 1. rewrite Hremap.
  unfold mret, M_ret. now destruct y.
Qed.

(** The first turn uses the header read before the loop. *)
Lemma ds_iteration_first (Date0 : datetime) (chunk : bytes * bytes)
    (y : ndarray * datetime) (c : bytes) :
  record_ok ts cell_id rgisType npType NoData Cells chunk y ->
  ds_iteration h ts cell_id rgisType npType NoData Date0 Cells 0
               (with_content h f (snd chunk ++ c) w0)
  = (Ok (fst y, Date0), with_content h f c w0).
Proof.
  intros (Hhd & Hrc & _ & Hremap).
  unfold ds_iteration. cbn [Z.eqb negb].
  rewrite run_bind. unfold mret at 1, M_ret at 1. cbn beta iota.
  rewrite run_bind, recordDS_with_content by exact Hrc.
  destruct (frombuffer (snd chunk) npType) as [arr|e];
    rewrite ?result_bind_ok, ?result_bind_raise in Hremap; [|discriminate].
  rewrite run_bind. unfold lift at 1. rewrite Hremap. reflexivity.
Qed.

(** From the [yield] of turn [day], the records still in the stream are
    yielded one by one, and the generator ends when [n] are out. *)
Lemma drain_suspended (chunks : list (bytes * bytes))
    (ys : list (ndarray * datetime)) (rest : bytes) :
  Forall2 (record_ok ts cell_id rgisType npType NoData Cells) chunks ys ->
  forall (Date0 : datetime) (day : Z) (fuel : nat),
    0 <= day ->
    day + 1 + Z.of_nat (length chunks) = n ->
    (length chunks < fuel)%nat ->
    drain iter_ds_next fuel
          (DsSuspended h ts cell_id n rgisType npType NoData Date0 Cells day)
          (with_content h f (stream_of chunks ++ rest) w0)
    = (ys, Some (Ok tt), with_content h f rest w0).
Proof.
  induction 1 as [|chunk y chunks ys Hok _ IH]; intros Date0 day fuel Hday Hn Hfuel.
  - destruct fuel as [|fuel]; [cbn in Hfuel; lia|].
    cbn [drain iter_ds_next]. unfold ds_loop.
    replace (day + 1 <? n) with false
      by (symmetry; apply Z.ltb_ge; cbn in Hn; lia).
    reflexivity.
  - destruct fuel as [|fuel]; [cbn in Hfuel; lia|].
    cbn [drain iter_ds_next]. unfold ds_loop.
    replace (day + 1 <? n) with true
      by (symmetry; apply Z.ltb_lt; cbn [length] in Hn; lia).
    cbn [stream_of flat_map]. rewrite <- !app_assoc.
    rewrite (ds_iteration_later Date0 (day + 1) chunk y) by (lia || exact Hok).
    destruct y as [g d].
    fold (stream_of chunks).
    rewrite (IH d (day + 1) fuel) by (cbn [length] in *; lia).
    reflexivity.
Qed.
End Loop.
End Reading.

Lemma with_content_same (h : nat) (f : fileobj) (c : bytes) (w : world) :
  objects w !! h = Some f ->
  f_content f = Ok c ->
  with_content h f c w = w.
Proof.
  intros Hobj Hc. unfold with_content.
  replace (set_content f c) with f
    by (destruct f; cbn in Hc; subst; reflexivity).
  rewrite (insert_id _ _ _ Hobj). now destruct w.
Qed.

Section RecordCountYields.
Context `{Env}.

(** A record that decodes and remaps without an exception is of a float
    dtype: the store of not-a-number into an integer record is refused. *)
Lemma record_ok_float (ts : string) (cell_id : ndarray) (rgisType : Z)
    (npType : nptype) (NoData : scalar) (Cells : Z) (chunk : bytes * bytes)
    (y : ndarray * datetime) :
  record_ok ts cell_id rgisType npType NoData Cells chunk y ->
  is_float_type npType = true.
Proof.
  intros (_ & _ & _ & Hremap).
  destruct (is_float_type npType) eqn:Hfl; [reflexivity|]. exfalso.
  unfold frombuffer in Hremap. destruct (negb _); [discriminate Hremap|].
  rewrite result_bind_ok in Hremap.
  match type of Hremap with
  | remap _ _ _ ?a = _ =>
      destruct (remap_integer_raises cell_id rgisType NoData a Hfl) as [e He]
  end.
  rewrite He in Hremap. discriminate Hremap.
Qed.

(** The count of the yields over a stream of float records.  Over a
    stream of [n_records year ts] records, each a header of forty bytes
    that [headDS] reads at the time step as it is given, followed by its
    cells, [iter_ds] yields one pair for each record and then ends.  It
    reads the first header before the loop and uses it for the first
    record, reads one header before each later record, and reads nothing
    else: what follows the last record is left in the stream.  Every
    record is taken to decode and remap without an exception, which only
    records of a float dtype do ([record_ok_float]). *)
Theorem iter_ds_yields_record_count
    (h : nat) (f : fileobj) (w : world) (mask_id : ndarray)
    (year : Z) (ts : string) (n rgisType : Z) (npType : nptype)
    (NoData : scalar) (Date1 : datetime) (Cells : Z)
    (chunk : bytes * bytes) (chunks : list (bytes * bytes))
    (ys : list (ndarray * datetime)) (rest : bytes) :
  objects w !! h = Some f ->
  f_closed f = false ->
  f_kind f <> TextIOWrapper ->
  f_content f = Ok (stream_of (chunk :: chunks) ++ rest) ->
  n_records year ts = Ok n ->
  Z.of_nat (length (chunk :: chunks)) = n ->
  parse_header ts (fst chunk) = Ok (rgisType, npType, NoData, Date1, Cells) ->
  Forall2 (record_ok ts (nan_to_num_int32 mask_id) rgisType npType NoData
                     Cells)
          (chunk :: chunks) ys ->
  forall fuel : nat,
    (length (chunk :: chunks) < fuel)%nat ->
    drain iter_ds_next fuel (iter_ds h mask_id year ts) w
    = (ys, Some (Ok tt), with_content h f rest w)
    /\ Z.of_nat (length ys) = n.
Proof.
  intros Hobj Hopen Hbin Hc Hn Hlen Hhead Hall fuel Hfuel.
  split; [|rewrite <- (Forall2_length _ _ _ Hall); exact Hlen].
  inversion Hall as [|? y ? ys' Hok Hrest]; subst.
  destruct fuel as [|fuel]; [cbn in Hfuel; lia|].
  rewrite <- (with_content_same h f _ w Hobj Hc) at 1.
  unfold iter_ds. cbn [drain iter_ds_next].
  cbn zeta.
  rewrite !run_bind. unfold lift at 1. rewrite Hn.
  rewrite !run_bind.
  cbn [stream_of flat_map]. rewrite <- !app_assoc.
  pose proof Hok as (Hhd & _ & (t' & n' & m' & c' & Hparse) & _).
  rewrite (headDS_with_content h f w Hopen Hbin ts) by exact Hhd.
  rewrite Hhead. unfold mret at 1, M_ret at 1. cbn beta iota.
  unfold ds_loop.
  replace (0 <? Z.of_nat (length (chunk :: chunks))) with true
    by (symmetry; apply Z.ltb_lt; cbn [length]; lia).
  rewrite (ds_iteration_first h f w Hopen Hbin ts (nan_to_num_int32 mask_id)
             rgisType npType NoData Cells Date1 chunk y) by exact Hok.
  fold (stream_of chunks).
  rewrite (drain_suspended h f w Hopen Hbin ts (nan_to_num_int32 mask_id) _
             rgisType npType NoData Cells chunks ys' rest Hrest Date1 0 fuel)
    by (cbn [length] in *; lia).
  rewrite Hhead in Hparse. injection Hparse as _ _ _ Hdate _.
  destruct y as [g d]. cbn [fst snd] in *. now subst.
Qed.
End RecordCountYields.

Lemma iter_ds_yields_record_count_witness :
  drain (@iter_ds_next example_env) 13 (iter_ds 0 example_ID 2001 "monthly")
        (example_open example_monthly_stream)
  = (example_monthly_yields, Some (Ok tt), example_open [])
  /\ Z.of_nat (length example_monthly_yields) = 12.
Proof.
  refine (@iter_ds_yields_record_count example_env 0
            {| f_kind := BufferedReader; f_name := NameStr "/data/stream.gds";
               f_content := Ok example_monthly_stream; f_closed := false;
               f_buffer := None |}
            (example_open example_monthly_stream) example_ID
            2001 "monthly" 12 8 np_float64 (SFloat (float_of_Z (-9999)))
            {| dt_year := 2001; dt_month := 1; dt_day := 1 |} 2
            (hd ([], []) example_monthly_chunks) (tl example_monthly_chunks)
            example_monthly_yields []
            eq_refl eq_refl _ _ eq_refl eq_refl _ _ 13%nat _).
  - discriminate.
  - vm_compute. reflexivity.
  - vm_compute. reflexivity.
  - change (hd ([], []) example_monthly_chunks :: tl example_monthly_chunks)
      with example_monthly_chunks.
    unfold example_monthly_chunks, example_monthly_yields.
    apply Forall2_fmap, Forall_Forall2_diag.
    change (Zrange 12) with [1; 2; 3; 4; 5; 6; 7; 8; 9; 10; 11; 12].
    repeat (constructor;
            [ split; [vm_compute; reflexivity|];
              split; [vm_compute; reflexivity|];
              split; [eexists _, _, _, _|]; vm_compute; reflexivity | ]).
    constructor.
  - vm_compute. lia.
Defined.

(** C3: the failing input.  A stream of the twelve records that the
    monthly time step asks for, each a header of forty bytes with the
    type code 6 and the date of its month, followed by its two 32-bit
    cells.  The claim has twelve pairs yielded; the code raises at the
    first record, at the store of not-a-number into the integer grid,
    and has yielded nothing.  The eleven records after the first are
    left in the stream. *)
Theorem iter_ds_integer_stream_yields_no_record :
  @n_records example_env 2001 "monthly" = Ok 12
  /\ Forall2 (fun chunk m =>
                length (fst chunk) = 40%nat
                /\ @parse_header example_env "monthly" (fst chunk)
                   = Ok (6, np_int32, SInt (-9999),
                         {| dt_year := 2001; dt_month := m; dt_day := 1 |}, 2)
                /\ frombuffer (snd chunk) np_int32
                   = Ok {| dtype := np_int32; shape := [2];
                           data := [SInt m; SInt (-9999)] |})
             example_monthly_int_chunks (Zrange 12)
  /\ drain (@iter_ds_next example_env) ds_fuel
           (iter_ds 0 example_ID 2001 "monthly")
           (example_open (stream_of example_monthly_int_chunks))
     = ([], Some (Raise (ValueError "cannot convert float NaN to integer")),
        example_open (stream_of (tl example_monthly_int_chunks))).
Proof.
  split; [reflexivity|]. split.
  - unfold example_monthly_int_chunks.
    apply Forall2_fmap_l, Forall_Forall2_diag.
    change (Zrange 12) with [1; 2; 3; 4; 5; 6; 7; 8; 9; 10; 11; 12].
    repeat (constructor;
            [ split; [vm_compute; reflexivity|];
              split; vm_compute; reflexivity | ]).
    constructor.
  - vm_compute. reflexivity.
Qed.

(** The time step is lower-cased for the count of the records and not
    for the format of the dates: with the time step [Monthly] twelve
    records are asked for, the header is read with the format of a year,
    and the first [next] over the monthly stream of floats raises. *)
Example iter_ds_mixed_case_step :
  @n_records example_env 2001 "Monthly" = Ok 12
  /\ exists msg,
       drain (@iter_ds_next example_env) ds_fuel
             (iter_ds 0 example_ID 2001 "Monthly")
             (example_open example_monthly_stream)
       = ([], Some (Raise (ValueError msg)),
          example_open (skipn 40 example_monthly_stream)).
Proof. split; [reflexivity|]. eexists. vm_compute. reflexivity. Qed.

(** ** What a computation leaves alone *)

Section Keeps.
Variable R : world -> world -> Prop.
Hypothesis R_refl : forall w, R w w.
Hypothesis R_trans : forall w1 w2 w3, R w1 w2 -> R w2 w3 -> R w1 w3.

Lemma keeps_mret {A} (a : A) : keeps R (mret a).
Proof. intros w. apply R_refl. Qed.

Lemma keeps_lift {A} (r : result A) : keeps R (lift r).
Proof. intros w. apply R_refl. Qed.

Lemma keeps_raise {A} (e : exn) : keeps R (@raise A e).
Proof. intros w. apply R_refl. Qed.

Lemma keeps_get_object (h : nat) : keeps R (get_object h).
Proof. intros w. unfold get_object. destruct (objects w !! h); apply R_refl. Qed.

Lemma keeps_bind {A B} (m : M A) (k : A -> M B) :
  keeps R m -> (forall a, keeps R (k a)) -> keeps R (m ≫= k).
Proof.
  intros Hm Hk w. rewrite run_bind.
  specialize (Hm w). destruct (m w) as [[a|e] w1]; cbn [snd] in *.
  - eapply R_trans; [exact Hm | apply Hk].
  - exact Hm.
Qed.

Lemma keeps_for_masks {A} (f : A -> M unit) (l : list A) :
  (forall a, keeps R (f a)) -> keeps R (for_masks f l).
Proof.
  intros Hf. induction l as [|a l IH]; cbn [for_masks].
  - apply keeps_mret.
  - apply keeps_bind; [apply Hf | intros _; exact IH].
Qed.

Section Streams.
Context `{Env}.
Hypothesis R_set_content : forall h f c w,
  objects w !! h = Some f -> R w (snd (set_object h (set_content f c) w)).

Lemma keeps_read (h : nat) (n : Z) : keeps R (read h n).
Proof.
  intros w. unfold read. rewrite run_bind. unfold get_object.
  destruct (objects w !! h) as [f|] eqn:Hobj; [|apply R_refl].
  destruct (f_closed f); [apply R_refl|].
  destruct (f_kind f); try apply R_refl;
    rewrite run_bind; unfold lift at 1;
    (destruct (f_content f) as [c|e]; [|apply R_refl]);
    repeat match goal with
           | |- context [if ?b then _ else _] => destruct b
           end;
    try apply R_refl;
    rewrite run_bind;
    match goal with
    | |- context [set_object h (set_content f ?c') w] =>
        pose proof (R_set_content h f c' w Hobj) as Hset;
        destruct (set_object h (set_content f c') w) as [[[]|e] w1]
    end; exact Hset.
Qed.

Lemma keeps_headDS (h : nat) (ts : string) : keeps R (headDS h ts).
Proof.
  unfold headDS. apply keeps_bind; [apply keeps_read|].
  intros forty. apply keeps_lift.
Qed.

Lemma keeps_recordDS (h : nat) (items : Z) (t : nptype) (skip : bool) :
  keeps R (recordDS h items t skip).
Proof.
  unfold recordDS. apply keeps_bind.
  - destruct skip; [apply keeps_read | apply keeps_mret].
  - intros _. apply keeps_bind; [apply keeps_read | intros buf; apply keeps_lift].
Qed.

Lemma keeps_ds_iteration (h : nat) (ts : string) (cell_id : ndarray)
    (rgisType : Z) (t : nptype) (NoData : scalar) (d : datetime)
    (Cells day : Z) :
  keeps R (ds_iteration h ts cell_id rgisType t NoData d Cells day).
Proof.
  unfold ds_iteration. apply keeps_bind.
  - destruct (negb (day =? 0)); [|apply keeps_mret].
    apply keeps_bind; [apply keeps_headDS|].
    intros [[[[? ?] ?] ?] ?]. apply keeps_mret.
  - intros d'. apply keeps_bind; [apply keeps_recordDS|].
    intros Data. apply keeps_bind; [apply keeps_lift|].
    intros g. apply keeps_mret.
Qed.

(** One call of [next] on [iter_ds]. *)
Lemma iter_ds_next_keeps (g : ds_gen) (w : world) :
  R w (snd (iter_ds_next g w)).
Proof.
  assert (Hloop : forall h ts cell_id n rgisType t NoData d Cells day w1,
             R w1 (snd (ds_loop h ts cell_id n rgisType t NoData d Cells day w1))).
  { intros. unfold ds_loop. destruct (day <? n); [|apply R_refl].
    pose proof (keeps_ds_iteration h ts cell_id rgisType t NoData d Cells day w1)
      as Hk.
    destruct (ds_iteration _ _ _ _ _ _ _ _ _ w1) as [[[Data d']|e] w2];
      exact Hk. }
  destruct g as [h mask_id year ts | h ts cell_id n rgisType t NoData d Cells day |];
    cbn [iter_ds_next]; [| apply Hloop | apply R_refl].
  cbn zeta.
  match goal with
  | |- context [match ?m w with _ => _ end] =>
      assert (Hs : keeps R m);
      [| specialize (Hs w); destruct (m w) as [[[n [[[[? ?] ?] ?] ?]]|e] w1] ]
  end.
  - apply keeps_bind; [apply keeps_lift|]. intros n.
    apply keeps_bind; [apply keeps_headDS|]. intros hd. apply keeps_mret.
  - cbn [snd] in Hs. eapply R_trans; [exact Hs | apply Hloop].
  - exact Hs.
Qed.
End Streams.
End Keeps.

Lemma same_csv_refl (w : world) : same_csv w w.
Proof. reflexivity. Qed.

Lemma same_csv_trans (w1 w2 w3 : world) :
  same_csv w1 w2 -> same_csv w2 w3 -> same_csv w1 w3.
Proof. unfold same_csv. congruence. Qed.

Lemma objects_stay_refl (w : world) : objects_stay w w.
Proof. intros h f Hh. eauto. Qed.

Lemma objects_stay_trans (w1 w2 w3 : world) :
  objects_stay w1 w2 -> objects_stay w2 w3 -> objects_stay w1 w3.
Proof.
  intros H12 H23 h f Hh.
  destruct (H12 h f Hh) as (f2 & Hf2 & Hc2).
  destruct (H23 h f2 Hf2) as (f3 & Hf3 & Hc3).
  exists f3. split; [exact Hf3 | congruence].
Qed.

Lemma same_csv_set_content (h : nat) (f : fileobj) (c : bytes) (w : world) :
  objects w !! h = Some f ->
  same_csv w (snd (set_object h (set_content f c) w)).
Proof. reflexivity. Qed.

Lemma objects_stay_set_content (h : nat) (f : fileobj) (c : bytes)
    (w : world) :
  objects w !! h = Some f ->
  objects_stay w (snd (set_object h (set_content f c) w)).
Proof.
  intros Hobj h' f' Hh'. cbn. destruct (decide (h = h')) as [->|Hne].
  - rewrite lookup_insert_eq. eexists. split; [reflexivity|].
    cbn. congruence.
  - rewrite lookup_insert_ne by exact Hne. eauto.
Qed.

(** ** The generator over a converted grid *)

Section Abandon.
Context `{Env}.

(** The pipe of the process that [gdbc_to_ds_buffer] starts is a new,
    open file object. *)
Lemma gdbc_to_ds_buffer_object (gdbc network : string) (w w0 : world)
    (file_buf : nat) :
  gdbc_to_ds_buffer gdbc network w = (Ok file_buf, w0) ->
  exists f, objects w0 !! file_buf = Some f /\ f_closed f = false.
Proof.
  unfold gdbc_to_ds_buffer. rewrite run_bind. unfold lift at 1.
  destruct (Popen _) as [out|e]; [|discriminate].
  unfold new_pipe, new_object. intros [= <- <-].
  eexists. cbn. rewrite lookup_insert_eq. split; reflexivity.
Qed.

Lemma gdbc_loop_suspended (file_buf : nat) (inner : ds_gen) (w w' : world)
    (y : ndarray * datetime) (g : gdbc_gen) :
  gdbc_loop file_buf inner w = (Yielded y, g, w') ->
  (exists inner', g = GdbcSuspended file_buf inner') /\ objects_stay w w'.
Proof.
  unfold gdbc_loop.
  pose proof (iter_ds_next_keeps objects_stay objects_stay_refl
                objects_stay_trans objects_stay_set_content inner w) as Hk.
  destruct (iter_ds_next inner w) as [[[y'| |e] inner'] w1]; try discriminate.
  intros [= <- <- <-]. split; [eauto | exact Hk].
Qed.

(** While the consumer takes items the generator stays suspended over the
    same pipe, and the pipe stays among the file objects. *)
Lemma take_items_suspended (k : nat) :
  forall (file_buf : nat) (inner : ds_gen) (w w' : world)
         (ys : list (ndarray * datetime)) (g : gdbc_gen),
    take_items iter_gdbc_next k (GdbcSuspended file_buf inner) w
    = Some (ys, g, w') ->
    (exists inner', g = GdbcSuspended file_buf inner') /\ objects_stay w w'.
Proof.
  induction k as [|k IH]; intros file_buf inner w w' ys g; cbn [take_items].
  - intros [= <- <- <-]. split; [eauto | apply objects_stay_refl].
  - cbn [iter_gdbc_next].
    destruct (gdbc_loop file_buf inner w) as [[[y| |e] g1] w1] eqn:Hstep;
      try discriminate.
    destruct (gdbc_loop_suspended _ _ _ _ _ _ Hstep) as [[inner1 ->] Hstay1].
    destruct (take_items iter_gdbc_next k (GdbcSuspended file_buf inner1) w1)
      as [[[ys1 g2] w2]|] eqn:Hrest; [|discriminate].
    intros [= <- <- <-].
    destruct (IH _ _ _ _ _ _ Hrest) as [Hg Hstay2].
    split; [exact Hg | eapply objects_stay_trans; eauto].
Qed.

(** C8: when the consumer of [iter_gdbc] has taken at least one item and
    closes the generator, the standard output pipe of the process started
    for it is closed, and the close itself returns without an error. *)
Theorem iter_gdbc_close_closes_pipe (gdbc network : string)
    (mask_id : ndarray) (year : Z) (ts : string) (w w' : world) (k : nat)
    (ys : list (ndarray * datetime)) (g : gdbc_gen) :
  take_items iter_gdbc_next (S k) (iter_gdbc gdbc network mask_id year ts) w
  = Some (ys, g, w') ->
  exists file_buf w0 w'',
    gdbc_to_ds_buffer gdbc network w = (Ok file_buf, w0)
    /\ is_closed w' file_buf = false
    /\ iter_gdbc_close g w' = (Ok tt, GdbcFinished, w'')
    /\ is_closed w'' file_buf = true.
Proof.
  unfold iter_gdbc. cbn [take_items iter_gdbc_next].
  destruct (gdbc_to_ds_buffer gdbc network w) as [[file_buf|e] w0] eqn:Hspawn;
    [|discriminate].
  destruct (gdbc_to_ds_buffer_object _ _ _ _ _ Hspawn) as (f0 & Hf0 & Hopen0).
  destruct (gdbc_loop file_buf (iter_ds file_buf mask_id year ts) w0)
    as [[[y| |e] g1] w1] eqn:Hstep; try discriminate.
  destruct (gdbc_loop_suspended _ _ _ _ _ _ Hstep) as [[inner1 ->] Hstay1].
  destruct (take_items iter_gdbc_next k (GdbcSuspended file_buf inner1) w1)
    as [[[ys1 g2] w2]|] eqn:Hrest; [|discriminate].
  intros [= <- <- <-].
  destruct (take_items_suspended _ _ _ _ _ _ _ Hrest) as [[inner2 ->] Hstay2].
  destruct (Hstay1 file_buf f0 Hf0) as (f1 & Hf1 & Hc1).
  destruct (Hstay2 file_buf f1 Hf1) as (f2 & Hf2 & Hc2).
  exists file_buf, w0. eexists. split; [reflexivity|].
  unfold is_closed. rewrite Hf2.
  split; [congruence|].
  cbn [iter_gdbc_close]. unfold close. rewrite Hf2.
  split; [reflexivity|].
  cbn. now rewrite lookup_insert_eq.
Qed.
End Abandon.

Lemma iter_gdbc_close_closes_pipe_witness :
  exists file_buf w0 w' w'' ys g,
    take_items (@iter_gdbc_next example_env) 1
               (iter_gdbc "/data/q_2001.gdbc" "/data/net.gdbn" example_ID 2001
                          "monthly") example_world
    = Some (ys, g, w')
    /\ length ys = 1%nat
    /\ @gdbc_to_ds_buffer example_env "/data/q_2001.gdbc" "/data/net.gdbn"
                          example_world = (Ok file_buf, w0)
    /\ is_closed w' file_buf = false
    /\ iter_gdbc_close g w' = (Ok tt, GdbcFinished, w'')
    /\ is_closed w'' file_buf = true.
Proof.
  pose (run := take_items (@iter_gdbc_next example_env) 1
                 (iter_gdbc "/data/q_2001.gdbc" "/data/net.gdbn" example_ID
                            2001 "monthly") example_world).
  assert (Hrun : exists ys g w', run = Some (ys, g, w') /\ length ys = 1%nat).
  { vm_compute. eexists _, _, _. split; reflexivity. }
  destruct Hrun as (ys & g & w' & Hrun & Hlen).
  destruct (@iter_gdbc_close_closes_pipe example_env _ _ _ _ _ _ _ 0%nat _ _
              Hrun) as (file_buf & w0 & w'' & Hspawn & Hopen & Hclose & Hclosed).
  exists file_buf, w0, w', w'', ys, g. repeat split; assumption.
Defined.

(** ** The sampler *)

Section ForLoop.
Context {G Y : Type}.
Variable next : G -> world -> outcome Y * G * world.
Variable R : world -> world -> Prop.
Hypothesis R_refl : forall w, R w w.
Hypothesis R_trans : forall w1 w2 w3, R w1 w2 -> R w2 w3 -> R w1 w3.
Hypothesis R_next : forall g w, R w (snd (next g w)).

Lemma for_loop_keeps (body : Y -> M unit) :
  (forall y, keeps R (body y)) ->
  forall (fuel : nat) (g : G) (w : world),
    R w (snd (for_loop next body fuel g w)).
Proof.
  intros Hbody. induction fuel as [|fuel IH]; intros g w; cbn [for_loop].
  - apply R_refl.
  - pose proof (R_next g w) as Hn.
    destruct (next g w) as [[[y| |e] g'] w1]; cbn [snd] in *; try exact Hn.
    pose proof (Hbody y w1) as Hb.
    destruct (body y w1) as [[[]|e] w2]; cbn [snd] in *.
    + eapply R_trans; [exact Hn|]. eapply R_trans; [exact Hb | apply IH].
    + eapply R_trans; eassumption.
Qed.
End ForLoop.

Lemma same_csv_new_object (f : fileobj) : keeps same_csv (new_object f).
Proof. intros w. reflexivity. Qed.

Lemma same_csv_close (h : nat) : keeps same_csv (close h).
Proof. intros w. unfold close. now destruct (objects w !! h). Qed.

Lemma same_csv_mkdir (p : string) : keeps same_csv (mkdir p).
Proof. intros w. reflexivity. Qed.

Lemma same_csv_new_frame (i : list Z) (c : list datetime) :
  keeps same_csv (new_frame i c).
Proof. intros w. reflexivity. Qed.

Lemma same_csv_update_frame (r : nat) (f : DataFrame -> result DataFrame) :
  keeps same_csv (update_frame r f).
Proof.
  intros w. unfold update_frame.
  destruct (frames w !! r) as [df|]; [|reflexivity].
  now destruct (f df).
Qed.

Lemma same_csv_gzip_open `{Env} (p : string) : keeps same_csv (gzip_open p).
Proof. intros w. unfold gzip_open. now destruct (files w !! p). Qed.

Lemma same_csv_open_rb (p : string) : keeps same_csv (open_rb p).
Proof. intros w. unfold open_rb. now destruct (files w !! p). Qed.

Ltac keeps_csv :=
  repeat first
    [ apply keeps_mret; exact same_csv_refl
    | apply keeps_lift; exact same_csv_refl
    | apply keeps_raise; exact same_csv_refl
    | apply keeps_get_object; exact same_csv_refl
    | apply same_csv_new_object
    | apply same_csv_close
    | apply same_csv_mkdir
    | apply same_csv_new_frame
    | apply same_csv_update_frame
    | apply same_csv_gzip_open
    | apply same_csv_open_rb
    | apply (keeps_bind same_csv same_csv_trans); [|intro]
    | match goal with
      | |- keeps _ (if ?b then _ else _) => destruct b
      | |- keeps _ (match ?x with _ => _ end) => destruct x
      end ].

Section Sampler.
Context `{Env}.

Lemma same_csv_get_true_datastream (file_in : file_arg) :
  keeps same_csv (get_true_datastream file_in).
Proof.
  unfold get_true_datastream. destruct file_in as [p|h].
  - keeps_csv.
  - keeps_csv.
Qed.

Lemma same_csv_get_masks_loop (mask_ds : gmap string layer) (out : string)
    (year : Z) (ts : string) (layers : list string) :
  forall (dfOut : option nat) (acc : list mask_entry),
    keeps same_csv (get_masks_loop mask_ds layers out year ts dfOut acc).
Proof.
  induction layers as [|m rest IH]; intros dfOut acc; cbn [get_masks_loop].
  - keeps_csv.
  - apply (keeps_bind same_csv same_csv_trans);
      [keeps_csv|]. intros var.
    apply (keeps_bind same_csv same_csv_trans);
      [keeps_csv|]. intros t.
    apply (keeps_bind same_csv same_csv_trans);
      [apply same_csv_mkdir|]. intros _.
    apply (keeps_bind same_csv same_csv_trans).
    + destruct (String.eqb t "Polygon"); [|destruct (String.eqb t "Point")];
        keeps_csv.
    + intros [r|]; [apply IH | keeps_csv].
Qed.

Lemma same_csv_sample_setup (mask_nc : string) (file_in : file_arg)
    (mask_layers : list string) (out : string) (year : Z) (ts : string) :
  keeps same_csv (sample_setup mask_nc file_in mask_layers out year ts).
Proof.
  unfold sample_setup.
  apply (keeps_bind same_csv same_csv_trans);
    [apply same_csv_get_true_datastream|]. intros file_buf.
  apply (keeps_bind same_csv same_csv_trans); [keeps_csv|].
  intros mask_ds.
  apply (keeps_bind same_csv same_csv_trans);
    [apply same_csv_get_masks_loop|]. intros masks.
  keeps_csv.
Qed.

Lemma same_csv_sample_mask (Data : ndarray) (d : datetime) (me : mask_entry) :
  keeps same_csv (sample_mask Data d me).
Proof.
  unfold sample_mask.
  destruct (String.eqb (me_MaskType me) "Polygon");
    [|destruct (String.eqb (me_MaskType me) "Point")].
  - apply (keeps_bind same_csv same_csv_trans); [keeps_csv|].
    intros means.
    apply (keeps_bind same_csv same_csv_trans);
      [apply same_csv_update_frame|]. intros _.
    apply (keeps_bind same_csv same_csv_trans); [keeps_csv|].
    intros sums. apply same_csv_update_frame.
  - apply (keeps_bind same_csv same_csv_trans); [keeps_csv|].
    intros values. apply same_csv_update_frame.
  - keeps_csv.
Qed.

Lemma same_csv_sample_iterate (file_buf : nat) (ID : ndarray) (year : Z)
    (ts : string) (masks : list mask_entry) :
  keeps same_csv (sample_iterate file_buf ID year ts masks).
Proof.
  intros w. unfold sample_iterate.
  match goal with
  | |- context [for_loop ?nx ?body ?fuel ?g w] =>
      pose proof (for_loop_keeps nx same_csv same_csv_refl same_csv_trans
                    (iter_ds_next_keeps same_csv same_csv_refl same_csv_trans
                       same_csv_set_content)
                    body
                    (fun y => keeps_for_masks same_csv same_csv_refl
                                same_csv_trans _ masks
                                (same_csv_sample_mask (fst y) (snd y)))
                    fuel g w) as Hk;
      destruct (for_loop nx body fuel g w) as [[r|] w1]
  end; exact Hk.
Qed.

(** C7: the tables are written after the loop over the records.  When the
    loop raises, [sample_ds] raises the same exception and no table has
    been written: the tables on disk are those from before the call. *)
Theorem sample_ds_writes_after_iteration (mask_nc : string)
    (file_in : file_arg) (mask_layers : list string) (out : string)
    (year : Z) (variable ts : string) (w w1 w2 : world) (file_buf : nat)
    (masks : list mask_entry) (ID : ndarray) (e : exn) :
  sample_setup mask_nc file_in mask_layers out year ts w
  = (Ok (file_buf, masks, ID), w1) ->
  sample_iterate file_buf ID year ts masks w1 = (Raise e, w2) ->
  sample_ds mask_nc file_in mask_layers out year variable ts w = (Raise e, w2)
  /\ csv_files w2 = csv_files w.
Proof.
  intros Hsetup Hiter. split.
  - unfold sample_ds. rewrite run_bind, Hsetup. cbn beta iota.
    rewrite run_bind, Hiter. reflexivity.
  - pose proof (same_csv_sample_setup mask_nc file_in mask_layers out year ts w)
      as H1.
    pose proof (same_csv_sample_iterate file_buf ID year ts masks w1) as H2.
    rewrite Hsetup in H1. rewrite Hiter in H2. cbn [snd] in *.
    exact (same_csv_trans _ _ _ H1 H2).
Qed.
End Sampler.

Lemma sample_ds_writes_after_iteration_witness :
  exists w2,
    @sample_ds example_env "/data/mask.nc" (PathLike "/data/n_2000.gds")
               ["Gauges"; "Basins"] "/out" 2000 "Discharge" "annual"
               example_world
    = (Raise (ValueError "cannot convert float NaN to integer"), w2)
    /\ csv_files w2 = csv_files example_world.
Proof.
  eexists.
  eapply (@sample_ds_writes_after_iteration example_env).
  - vm_compute. reflexivity.
  - vm_compute. reflexivity.
Defined.

(** A run over the float stream goes through and writes one table for
    each mask. *)
Example sample_ds_writes_tables :
  (let '(r, w') :=
     @sample_ds example_env "/data/mask.nc" (PathLike "/data/q_2000.gds")
                ["Gauges"; "Basins"] "/out" 2000 "Discharge" "annual"
                example_world in
   is_ok r
   && bool_decide (dom (csv_files w')
                   = {[ "/out/Gauges/Annual/Discharge_2000.csv";
                        "/out/Basins/Annual/Discharge_2000.csv" ]}))
  = true.
Proof. vm_compute. reflexivity. Qed.

(** ** The loop over the records ends *)

Section Fuel.
Context `{Env}.

Lemma n_records_bound (year : Z) (ts : string) (n : Z) :
  n_records year ts = Ok n -> n <= 366.
Proof.
  unfold n_records.
  destruct (negb _); [discriminate|].
  destruct (String.eqb _ "annual"); [intros [= <-]; lia|].
  destruct (String.eqb _ "monthly"); [intros [= <-]; lia|].
  destruct (Period _) as [p|e]; rrun; [|discriminate].
  destruct (is_leap_year p); intros [= <-]; lia.
Qed.

(** From a [yield], [n - day] calls of [next] reach the end of the loop
    or an exception. *)
Lemma for_loop_suspended_ends (body : ndarray * datetime -> M unit)
    (h : nat) (ts : string) (cell_id : ndarray) (n rgisType : Z)
    (t : nptype) (NoData : scalar) (Cells : Z) (fuel : nat) :
  forall (d : datetime) (day : Z) (w : world),
    (1 <= fuel)%nat ->
    n - day <= Z.of_nat fuel ->
    fst (for_loop iter_ds_next body fuel
           (DsSuspended h ts cell_id n rgisType t NoData d Cells day) w)
    <> None.
Proof.
  induction fuel as [|fuel IH]; intros d day w Hpos Hfuel; [lia|].
  cbn [for_loop iter_ds_next]. unfold ds_loop.
  destruct (day + 1 <? n) eqn:Hlt; [|discriminate].
  apply Z.ltb_lt in Hlt.
  destruct (ds_iteration _ _ _ _ _ _ _ _ _ w) as [[[Data d']|e] w1];
    [|discriminate].
  destruct (body (Data, d') w1) as [[[]|e] w2]; [|discriminate].
  apply IH; lia.
Qed.

Lemma for_loop_created_ends (body : ndarray * datetime -> M unit)
    (file_buf : nat) (mask_id : ndarray) (year : Z) (ts : string)
    (w : world) (fuel : nat) :
  366 <= Z.of_nat fuel ->
  fst (for_loop iter_ds_next body (S fuel)
         (DsCreated file_buf mask_id year ts) w)
  <> None.
Proof.
  intros Hfuel. cbn [for_loop iter_ds_next]. cbn zeta.
  rewrite run_bind. unfold lift at 1.
  destruct (n_records year ts) as [n|e] eqn:Hn; [|discriminate].
  apply n_records_bound in Hn.
  rewrite run_bind.
  destruct (headDS file_buf ts w) as [[[[[[rgisType t] NoData] d] Cells]|e] w1];
    [|discriminate].
  unfold mret at 1, M_ret at 1. cbn beta iota. unfold ds_loop.
  destruct (0 <? n); [|discriminate].
  destruct (ds_iteration _ _ _ _ _ _ _ _ _ w1) as [[[Data d']|e] w2];
    [|discriminate].
  destruct (body (Data, d') w2) as [[[]|e] w3]; [|discriminate].
  apply for_loop_suspended_ends; lia.
Qed.

(** The fuel that [sample_iterate] gives its loop is enough: the loop
    over [iter_ds] always comes to an end. *)
Lemma for_loop_iter_ds_ends (body : ndarray * datetime -> M unit)
    (file_buf : nat) (mask_id : ndarray) (year : Z) (ts : string)
    (w : world) :
  fst (for_loop iter_ds_next body ds_fuel
         (iter_ds file_buf mask_id year ts) w)
  <> None.
Proof. apply (for_loop_created_ends body file_buf mask_id year ts w 366). lia. Qed.

(** So the loop of [sample_iterate] gives the result of the loop of the
    source, never the answer of an exhausted fuel. *)
Lemma sample_iterate_ends (file_buf : nat) (ID : ndarray) (year : Z)
    (ts : string) (masks : list mask_entry) (w : world) :
  exists r w',
    for_loop iter_ds_next
      (fun y => for_masks (sample_mask (fst y) (snd y)) masks)
      ds_fuel (iter_ds file_buf ID year ts) w
    = (Some r, w')
    /\ sample_iterate file_buf ID year ts masks w = (r, w').
Proof.
  unfold sample_iterate.
  pose proof (for_loop_iter_ds_ends
                (fun y => for_masks (sample_mask (fst y) (snd y)) masks)
                file_buf ID year ts w) as Hend.
  destruct (for_loop _ _ _ _ w) as [[r|] w1]; [|now cbn in Hend].
  exists r, w1. split; reflexivity.
Qed.
End Fuel.

(** ** The number of yields on any stream *)

Section YieldCount.
Context `{Env}.

Lemma n_records_positive (year : Z) (ts : string) (n : Z) :
  n_records year ts = Ok n -> 1 <= n.
Proof.
  unfold n_records.
  destruct (negb _); [discriminate|].
  destruct (String.eqb _ "annual"); [intros [= <-]; lia|].
  destruct (String.eqb _ "monthly"); [intros [= <-]; lia|].
  destruct (Period _) as [p|e]; rrun; [|discriminate].
  destruct (is_leap_year p); intros [= <-]; lia.
Qed.

Lemma drain_suspended_count (h : nat) (ts : string) (cell_id : ndarray)
    (n rgisType : Z) (t : nptype) (NoData : scalar) (Cells : Z) (fuel : nat) :
  forall (d : datetime) (day : Z) (w w' : world)
         (ys : list (ndarray * datetime)),
    day < n ->
    drain iter_ds_next fuel
          (DsSuspended h ts cell_id n rgisType t NoData d Cells day) w
    = (ys, Some (Ok tt), w') ->
    day + 1 + Z.of_nat (length ys) = n.
Proof.
  induction fuel as [|fuel IH]; intros d day w w' ys Hday; cbn [drain];
    [discriminate|].
  cbn [iter_ds_next]. unfold ds_loop.
  destruct (day + 1 <? n) eqn:Hlt.
  - apply Z.ltb_lt in Hlt.
    destruct (ds_iteration _ _ _ _ _ _ _ _ _ w) as [[[Data d']|e] w1];
      [|discriminate].
    destruct (drain iter_ds_next fuel _ w1) as [[ys1 r1] w2] eqn:Hrest.
    intros [= <- -> <-].
    apply IH in Hrest; [|lia]. cbn [length]. lia.
  - apply Z.ltb_ge in Hlt. intros [= <- <-]. cbn [length]. lia.
Qed.

(** Whatever the stream holds: when [iter_ds] comes to its end without an
    exception, it has yielded as many pairs as [n_records] counts. *)
Lemma iter_ds_ends_after_record_count (file_buf : nat) (mask_id : ndarray)
    (year : Z) (ts : string) (fuel : nat) (w w' : world)
    (ys : list (ndarray * datetime)) :
  drain iter_ds_next fuel (iter_ds file_buf mask_id year ts) w
  = (ys, Some (Ok tt), w') ->
  n_records year ts = Ok (Z.of_nat (length ys)).
Proof.
  destruct fuel as [|fuel]; cbn [drain]; [discriminate|].
  unfold iter_ds. cbn [iter_ds_next]. cbn zeta.
  rewrite run_bind. unfold lift at 1.
  destruct (n_records year ts) as [n|e] eqn:Hn; [|discriminate].
  pose proof (n_records_positive _ _ _ Hn) as Hpos.
  rewrite run_bind.
  destruct (headDS file_buf ts w) as [[[[[[rgisType t] NoData] d] Cells]|e] w1];
    [|discriminate].
  unfold mret at 1, M_ret at 1. cbn beta iota. unfold ds_loop.
  replace (0 <? n) with true by (symmetry; apply Z.ltb_lt; lia).
  destruct (ds_iteration _ _ _ _ _ _ _ _ _ w1) as [[[Data d']|e] w2];
    [|discriminate].
  destruct (drain iter_ds_next fuel _ w2) as [[ys1 r1] w3] eqn:Hrest.
  intros [= <- -> <-].
  apply drain_suspended_count in Hrest; [|lia].
  f_equal. cbn [length]. lia.
Qed.
End YieldCount.


(** * Further properties of the code *)

(** ** The header reader *)

Section Header.
Context `{Env}.

Lemma parse_header_short (ts : string) (c : bytes) :
  (length c < 40)%nat ->
  parse_header ts c = Raise (ValueError "Buffer size too small").
Proof.
  intros Hlen. unfold parse_header, from_buffer_copy.
  apply Nat.ltb_lt in Hlen. rewrite Hlen. reflexivity.
Qed.

(** X1: A stream that ends before a header is complete: [headDS] raises the
    [ValueError] of ctypes, and what was left of the stream has been
    read. *)
Theorem headDS_truncated (h : nat) (f : fileobj) (w : world) (ts : string)
    (c : bytes) :
  objects w !! h = Some f ->
  f_closed f = false ->
  f_kind f <> TextIOWrapper ->
  f_content f = Ok c ->
  (length c < 40)%nat ->
  headDS h ts w
  = (Raise (ValueError "Buffer size too small"), with_content h f [] w).
Proof.
  intros Hobj Hopen Hbin Hc Hlen.
  rewrite <- (with_content_same h f c w Hobj Hc) at 1.
  unfold headDS. rewrite run_bind.
  rewrite (read_with_content h f w Hopen Hbin) by lia.
  change (Z.to_nat 40) with 40%nat.
  rewrite firstn_all2, skipn_all2 by lia.
  unfold lift. now rewrite parse_header_short.
Qed.

Lemma parse_header_fields (ts : string) (forty : bytes) (rgisType : Z)
    (npType : nptype) (NoData : scalar) (d : datetime) (Items : Z) :
  parse_header ts forty = Ok (rgisType, npType, NoData, d, Items) ->
  _npType rgisType = Ok npType
  /\ (rgisType = 5 \/ rgisType = 6 \/ rgisType = 7 \/ rgisType = 8)
  /\ (is_float_type npType = true <-> exists x, NoData = SFloat x)
  /\ (is_float_type npType = false <-> exists z, NoData = SInt z)
  /\ - 2 ^ 31 <= Items < 2 ^ 31.
Proof.
  unfold parse_header.
  destruct (from_buffer_copy forty) as [dump|e] eqn:Hcopy; rrun; [|discriminate].
  destruct (_npType (Type_ dump)) as [t|e] eqn:Ht; rrun; [|discriminate].
  destruct (strptime _ _) as [d'|e]; rrun; [|discriminate].
  intros [= <- <- <- <- <-].
  split; [exact Ht|].
  assert (Hitems : - 2 ^ 31 <= ItemNum dump < 2 ^ 31).
  { unfold from_buffer_copy in Hcopy.
    destruct (length forty <? 40)%nat; [discriminate|].
    injection Hcopy as <-. cbn [ItemNum]. unfold le_int, to_signed.
    pose proof (Z.mod_pos_bound (le_uint (slice 4 8 forty)) (2 ^ 32) ltac:(lia)).
    destruct (_ <? _) eqn:Hlt; [apply Z.ltb_lt in Hlt | apply Z.ltb_ge in Hlt];
      change (2 ^ (32 - 1)) with (2 ^ 31) in *; lia. }
  unfold _npType in Ht.
  repeat match type of Ht with
         | context [?a =? ?b] => destruct (Z.eqb_spec a b) as [->|?]
         end; try discriminate; injection Ht as <-; cbn;
    (split; [lia|]);
    (split; [split; [intros Hx; try discriminate Hx; eauto
                    | intros [x Hx]; try discriminate Hx; reflexivity]|]);
    (split; [split; [intros Hx; try discriminate Hx; eauto
                    | intros [x Hx]; try discriminate Hx; reflexivity]
            | exact Hitems]).
Qed.

Lemma headDS_parse (h : nat) (ts : string) (w w' : world)
    (r : Z * nptype * scalar * datetime * Z) :
  headDS h ts w = (Ok r, w') ->
  exists forty, parse_header ts forty = Ok r.
Proof.
  unfold headDS. rewrite run_bind.
  destruct (read h 40 w) as [[forty|e] w1]; [|discriminate].
  unfold lift. intros [= Hparse _]. eauto.
Qed.

(** X2: The fields of a header that [headDS] accepts: the type code is one of
    5, 6, 7, 8, the dtype is the one [_npType] gives for it, the missing
    value is an integer for the codes 5 and 6 and a float for 7 and 8,
    and the item count is a 32-bit integer. *)
Theorem headDS_fields (h : nat) (ts : string) (w w' : world) (rgisType : Z)
    (npType : nptype) (NoData : scalar) (d : datetime) (Items : Z) :
  headDS h ts w = (Ok (rgisType, npType, NoData, d, Items), w') ->
  _npType rgisType = Ok npType
  /\ (rgisType = 5 \/ rgisType = 6 \/ rgisType = 7 \/ rgisType = 8)
  /\ (is_float_type npType = true <-> exists x, NoData = SFloat x)
  /\ (is_float_type npType = false <-> exists z, NoData = SInt z)
  /\ - 2 ^ 31 <= Items < 2 ^ 31.
Proof.
  intros Hhead. apply headDS_parse in Hhead as [forty Hparse].
  exact (parse_header_fields ts forty _ _ _ _ _ Hparse).
Qed.

Lemma parse_header_other_step (ts : string) (forty : bytes) :
  ts <> "daily" -> ts <> "monthly" ->
  parse_header ts forty = parse_header "annual" forty.
Proof.
  intros Hd Hm. unfold parse_header.
  apply String.eqb_neq in Hd, Hm. now rewrite Hd, Hm.
Qed.

(** X3: [headDS] compares the time step as it is given, without the
    lower-casing of [n_records]: every time step other than the exact
    texts daily and monthly reads the date of the header with the format
    of a year. *)
Theorem headDS_other_step (h : nat) (ts : string) (w : world) :
  ts <> "daily" -> ts <> "monthly" ->
  headDS h ts w = headDS h "annual" w.
Proof.
  intros Hd Hm. unfold headDS. rewrite !run_bind.
  destruct (read h 40 w) as [[forty|e] w1]; [|reflexivity].
  unfold lift. now rewrite parse_header_other_step.
Qed.

(** X4: The byte-order flag is never looked at: two headers that differ in
    their first two bytes only are read alike. *)
Theorem headDS_ignores_swap (h : nat) (f : fileobj) (w : world) (ts : string)
    (swap swap' body c : bytes) :
  f_closed f = false ->
  f_kind f <> TextIOWrapper ->
  length swap = 2%nat -> length swap' = 2%nat -> length body = 38%nat ->
  fst (headDS h ts (with_content h f (swap ++ body ++ c) w))
  = fst (headDS h ts (with_content h f (swap' ++ body ++ c) w)).
Proof.
  intros Hopen Hbin Hs Hs' Hb.
  rewrite !app_assoc.
  rewrite !(headDS_with_content h f w Hopen Hbin ts)
    by (rewrite length_app; lia).
  cbn [fst].
  destruct swap as [|a [|b [|]]]; try discriminate.
  destruct swap' as [|a' [|b' [|]]]; try discriminate.
  unfold parse_header, from_buffer_copy.
  cbn [app length]. rewrite Hb. cbn [Nat.ltb Nat.leb].
  rrun. reflexivity.
Qed.
End Header.

Lemma headDS_truncated_witness :
  @headDS example_env 0 "annual" (example_open [1; 2; 3])
  = (Raise (ValueError "Buffer size too small"), example_open []).
Proof.
  refine (@headDS_truncated example_env 0 _ (example_open [1; 2; 3]) "annual"
            [1; 2; 3] eq_refl eq_refl _ eq_refl _).
  - discriminate.
  - cbn. lia.
Defined.

Lemma headDS_fields_witness :
  _npType 8 = Ok np_float64
  /\ (8 = 5 \/ 8 = 6 \/ 8 = 7 \/ 8 = 8)
  /\ (is_float_type np_float64 = true
      <-> exists x, SFloat (float_of_Z (-9999)) = SFloat x)
  /\ (is_float_type np_float64 = false
      <-> exists z, SFloat (float_of_Z (-9999)) = SInt z)
  /\ - 2 ^ 31 <= 2 < 2 ^ 31.
Proof.
  eapply (@headDS_fields example_env 0 "annual"
            (example_open example_double_stream)).
  vm_compute. reflexivity.
Defined.

Lemma headDS_other_step_witness :
  @headDS example_env 0 "Daily" (example_open example_double_stream)
  = @headDS example_env 0 "annual" (example_open example_double_stream).
Proof.
  apply (@headDS_other_step example_env); discriminate.
Defined.

Lemma headDS_ignores_swap_witness :
  fst (@headDS example_env 0 "annual"
         (with_content 0 {| f_kind := BufferedReader;
                            f_name := NameStr "/data/stream.gds";
                            f_content := Ok []; f_closed := false;
                            f_buffer := None |}
            ([0; 0] ++ skipn 2 example_header ++ []) (example_open [])))
  = fst (@headDS example_env 0 "annual"
           (with_content 0 {| f_kind := BufferedReader;
                              f_name := NameStr "/data/stream.gds";
                              f_content := Ok []; f_closed := false;
                              f_buffer := None |}
              ([1; 0] ++ skipn 2 example_header ++ []) (example_open []))).
Proof.
  apply (@headDS_ignores_swap example_env); try reflexivity. discriminate.
Defined.

(** ** The record reader *)

Lemma chunks_length (n k : nat) :
  (0 < n)%nat ->
  forall (fuel : nat) (bs : bytes),
    length bs = (k * n)%nat -> (length bs <= fuel)%nat ->
    length (chunks fuel n bs) = k.
Proof.
  intros Hn. induction k as [|k IH]; intros fuel bs Hlen Hfuel.
  - destruct bs; [|discriminate]. now destruct fuel.
  - destruct fuel as [|fuel]; [cbn in Hlen; lia|].
    destruct bs as [|b bs]; [cbn in Hlen; lia|].
    cbn [chunks length]. f_equal. apply IH.
    + rewrite length_skipn, Hlen. cbn. lia.
    + rewrite length_skipn. cbn [length] in *. lia.
Qed.

(** [np.frombuffer] on a whole number of cells: an array of that many
    cells of the dtype. *)
Lemma frombuffer_cells (buf : bytes) (t : nptype) (k : Z) :
  Z.of_nat (length buf) = k * itemsize t ->
  exists a, frombuffer buf t = Ok a
            /\ nd_size a = k /\ dtype a = t /\ shape a = [k].
Proof.
  intros Hlen. unfold frombuffer.
  assert (Hpos : 0 < itemsize t) by (destruct t; cbn; lia).
  rewrite Hlen, Z.mod_mul, Z.eqb_refl by lia. cbn [negb].
  eexists. split; [reflexivity|]. unfold nd_size. cbn [data dtype shape].
  rewrite Z.div_mul by lia. repeat split.
  rewrite length_map.
  assert (Hk : 0 <= k) by nia.
  rewrite (chunks_length (Z.to_nat (itemsize t)) (Z.to_nat k)); lia.
Qed.

Lemma frombuffer_ragged (buf : bytes) (t : nptype) :
  Z.of_nat (length buf) mod itemsize t <> 0 ->
  frombuffer buf t
  = Raise (ValueError "buffer size must be a multiple of element size").
Proof.
  intros Hmod. unfold frombuffer.
  apply Z.eqb_neq in Hmod. now rewrite Hmod.
Qed.

Section Record.
Context `{Env}.
Variables (h : nat) (f : fileobj) (w : world).
Hypothesis f_open : f_closed f = false.
Hypothesis f_binary : f_kind f <> TextIOWrapper.

(** X5: With [skip], the forty bytes in front of the record are taken from
    the stream and dropped, whatever they hold; the record after them is
    decoded and the rest of the stream is left. *)
Theorem recordDS_skip (Cells : Z) (t : nptype) (hd rc c : bytes) :
  length hd = 40%nat ->
  Z.of_nat (length rc) = Cells * itemsize t ->
  exists a,
    recordDS h Cells t true (with_content h f (hd ++ rc ++ c) w)
    = (Ok a, with_content h f c w)
    /\ frombuffer rc t = Ok a /\ nd_size a = Cells.
Proof.
  intros Hhd Hrc.
  destruct (frombuffer_cells rc t Cells Hrc) as (a & Ha & Hsize & _).
  exists a. split; [|split; assumption].
  unfold recordDS. rewrite run_bind.
  rewrite (read_with_content h f w f_open f_binary) by lia.
  change (Z.to_nat 40) with 40%nat. rewrite <- Hhd.
  rewrite skipn_app, Nat.sub_diag, skipn_all, skipn_O. cbn [app].
  rewrite run_bind.
  rewrite (read_with_content h f w f_open f_binary) by lia.
  rewrite <- Hrc, Nat2Z.id.
  rewrite firstn_app, Nat.sub_diag, firstn_all, firstn_O, app_nil_r.
  rewrite skipn_app, Nat.sub_diag, skipn_all, skipn_O. cbn [app].
  unfold lift. now rewrite Ha.
Qed.

(** X6: A stream that ends inside a record, at the boundary of a cell:
    [recordDS] raises nothing and returns the cells that are there, fewer
    than were asked for. *)
Theorem recordDS_short (Cells : Z) (t : nptype) (c : bytes) (k : Z) :
  Z.of_nat (length c) = k * itemsize t ->
  k < Cells ->
  exists a,
    recordDS h Cells t false (with_content h f c w)
    = (Ok a, with_content h f [] w)
    /\ nd_size a = k /\ dtype a = t.
Proof.
  intros Hlen Hk.
  assert (Hpos : 0 < itemsize t) by (destruct t; cbn; lia).
  destruct (frombuffer_cells c t k Hlen) as (a & Ha & Hsize & Hdt & _).
  exists a. split; [|split; assumption].
  unfold recordDS. rewrite run_bind. unfold mret at 1, M_ret at 1.
  cbn beta iota. rewrite run_bind.
  rewrite (read_with_content h f w f_open f_binary) by nia.
  rewrite firstn_all2, skipn_all2 by nia.
  unfold lift. now rewrite Ha.
Qed.

(** X7: A stream that ends inside a cell: [recordDS] raises the [ValueError]
    of [np.frombuffer]. *)
Theorem recordDS_ragged (Cells : Z) (t : nptype) (c : bytes) :
  Z.of_nat (length c) < Cells * itemsize t ->
  Z.of_nat (length c) mod itemsize t <> 0 ->
  recordDS h Cells t false (with_content h f c w)
  = (Raise (ValueError "buffer size must be a multiple of element size"),
     with_content h f [] w).
Proof.
  intros Hlen Hmod.
  unfold recordDS. rewrite run_bind. unfold mret at 1, M_ret at 1.
  cbn beta iota. rewrite run_bind.
  rewrite (read_with_content h f w f_open f_binary) by lia.
  rewrite firstn_all2, skipn_all2 by lia.
  unfold lift. now rewrite frombuffer_ragged.
Qed.
End Record.

Lemma recordDS_skip_witness :
  exists a,
    recordDS 0 2 np_float64 true
      (with_content 0 example_file
         (example_header ++ (double_bytes 10 ++ double_bytes 20) ++ [])
         (example_open []))
    = (Ok a, with_content 0 example_file [] (example_open []))
    /\ frombuffer (double_bytes 10 ++ double_bytes 20) np_float64 = Ok a
    /\ nd_size a = 2.
Proof.
  apply (recordDS_skip 0 example_file (example_open []) eq_refl
           ltac:(discriminate) 2 np_float64 example_header
           (double_bytes 10 ++ double_bytes 20) []); reflexivity.
Defined.

Lemma recordDS_short_witness :
  exists a,
    recordDS 0 2 np_float64 false
      (with_content 0 example_file (double_bytes 10) (example_open []))
    = (Ok a, with_content 0 example_file [] (example_open []))
    /\ nd_size a = 1 /\ dtype a = np_float64.
Proof.
  apply (recordDS_short 0 example_file (example_open []) eq_refl
           ltac:(discriminate) 2 np_float64 (double_bytes 10) 1);
    [reflexivity | lia].
Defined.

Lemma recordDS_ragged_witness :
  recordDS 0 2 np_float64 false
    (with_content 0 example_file [1; 2; 3] (example_open []))
  = (Raise (ValueError "buffer size must be a multiple of element size"),
     with_content 0 example_file [] (example_open [])).
Proof.
  apply (recordDS_ragged 0 example_file (example_open []) eq_refl
           ltac:(discriminate) 2 np_float64 [1; 2; 3]);
    [vm_compute; reflexivity | vm_compute; discriminate].
Defined.

(** ** The record count, its errors and its range *)

Section RecordCountRange.
Context `{Env}.

(** X8: A time step that is none of the three names, in any case of letters,
    fails the assertion, for every year: pandas is not asked. *)
Theorem n_records_unknown_step (y : Z) (s : string) :
  ~ In (lower s) ["annual"; "monthly"; "daily"] ->
  n_records y s
  = Raise (AssertionError "time_step must be annual monthly or daily").
Proof.
  intros Hnot. unfold n_records, str_in. cbn [existsb].
  destruct (String.eqb_spec (lower s) "annual") as [He|_];
    [exfalso; apply Hnot; rewrite He; cbn; tauto|].
  destruct (String.eqb_spec (lower s) "monthly") as [He|_];
    [exfalso; apply Hnot; rewrite He; cbn; tauto|].
  destruct (String.eqb_spec (lower s) "daily") as [He|_];
    [exfalso; apply Hnot; rewrite He; cbn; tauto|].
  reflexivity.
Qed.

(** X9: When [n_records] returns, the time step is one of the three names up
    to the case of its letters, and the count is 1, 12, 365 or 366. *)
Theorem n_records_range (y : Z) (s : string) (n : Z) :
  n_records y s = Ok n ->
  (lower s = "annual" /\ n = 1)
  \/ (lower s = "monthly" /\ n = 12)
  \/ (lower s = "daily" /\ (n = 365 \/ n = 366)).
Proof.
  unfold n_records, str_in. cbn [existsb].
  destruct (String.eqb_spec (lower s) "annual") as [He|_].
  { cbn. intros [= <-]. now left. }
  destruct (String.eqb_spec (lower s) "monthly") as [He|_].
  { cbn. intros [= <-]. right. now left. }
  destruct (String.eqb_spec (lower s) "daily") as [He|_]; [|discriminate].
  cbn. destruct (Period _) as [p|e]; rrun; [|discriminate].
  destruct (is_leap_year p); intros [= <-]; right; right; split; auto.
Qed.
End RecordCountRange.

Lemma n_records_unknown_step_witness :
  @n_records example_env (-5) "weekly"
  = Raise (AssertionError "time_step must be annual monthly or daily").
Proof.
  apply (@n_records_unknown_step example_env).
  cbn. intros [H | [H | [H | []]]]; discriminate H.
Defined.

Lemma n_records_range_witness :
  ("daily" = "annual" /\ 366 = 1)
  \/ ("daily" = "monthly" /\ 366 = 12)
  \/ ("daily" = "daily" /\ (366 = 365 \/ 366 = 366)).
Proof.
  apply (@n_records_range example_env 2000 "DAILY" 366). reflexivity.
Defined.

(** ** The remap: identifiers out of the record, and from its end *)

Lemma mapM_result_raise {A B} (f : A -> result B) (e : exn) (l : list A) :
  Forall (fun x => (exists b, f x = Ok b) \/ f x = Raise e) l ->
  Exists (fun x => f x = Raise e) l ->
  mapM f l = Raise e.
Proof.
  induction 1 as [|x l Hx _ IH]; intros Hex; [inversion Hex|].
  cbn [mapM]. destruct Hx as [[b Hb] | Hx].
  - rewrite Hb. rrun.
    inversion Hex as [? ? Hhere | ? ? Hthere]; subst; [congruence|].
    now rewrite (IH Hthere).
  - now rewrite Hx.
Qed.

Lemma take1_out_of_range (cells : list scalar) (i : Z) :
  i < - Z.of_nat (length cells) \/ Z.of_nat (length cells) <= i ->
  take1 cells (SInt i) = Raise IndexError.
Proof.
  intros Hi. unfold take1.
  destruct (i <? - Z.of_nat (length cells)) eqn:H1; [reflexivity|].
  destruct (Z.of_nat (length cells) <=? i) eqn:H2; [reflexivity|].
  apply Z.ltb_ge in H1. apply Z.leb_gt in H2. lia.
Qed.

Lemma take1_ok_or_index_error (cells : list scalar) (c : scalar) :
  (exists b, take1 cells c = Ok b) \/ take1 cells c = Raise IndexError.
Proof.
  unfold take1. destruct c as [i|x]; [|now right].
  destruct (_ || _); [now right|].
  destruct (nth_error _ _); eauto.
Qed.

Lemma take1_wrap (cells : list scalar) (i : Z) (d : scalar) :
  - Z.of_nat (length cells) <= i < Z.of_nat (length cells) ->
  take1 cells (SInt i)
  = Ok (nth (Z.to_nat (i mod Z.of_nat (length cells))) cells d).
Proof.
  intros Hi. unfold take1.
  replace (i <? - Z.of_nat (length cells)) with false
    by (symmetry; apply Z.ltb_ge; lia).
  replace (Z.of_nat (length cells) <=? i) with false
    by (symmetry; apply Z.leb_gt; lia).
  cbn [orb].
  assert (Hj : (if i <? 0 then i + Z.of_nat (length cells) else i)
               = i mod Z.of_nat (length cells)).
  { destruct (i <? 0) eqn:Hneg.
    - apply Z.ltb_lt in Hneg.
      apply (Z.mod_unique i (Z.of_nat (length cells)) (-1)); lia.
    - apply Z.ltb_ge in Hneg. now rewrite Z.mod_small by lia. }
  rewrite Hj.
  assert (Hlt : 0 <= i mod Z.of_nat (length cells) < Z.of_nat (length cells))
    by (apply Z.mod_pos_bound; lia).
  destruct (nth_error cells _) as [c|] eqn:Hnth.
  - now rewrite (nth_error_nth _ _ d Hnth).
  - apply nth_error_None in Hnth. lia.
Qed.

(** X10: When the missing value can be stored in the dtype of the record,
    so that [np.insert] goes through, an identifier beyond the record
    (greater than the number of its cells, or smaller than minus that
    number minus one) makes the remap raise [IndexError]. *)
Theorem remap_identifier_out_of_range (cell_id : ndarray) (rgisType : Z)
    (NoData missing : scalar) (Data : ndarray) (ids : list Z) :
  data cell_id = map SInt ids ->
  cast_scalar (dtype Data) NoData = Ok missing ->
  Exists (fun i => i < - (nd_size Data + 1) \/ nd_size Data < i) ids ->
  remap cell_id rgisType NoData Data = Raise IndexError.
Proof.
  intros Hids Hcast Hex.
  unfold remap, insert0. rewrite Hcast. rrun.
  unfold fancy_index. cbn [data flatten]. rewrite Hids.
  rewrite (mapM_result_raise _ IndexError); [reflexivity | |].
  - apply List.Forall_forall. intros c _. apply take1_ok_or_index_error.
  - apply List.Exists_exists. apply List.Exists_exists in Hex as (i & Hin & Hi).
    exists (SInt i). split; [now apply in_map|].
    apply take1_out_of_range. unfold nd_size in Hi. cbn [length]. lia.
Qed.

(** X11: For a record of a float dtype, an identifier from [-(n + 1)] to [n],
    where [n] is the number of cells of the record, picks a cell of the
    record with the missing value in front: the identifier 0 the missing
    value, [i] the [i]-th cell, and a negative identifier counts from the
    end, -1 being the last cell.  The cell is not-a-number when it equals
    the missing value. *)
Theorem remap_float_wraps (cell_id : ndarray) (rgisType : Z)
    (NoData : scalar) (Data : ndarray) (ids : list Z) :
  is_float_type (dtype Data) = true ->
  well_shaped cell_id ->
  data cell_id = map SInt ids ->
  Forall (fun i => - (nd_size Data + 1) <= i <= nd_size Data) ids ->
  exists missing,
    cast_scalar (dtype Data) NoData = Ok missing
    /\ remap cell_id rgisType NoData Data
       = Ok {| dtype := dtype Data;
               shape := shape cell_id;
               data :=
                 map (fun i =>
                        let c := nth (Z.to_nat (i mod (nd_size Data + 1)))
                                     (missing :: data Data) nan in
                        if cell_eqb (dtype Data) c NoData then nan else c)
                     ids |}.
Proof.
  intros Hfl [Hprod Hnonneg] Hids Hrange.
  assert (Hcast : exists missing, cast_scalar (dtype Data) NoData = Ok missing).
  { unfold cast_scalar. rewrite Hfl. destruct NoData; eauto. }
  destruct Hcast as [missing Hcast]. exists missing. split; [exact Hcast|].
  unfold remap, insert0. rewrite Hcast. rrun.
  unfold fancy_index. cbn [data dtype flatten shape].
  rewrite Hids.
  rewrite (mapM_result_map _
             (fun c => match c with
                       | SInt i => nth (Z.to_nat (i mod (nd_size Data + 1)))
                                       (missing :: data Data) nan
                       | SFloat _ => nan
                       end)).
  2:{ apply List.Forall_forall. intros c Hc.
      apply in_map_iff in Hc as (i & <- & Hi).
      rewrite List.Forall_forall in Hrange. specialize (Hrange i Hi).
      unfold nd_size in *.
      replace (Z.of_nat (length (data Data)) + 1)
        with (Z.of_nat (length (missing :: data Data)))
        by (cbn [length]; lia).
      apply take1_wrap. cbn [length]. lia. }
  rrun.
  unfold reshape, nd_size. cbn [data shape dtype].
  rewrite !length_map. unfold nd_size in Hprod. rewrite Hids, length_map in Hprod.
  rewrite Hprod, Z.eqb_refl.
  replace (forallb (fun d => 0 <=? d) (shape cell_id)) with true.
  2:{ symmetry. apply forallb_forall. intros d Hd.
      rewrite List.Forall_forall in Hnonneg. apply Z.leb_le, Hnonneg, Hd. }
  cbn [andb]. rrun. cbn zeta.
  unfold assign_where_eq, cast_scalar, nan. cbn [dtype data shape].
  rewrite Hfl. rrun.
  replace (round_float (dtype Data) S754_nan) with S754_nan
    by (now destruct (dtype Data)).
  do 2 f_equal.
  rewrite assign_mask_map, !map_map. reflexivity.
Qed.

Lemma remap_identifier_out_of_range_witness :
  remap (example_ids [0; 1; 3; 1]) 8 (SFloat (float_of_Z (-9999)))
        example_record
  = Raise IndexError.
Proof.
  apply (remap_identifier_out_of_range (example_ids [0; 1; 3; 1]) 8
           (SFloat (float_of_Z (-9999))) (SFloat (float_of_Z (-9999)))
           example_record [0; 1; 3; 1] eq_refl eq_refl).
  do 2 apply Exists_cons_tl. apply Exists_cons_hd.
  right. vm_compute. reflexivity.
Defined.

(** A missing value that is no value of an integer dtype (the header
    holds it in 32 bits, the record may be of 16) is refused by
    [np.insert], before any cell is picked. *)
Lemma remap_missing_out_of_range (cell_id : ndarray) (rgisType : Z)
    (z : Z) (Data : ndarray) :
  is_float_type (dtype Data) = false ->
  int_fits (dtype Data) z = false ->
  remap cell_id rgisType (SInt z) Data
  = Raise (OverflowError "Python integer out of bounds").
Proof.
  intros Hint Hfits. unfold remap, insert0, cast_scalar.
  now rewrite Hint, Hfits.
Qed.

Example remap_missing_out_of_int16 :
  remap (example_ids [0; 1; 2; 1]) 5 (SInt (-99999))
        {| dtype := np_int16; shape := [2]; data := [SInt 10; SInt 20] |}
  = Raise (OverflowError "Python integer out of bounds").
Proof. reflexivity. Qed.

Lemma remap_float_wraps_witness :
  exists missing,
    cast_scalar np_float64 (SFloat (float_of_Z (-9999))) = Ok missing
    /\ remap (example_ids [0; 1; -1; 2]) 8 (SFloat (float_of_Z (-9999)))
             example_record
       = Ok {| dtype := np_float64;
               shape := [2; 2];
               data :=
                 map (fun i =>
                        let c := nth (Z.to_nat (i mod (2 + 1)))
                                     (missing :: data example_record) nan in
                        if cell_eqb np_float64 c (SFloat (float_of_Z (-9999)))
                        then nan else c)
                     [0; 1; -1; 2] |}.
Proof.
  apply (remap_float_wraps (example_ids [0; 1; -1; 2]) 8
           (SFloat (float_of_Z (-9999))) example_record [0; 1; -1; 2]
           eq_refl).
  - split; [reflexivity|]. repeat constructor; discriminate.
  - reflexivity.
  - repeat constructor; vm_compute; discriminate.
Defined.

(** In that grid the identifier -1 has the last value of the record, and
    the identifier 0 not-a-number. *)
Example remap_last_cell :
  remap (example_ids [0; 1; -1; 2]) 8 (SFloat (float_of_Z (-9999)))
        example_record
  = Ok {| dtype := np_float64; shape := [2; 2];
          data := [nan; SFloat (float_of_Z 10); SFloat (float_of_Z 20);
                   SFloat (float_of_Z 20)] |}.
Proof. vm_compute. reflexivity. Qed.

(** ** The identifier grid *)

Lemma to_signed_range (w u : Z) :
  0 < w -> - 2 ^ (w - 1) <= to_signed w u < 2 ^ (w - 1).
Proof.
  intros Hw. unfold to_signed.
  assert (Hp : 2 ^ w = 2 * 2 ^ (w - 1)).
  { replace w with (Z.succ (w - 1)) at 1 by lia. apply Z.pow_succ_r. lia. }
  assert (Hpos : 0 < 2 ^ (w - 1)) by (apply Z.pow_pos_nonneg; lia).
  pose proof (Z.mod_pos_bound u (2 ^ w) ltac:(lia)) as Hm.
  destruct (_ <? _) eqn:Hlt; [apply Z.ltb_lt in Hlt | apply Z.ltb_ge in Hlt];
    lia.
Qed.

Lemma float_to_int_range (w : Z) (x : spec_float) :
  0 < w -> - 2 ^ (w - 1) <= float_to_int w x < 2 ^ (w - 1).
Proof.
  intros Hw. unfold float_to_int.
  assert (Hpos : 0 < 2 ^ (w - 1)) by (apply Z.pow_pos_nonneg; lia).
  destruct (trunc_float x) as [z|]; [|lia].
  destruct (_ && _) eqn:Hin; [|lia].
  apply andb_true_iff in Hin as [H1 H2].
  apply Z.leb_le in H1. apply Z.ltb_lt in H2. lia.
Qed.

(** X12: The identifiers that [iter_ds] indexes with: a grid of the shape of
    the mask, of 32-bit integers, with 0 wherever the mask holds
    not-a-number. *)
Theorem cell_id_of_mask (mask_id : ndarray) :
  dtype (nan_to_num_int32 mask_id) = np_int32
  /\ shape (nan_to_num_int32 mask_id) = shape mask_id
  /\ Forall2 (fun c c' => exists z, c' = SInt z
                                    /\ - 2 ^ 31 <= z < 2 ^ 31
                                    /\ (c = nan -> z = 0))
             (data mask_id) (data (nan_to_num_int32 mask_id)).
Proof.
  unfold nan_to_num_int32, astype. cbn [dtype shape data].
  split; [reflexivity|]. split; [reflexivity|].
  induction (data mask_id) as [|c cs IH]; cbn [map]; constructor; [|exact IH].
  unfold cast_cell. cbn [is_float_type].
  destruct c as [z|x]; cbn [nan_to_num0].
  - eexists. split; [reflexivity|]. split; [|discriminate].
    apply (to_signed_range 32). lia.
  - assert (Hgen : forall y, exists z,
               SInt (float_to_int (int_bits np_int32) y) = SInt z
               /\ - 2 ^ 31 <= z < 2 ^ 31).
    { intros y. eexists. split; [reflexivity|].
      apply (float_to_int_range 32). lia. }
    destruct x as [s|[]| |s m e]; cbn [nan_to_num0];
      try (destruct (Hgen (S754_zero s)) as (z & Hz & Hr);
           exists z; repeat split; try assumption; try lia; discriminate).
    all: try (eexists; split; [reflexivity|]; split;
              [apply (float_to_int_range 32); lia | try discriminate]).
    intros _. reflexivity.
Qed.

(** ** The decode iterator on integer streams, and what it leaves alone *)

Lemma frombuffer_dtype (buf : bytes) (t : nptype) (a : ndarray) :
  frombuffer buf t = Ok a -> dtype a = t.
Proof.
  unfold frombuffer. destruct (negb _); [discriminate|].
  now intros [= <-].
Qed.

Lemma recordDS_dtype (h : nat) (items : Z) (t : nptype) (skip : bool)
    (w w' : world) (a : ndarray) :
  recordDS h items t skip w = (Ok a, w') -> dtype a = t.
Proof.
  unfold recordDS. rewrite run_bind.
  destruct ((if skip then read h 40 else mret []) w) as [[x|e] w1];
    [|discriminate].
  rewrite run_bind.
  destruct (read h _ w1) as [[buf|e] w2]; [|discriminate].
  unfold lift. intros [= Hbuf _]. exact (frombuffer_dtype _ _ _ Hbuf).
Qed.

Section IntegerStreams.
Context `{Env}.

(** X13: A stream whose first header has the type code 5 or 6 gives no grid at
    all: whatever follows the header, the first [next] raises. *)
Theorem iter_ds_integer_header (file_buf : nat) (mask_id : ndarray)
    (year : Z) (ts : string) (w w1 : world) (rgisType : Z) (npType : nptype)
    (NoData : scalar) (d : datetime) (Cells : Z) (fuel : nat) :
  headDS file_buf ts w = (Ok (rgisType, npType, NoData, d, Cells), w1) ->
  rgisType <= 6 ->
  exists e w',
    drain iter_ds_next (S fuel) (iter_ds file_buf mask_id year ts) w
    = ([], Some (Raise e), w').
Proof.
  intros Hhead Htype.
  assert (Hint : is_float_type npType = false).
  { destruct (headDS_parse _ _ _ _ _ Hhead) as [forty Hparse].
    destruct (parse_header_fields _ _ _ _ _ _ _ Hparse) as (Hnp & Hcode & _).
    destruct Hcode as [-> | [-> | [-> | ->]]]; try lia;
      cbn in Hnp; injection Hnp as <-; reflexivity. }
  unfold iter_ds. cbn [drain iter_ds_next]. cbn zeta.
  rewrite run_bind. unfold lift at 1.
  destruct (n_records year ts) as [n|e] eqn:Hn; [|eauto].
  pose proof (n_records_positive _ _ _ Hn) as Hpos.
  rewrite run_bind, Hhead.
  unfold mret at 1, M_ret at 1. cbn beta iota. unfold ds_loop.
  replace (0 <? n) with true by (symmetry; apply Z.ltb_lt; lia).
  unfold ds_iteration. cbn [Z.eqb negb].
  rewrite run_bind. unfold mret at 1, M_ret at 1. cbn beta iota.
  rewrite run_bind.
  destruct (recordDS file_buf Cells npType false w1) as [[Data|e] w2] eqn:Hrec;
    [|eauto].
  apply recordDS_dtype in Hrec.
  rewrite run_bind. unfold lift at 1.
  destruct (remap_integer_raises (nan_to_num_int32 mask_id) rgisType NoData
              Data) as [e He]; [now rewrite Hrec|].
  rewrite He. eauto.
Qed.
End IntegerStreams.

Lemma iter_ds_integer_header_witness :
  exists e w',
    drain (@iter_ds_next example_env) 13
          (iter_ds 0 example_ID 2000 "daily")
          (example_open (header_bytes 5 3 (le_bytes 4 0) "2000-01-01"))
    = ([], Some (Raise e), w').
Proof.
  eapply (@iter_ds_integer_header example_env 0 example_ID 2000 "daily"
            (example_open (header_bytes 5 3 (le_bytes 4 0) "2000-01-01"))).
  - vm_compute. reflexivity.
  - lia.
Defined.

Section DrainKeeps.
Context {G Y : Type}.
Variable next : G -> world -> outcome Y * G * world.
Variable R : world -> world -> Prop.
Hypothesis R_refl : forall w, R w w.
Hypothesis R_trans : forall w1 w2 w3, R w1 w2 -> R w2 w3 -> R w1 w3.
Hypothesis R_next : forall g w, R w (snd (next g w)).

Lemma drain_keeps (fuel : nat) :
  forall (g : G) (w : world), R w (snd (drain next fuel g w)).
Proof.
  induction fuel as [|fuel IH]; intros g w; cbn [drain].
  - apply R_refl.
  - pose proof (R_next g w) as Hn.
    destruct (next g w) as [[[y| |e] g'] w1]; cbn [snd] in *; try exact Hn.
    specialize (IH g' w1).
    destruct (drain next fuel g' w1) as [[ys r] w2]. cbn [snd] in *.
    eapply R_trans; eassumption.
Qed.
End DrainKeeps.

Lemma only_objects_change_refl (w : world) : only_objects_change w w.
Proof. repeat split. Qed.

Lemma only_objects_change_trans (w1 w2 w3 : world) :
  only_objects_change w1 w2 -> only_objects_change w2 w3 ->
  only_objects_change w1 w3.
Proof.
  unfold only_objects_change. intros (? & ? & ? & ?) (? & ? & ? & ?).
  repeat split; congruence.
Qed.

Lemma only_objects_change_set_content (h : nat) (f : fileobj) (c : bytes)
    (w : world) :
  objects w !! h = Some f ->
  only_objects_change w (snd (set_object h (set_content f c) w)).
Proof. intros _. repeat split. Qed.

Section IterFrame.
Context `{Env}.

(** X14: However far [iter_ds] is run, and whether it ends or raises, it
    changes nothing but file objects, and of those it closes and removes
    none: the files on disk, the tables, the directories and the written
    tables are as before, and a file object that was open is open. *)
Theorem iter_ds_changes_only_its_stream (fuel : nat) (g : ds_gen)
    (w : world) :
  let w' := snd (drain iter_ds_next fuel g w) in
  only_objects_change w w' /\ objects_stay w w'.
Proof.
  split.
  - apply (drain_keeps iter_ds_next only_objects_change
             only_objects_change_refl only_objects_change_trans).
    apply (iter_ds_next_keeps only_objects_change only_objects_change_refl
             only_objects_change_trans only_objects_change_set_content).
  - apply (drain_keeps iter_ds_next objects_stay objects_stay_refl
             objects_stay_trans).
    apply (iter_ds_next_keeps objects_stay objects_stay_refl
             objects_stay_trans objects_stay_set_content).
Qed.
End IterFrame.

Section OwnStream.
Context `{Env}.
Variable fb : nat.

Lemma others_same_refl (w : world) : others_same fb w w.
Proof. intros h' _. reflexivity. Qed.

Lemma others_same_trans (w1 w2 w3 : world) :
  others_same fb w1 w2 -> others_same fb w2 w3 -> others_same fb w1 w3.
Proof. intros H12 H23 h' Hne. rewrite (H23 h' Hne). apply H12, Hne. Qed.

Lemma others_same_read (n : Z) : keeps (others_same fb) (read fb n).
Proof.
  intros w. unfold read. rewrite run_bind. unfold get_object.
  destruct (objects w !! fb) as [f|] eqn:Hobj; [|apply others_same_refl].
  destruct (f_closed f); [apply others_same_refl|].
  destruct (f_kind f); try apply others_same_refl;
    rewrite run_bind; unfold lift at 1;
    (destruct (f_content f) as [c|e]; [|apply others_same_refl]);
    repeat match goal with
           | |- context [if ?b then _ else _] => destruct b
           end;
    try apply others_same_refl;
    rewrite run_bind; unfold set_object at 1; cbn beta iota;
    intros h' Hne; cbn; now rewrite lookup_insert_ne by congruence.
Qed.

Lemma others_same_headDS (ts : string) : keeps (others_same fb) (headDS fb ts).
Proof.
  unfold headDS. apply (keeps_bind _ others_same_trans);
    [apply others_same_read|].
  intros forty. apply (keeps_lift _ others_same_refl).
Qed.

Lemma others_same_recordDS (items : Z) (t : nptype) (skip : bool) :
  keeps (others_same fb) (recordDS fb items t skip).
Proof.
  unfold recordDS. apply (keeps_bind _ others_same_trans).
  - destruct skip; [apply others_same_read
                   | apply (keeps_mret _ others_same_refl)].
  - intros _. apply (keeps_bind _ others_same_trans);
      [apply others_same_read|].
    intros buf. apply (keeps_lift _ others_same_refl).
Qed.

Lemma others_same_ds_loop (ts : string) (cell_id : ndarray)
    (n rgisType : Z) (t : nptype) (NoData : scalar) (d : datetime)
    (Cells day : Z) (w : world) :
  let r := ds_loop fb ts cell_id n rgisType t NoData d Cells day w in
  others_same fb w (snd r) /\ reads_from fb (snd (fst r)).
Proof.
  unfold ds_loop. destruct (day <? n);
    [|split; [apply others_same_refl | exact I]].
  assert (Hk : keeps (others_same fb)
                 (ds_iteration fb ts cell_id rgisType t NoData d Cells day)).
  { unfold ds_iteration. apply (keeps_bind _ others_same_trans).
    - destruct (negb (day =? 0)); [|apply (keeps_mret _ others_same_refl)].
      apply (keeps_bind _ others_same_trans); [apply others_same_headDS|].
      intros [[[[? ?] ?] ?] ?]. apply (keeps_mret _ others_same_refl).
    - intros d'. apply (keeps_bind _ others_same_trans);
        [apply others_same_recordDS|].
      intros Data. apply (keeps_bind _ others_same_trans);
        [apply (keeps_lift _ others_same_refl)|].
      intros g. apply (keeps_mret _ others_same_refl). }
  specialize (Hk w).
  destruct (ds_iteration _ _ _ _ _ _ _ _ _ w) as [[[Data d']|e] w1];
    (split; [exact Hk | cbn; auto]).
Qed.

Lemma others_same_iter_ds_next (g : ds_gen) (w : world) :
  reads_from fb g ->
  others_same fb w (snd (iter_ds_next g w))
  /\ reads_from fb (snd (fst (iter_ds_next g w))).
Proof.
  destruct g as [h mask_id year ts | h ts cell_id n rgisType t NoData d Cells day |];
    cbn [reads_from iter_ds_next]; [intros -> | intros -> | intros _].
  - cbn zeta.
    match goal with
    | |- context [match ?m w with _ => _ end] =>
        assert (Hs : keeps (others_same fb) m);
        [| specialize (Hs w);
           destruct (m w) as [[[n [[[[? ?] ?] ?] ?]]|e] w1] ]
    end.
    + apply (keeps_bind _ others_same_trans);
        [apply (keeps_lift _ others_same_refl)|]. intros n.
      apply (keeps_bind _ others_same_trans); [apply others_same_headDS|].
      intros hd. apply (keeps_mret _ others_same_refl).
    + cbn [snd] in Hs.
      match goal with
      | |- context [ds_loop fb ?ts ?c ?n ?r ?t ?nd ?d ?ce ?day ?w1] =>
          destruct (others_same_ds_loop ts c n r t nd d ce day w1) as [Ho Hr]
      end.
      split; [eapply others_same_trans; eassumption | exact Hr].
    + split; [exact Hs | exact I].
  - apply others_same_ds_loop.
  - split; [apply others_same_refl | exact I].
Qed.

(** X15: [iter_ds] reads from the stream it was given and from no other: every
    other file object is, after any number of items, exactly as it was. *)
Theorem iter_ds_reads_its_stream_only (fuel : nat) :
  forall (g : ds_gen) (w : world),
    reads_from fb g ->
    others_same fb w (snd (drain iter_ds_next fuel g w)).
Proof.
  induction fuel as [|fuel IH]; intros g w Hg; cbn [drain].
  - apply others_same_refl.
  - destruct (others_same_iter_ds_next g w Hg) as [Ho Hr].
    destruct (iter_ds_next g w) as [[[y| |e] g'] w1]; cbn [fst snd] in *;
      try exact Ho.
    specialize (IH g' w1 Hr).
    destruct (drain iter_ds_next fuel g' w1) as [[ys r] w2]. cbn [snd] in *.
    eapply others_same_trans; eassumption.
Qed.
End OwnStream.

Lemma iter_ds_reads_its_stream_only_witness :
  others_same 0 (example_open example_monthly_stream)
    (snd (drain (@iter_ds_next example_env) 5
            (iter_ds 0 example_ID 2001 "monthly")
            (example_open example_monthly_stream))).
Proof.
  apply (@iter_ds_reads_its_stream_only example_env 0 5). reflexivity.
Defined.

(** ** The generator over a converted grid, again *)

Section Wrapper.
Context `{Env}.

Lemma drain_gdbc_suspended (fuel : nat) :
  forall (file_buf : nat) (inner : ds_gen) (w : world),
    drain iter_gdbc_next fuel (GdbcSuspended file_buf inner) w
    = drain iter_ds_next fuel inner w.
Proof.
  induction fuel as [|fuel IH]; intros file_buf inner w; cbn [drain];
    [reflexivity|].
  cbn [iter_gdbc_next]. unfold gdbc_loop.
  destruct (iter_ds_next inner w) as [[[y| |e] inner'] w1]; try reflexivity.
  now rewrite IH.
Qed.

(** X16: [iter_gdbc] adds and drops nothing: once the conversion process is
    started, its items, its end or exception, and its effects are those
    of [iter_ds] over the pipe of the process. *)
Theorem iter_gdbc_is_iter_ds_over_pipe (fuel : nat) (gdbc network : string)
    (mask_id : ndarray) (year : Z) (ts : string) (w w0 : world)
    (file_buf : nat) :
  gdbc_to_ds_buffer gdbc network w = (Ok file_buf, w0) ->
  drain iter_gdbc_next (S fuel) (iter_gdbc gdbc network mask_id year ts) w
  = drain iter_ds_next (S fuel) (iter_ds file_buf mask_id year ts) w0.
Proof.
  intros Hspawn.
  rewrite <- (drain_gdbc_suspended (S fuel) file_buf).
  unfold iter_gdbc. cbn [drain iter_gdbc_next]. now rewrite Hspawn.
Qed.

(** X17: When the process cannot be started, the first [next] raises the
    error of the launch and nothing has been opened. *)
Theorem iter_gdbc_launch_error (fuel : nat) (gdbc network : string)
    (mask_id : ndarray) (year : Z) (ts : string) (w : world) (e : exn) :
  Popen (split_ws ("rgis2ds --template " +:+ network +:+ " " +:+ gdbc))
  = Raise e ->
  drain iter_gdbc_next (S fuel) (iter_gdbc gdbc network mask_id year ts) w
  = ([], Some (Raise e), w).
Proof.
  intros Hpopen. unfold iter_gdbc. cbn [drain iter_gdbc_next].
  unfold gdbc_to_ds_buffer. rewrite run_bind. unfold lift at 1.
  now rewrite Hpopen.
Qed.

(** X18: The pipe is closed on [close] only: when [iter_gdbc] is run to its
    end, or to an exception, the pipe of the process is left open. *)
Theorem iter_gdbc_leaves_pipe_open (fuel : nat) (gdbc network : string)
    (mask_id : ndarray) (year : Z) (ts : string) (w w0 : world)
    (file_buf : nat) :
  gdbc_to_ds_buffer gdbc network w = (Ok file_buf, w0) ->
  is_closed (snd (drain iter_gdbc_next (S fuel)
                    (iter_gdbc gdbc network mask_id year ts) w)) file_buf
  = false.
Proof.
  intros Hspawn.
  replace (drain iter_gdbc_next (S fuel)
             (iter_gdbc gdbc network mask_id year ts) w)
    with (drain iter_ds_next (S fuel) (iter_ds file_buf mask_id year ts) w0).
  2:{ rewrite <- (drain_gdbc_suspended (S fuel) file_buf).
      unfold iter_gdbc. cbn [drain iter_gdbc_next]. now rewrite Hspawn. }
  destruct (gdbc_to_ds_buffer_object _ _ _ _ _ Hspawn) as (f0 & Hf0 & Hopen).
  pose proof (drain_keeps iter_ds_next objects_stay objects_stay_refl
                objects_stay_trans
                (iter_ds_next_keeps objects_stay objects_stay_refl
                   objects_stay_trans objects_stay_set_content)
                (S fuel) (iter_ds file_buf mask_id year ts) w0) as Hstay.
  destruct (Hstay file_buf f0 Hf0) as (f1 & Hf1 & Hc1).
  unfold is_closed. rewrite Hf1. congruence.
Qed.
End Wrapper.

Lemma iter_gdbc_is_iter_ds_over_pipe_witness :
  drain (@iter_gdbc_next example_env) 13
        (iter_gdbc "/data/q_2001.gdbc" "/data/net.gdbn" example_ID 2001
                   "monthly") example_world
  = drain (@iter_ds_next example_env) 13
          (iter_ds 0 example_ID 2001 "monthly")
          (snd (@gdbc_to_ds_buffer example_env "/data/q_2001.gdbc"
                  "/data/net.gdbn" example_world)).
Proof.
  apply (@iter_gdbc_is_iter_ds_over_pipe example_env 12).
  vm_compute. reflexivity.
Defined.

Lemma iter_gdbc_launch_error_witness :
  drain (@iter_gdbc_next example_env) 1
        (iter_gdbc "" "/data/net.gdbn" example_ID 2001 "monthly")
        example_world
  = ([], Some (Raise (FileNotFoundError "rgis2ds")), example_world).
Proof.
  apply (@iter_gdbc_launch_error example_env 0). reflexivity.
Defined.

Lemma iter_gdbc_leaves_pipe_open_witness :
  is_closed (snd (drain (@iter_gdbc_next example_env) 13
                    (iter_gdbc "/data/q_2001.gdbc" "/data/net.gdbn"
                               example_ID 2001 "monthly") example_world))
            0
  = false.
Proof.
  apply (@iter_gdbc_leaves_pipe_open example_env 12 _ _ _ _ _ example_world
           (snd (@gdbc_to_ds_buffer example_env "/data/q_2001.gdbc"
                   "/data/net.gdbn" example_world))).
  vm_compute. reflexivity.
Defined.

(** ** The command of the conversion *)

Lemma str_append_assoc (a b c : string) : (a +:+ b) +:+ c = a +:+ (b +:+ c).
Proof.
  induction a as [|x a IH]; [reflexivity|].
  change (String x ((a +:+ b) +:+ c) = String x (a +:+ (b +:+ c))).
  now rewrite IH.
Qed.

Lemma str_append_nil_r (a : string) : a +:+ "" = a.
Proof.
  induction a as [|x a IH]; [reflexivity|].
  change (String x (a +:+ "") = String x a). now rewrite IH.
Qed.

Lemma plain_char_is_no_blank (c : ascii) :
  plain_char c = true -> is_space c = false.
Proof.
  unfold plain_char, is_space. cbn zeta. intros Hc.
  apply andb_true_iff in Hc as [Hlo Hhi].
  apply Nat.leb_le in Hlo, Hhi.
  replace (nat_of_ascii c =? 32)%nat with false
    by (symmetry; apply Nat.eqb_neq; lia).
  replace (nat_of_ascii c <=? 13)%nat with false
    by (symmetry; apply Nat.leb_gt; lia).
  replace (nat_of_ascii c <=? 31)%nat with false
    by (symmetry; apply Nat.leb_gt; lia).
  replace (nat_of_ascii c =? 133)%nat with false
    by (symmetry; apply Nat.eqb_neq; lia).
  replace (nat_of_ascii c =? 160)%nat with false
    by (symmetry; apply Nat.eqb_neq; lia).
  now rewrite !andb_false_r.
Qed.

Lemma split_ws_aux_word (a : string) :
  plain_word a = true ->
  forall (t word : string),
    split_ws_aux (a +:+ t) word = split_ws_aux t (word +:+ a).
Proof.
  induction a as [|c a IH]; intros Hns t word.
  - change ("" +:+ t) with t. now rewrite str_append_nil_r.
  - cbn [plain_word] in Hns. apply andb_true_iff in Hns as [Hc Hns].
    apply plain_char_is_no_blank in Hc.
    change (String c a +:+ t) with (String c (a +:+ t)).
    cbn [split_ws_aux]. rewrite Hc.
    rewrite (IH Hns), str_append_assoc. reflexivity.
Qed.

Lemma split_ws_aux_blank (t word : string) :
  split_ws_aux (String " " t) word
  = if String.eqb word "" then split_ws_aux t ""
    else word :: split_ws_aux t "".
Proof. reflexivity. Qed.

Section Command.
Context `{Env}.

(** X19: The command is cut at white space: for paths of printable
    characters without a blank, neither of them empty, its words are the
    program, the option, the network and the grid. *)
Theorem gdbc_to_ds_buffer_command (gdbc network : string) (w : world) :
  plain_word network = true -> plain_word gdbc = true ->
  network <> "" -> gdbc <> "" ->
  gdbc_to_ds_buffer gdbc network w
  = (out ← lift (Popen ["rgis2ds"; "--template"; network; gdbc]);
     new_pipe out) w.
Proof.
  intros Hn Hg Hne Hge. unfold gdbc_to_ds_buffer.
  replace (split_ws ("rgis2ds --template " +:+ network +:+ " " +:+ gdbc))
    with ["rgis2ds"; "--template"; network; gdbc]; [reflexivity|].
  unfold split_ws.
  change ("rgis2ds --template " +:+ network +:+ " " +:+ gdbc)
    with ("rgis2ds" +:+ String " " ("--template"
            +:+ String " " (network +:+ String " " gdbc))).
  apply String.eqb_neq in Hne, Hge.
  rewrite (split_ws_aux_word "rgis2ds" eq_refl), split_ws_aux_blank.
  change (("" +:+ "rgis2ds" =? "")%string) with false. cbv iota.
  rewrite (split_ws_aux_word "--template" eq_refl), split_ws_aux_blank.
  change (("" +:+ "--template" =? "")%string) with false. cbv iota.
  rewrite (split_ws_aux_word network Hn), split_ws_aux_blank.
  change ("" +:+ network) with network. rewrite Hne.
  replace (split_ws_aux gdbc "") with (split_ws_aux (gdbc +:+ "") "")
    by now rewrite str_append_nil_r.
  rewrite (split_ws_aux_word gdbc Hg).
  change ("" +:+ gdbc) with gdbc. cbn [split_ws_aux]. now rewrite Hge.
Qed.
End Command.

Lemma gdbc_to_ds_buffer_command_witness :
  @gdbc_to_ds_buffer example_env "/data/q_2001.gdbc" "/data/net.gdbn"
                     example_world
  = (out ← lift (@Popen example_env
                   ["rgis2ds"; "--template"; "/data/net.gdbn";
                    "/data/q_2001.gdbc"]);
     new_pipe out) example_world.
Proof.
  apply (@gdbc_to_ds_buffer_command example_env); try reflexivity;
    discriminate.
Defined.

(** A path with a blank in it is cut in two: the process gets five
    arguments. *)
Example command_with_blank :
  split_ws ("rgis2ds --template " +:+ "/data/net.gdbn" +:+ " "
            +:+ "/my data/q.gdbc")
  = ["rgis2ds"; "--template"; "/data/net.gdbn"; "/my"; "data/q.gdbc"].
Proof. reflexivity. Qed.

(** ** get_true_datastream on a file object *)

Section FileObjects.
Context `{Env}.

(** X20: A file object is handed back as it is, and nothing is opened or
    closed, when its name is a file descriptor (a pipe), when it is the
    standard input without a [buffer], or when its name has one of the
    plain extensions. *)
Theorem get_true_datastream_object_as_is (h : nat) (f : fileobj) (w : world) :
  objects w !! h = Some f ->
  match f_name f with
  | NameInt _ => True
  | NameStr s =>
      (s = "<stdin>" /\ f_buffer f = None)
      \/ (s <> "<stdin>" /\ _is_compressed (path_name s) = Ok false)
  end ->
  get_true_datastream (FileObj h) w = (Ok h, w).
Proof.
  intros Hf Hname. cbn [get_true_datastream].
  rewrite run_bind. unfold get_object at 1. rewrite Hf. cbn beta iota.
  destruct (f_name f) as [s|n]; cbn [name_is_stdin negb]; [|reflexivity].
  destruct Hname as [[-> Hbuf]|[Hs Hc]].
  - cbn. now rewrite Hbuf.
  - apply String.eqb_neq in Hs. rewrite Hs. cbn [negb].
    rewrite run_bind. unfold lift at 1. now rewrite Hc.
Qed.

(** X21: The text layer of the standard input is replaced by its binary
    [buffer]. *)
Theorem get_true_datastream_stdin_buffer (h b : nat) (f : fileobj)
    (w : world) :
  objects w !! h = Some f ->
  f_name f = NameStr "<stdin>" ->
  f_buffer f = Some b ->
  get_true_datastream (FileObj h) w = (Ok b, w).
Proof.
  intros Hf Hname Hbuf. cbn [get_true_datastream].
  rewrite run_bind. unfold get_object at 1. rewrite Hf. cbn beta iota.
  rewrite Hname. cbn. now rewrite Hbuf.
Qed.

(** X22: A file object with a compressed extension is opened again through
    gzip, by the last component of its name only: the new object is
    another one, it reads the file of that base name, and the object
    that was given is closed. *)
Theorem get_true_datastream_object_reopened (h : nat) (f : fileobj)
    (s : string) (bs : bytes) (w : world) :
  objects w !! h = Some f ->
  f_name f = NameStr s ->
  s <> "<stdin>" ->
  _is_compressed (path_name s) = Ok true ->
  files w !! path_name s = Some bs ->
  exists (h' : nat) (w' : world) (f' : fileobj),
    get_true_datastream (FileObj h) w = (Ok h', w')
    /\ h' <> h
    /\ objects w !! h' = None
    /\ objects w' !! h' = Some f'
    /\ f_kind f' = GzipFile
    /\ f_name f' = NameStr (path_name s)
    /\ f_closed f' = false
    /\ objects w' !! h = Some (set_closed f)
    /\ only_objects_change w w'.
Proof.
  intros Hf Hname Hs Hc Hfile. cbn [get_true_datastream].
  rewrite run_bind. unfold get_object at 1. rewrite Hf. cbn beta iota.
  rewrite Hname. cbn [name_is_stdin]. apply String.eqb_neq in Hs.
  rewrite Hs. cbn [negb].
  rewrite run_bind. unfold lift at 1. rewrite Hc. cbn beta iota.
  rewrite run_bind. unfold gzip_open at 1. rewrite Hfile.
  unfold new_object. cbn beta iota zeta.
  set (h' := fresh (dom (objects w))).
  assert (Hfresh : objects w !! h' = None).
  { apply not_elem_of_dom. apply is_fresh. }
  assert (Hne : h' <> h) by (intros ->; congruence).
  rewrite run_bind. unfold close at 1. cbn [objects set_objects].
  rewrite lookup_insert_ne by exact Hne. rewrite Hf. cbn beta iota.
  eexists h', _, _. split; [reflexivity|].
  split; [exact Hne|]. split; [exact Hfresh|].
  cbn [objects set_objects].
  rewrite lookup_insert_ne by congruence. rewrite lookup_insert_eq.
  split; [reflexivity|]. split; [reflexivity|]. split; [reflexivity|].
  split; [reflexivity|]. rewrite lookup_insert_eq.
  split; [reflexivity|]. repeat split.
Qed.

(** X23: When no file of that base name is there (the directory of the name
    is dropped) the call raises and the object that was given stays
    open. *)
Theorem get_true_datastream_object_base_name (h : nat) (f : fileobj)
    (s : string) (w : world) :
  objects w !! h = Some f ->
  f_name f = NameStr s ->
  s <> "<stdin>" ->
  _is_compressed (path_name s) = Ok true ->
  files w !! path_name s = None ->
  get_true_datastream (FileObj h) w
  = (Raise (FileNotFoundError (path_name s)), w).
Proof.
  intros Hf Hname Hs Hc Hfile. cbn [get_true_datastream].
  rewrite run_bind. unfold get_object at 1. rewrite Hf. cbn beta iota.
  rewrite Hname. cbn [name_is_stdin]. apply String.eqb_neq in Hs.
  rewrite Hs. cbn [negb].
  rewrite run_bind. unfold lift at 1. rewrite Hc. cbn beta iota.
  rewrite run_bind. unfold gzip_open at 1. now rewrite Hfile.
Qed.
End FileObjects.

Lemma get_true_datastream_object_as_is_witness :
  @get_true_datastream example_env (FileObj 0)
    (example_held (NameStr "/data/q_2000.gds") None ∅)
  = (Ok 0%nat, example_held (NameStr "/data/q_2000.gds") None ∅).
Proof.
  apply (@get_true_datastream_object_as_is example_env 0
           (example_object (NameStr "/data/q_2000.gds") None)).
  - reflexivity.
  - right. split; [discriminate | reflexivity].
Defined.

Lemma get_true_datastream_stdin_buffer_witness :
  @get_true_datastream example_env (FileObj 0)
    (example_held (NameStr "<stdin>") (Some 1%nat) ∅)
  = (Ok 1%nat, example_held (NameStr "<stdin>") (Some 1%nat) ∅).
Proof.
  apply (@get_true_datastream_stdin_buffer example_env 0 1
           (example_object (NameStr "<stdin>") (Some 1%nat)));
    reflexivity.
Defined.

Lemma get_true_datastream_object_reopened_witness :
  let w := example_held (NameStr "/data/q_2000.ds.gz") None
             {[ "q_2000.ds.gz" := example_double_stream ]} in
  exists (h' : nat) (w' : world) (f' : fileobj),
    @get_true_datastream example_env (FileObj 0) w = (Ok h', w')
    /\ h' <> 0%nat
    /\ objects w !! h' = None
    /\ objects w' !! h' = Some f'
    /\ f_kind f' = GzipFile
    /\ f_name f' = NameStr (path_name "/data/q_2000.ds.gz")
    /\ f_closed f' = false
    /\ objects w' !! 0%nat
       = Some (set_closed (example_object (NameStr "/data/q_2000.ds.gz")
                             None))
    /\ only_objects_change w w'.
Proof.
  apply (@get_true_datastream_object_reopened example_env 0
           (example_object (NameStr "/data/q_2000.ds.gz") None)
           "/data/q_2000.ds.gz" example_double_stream);
    try reflexivity.
  discriminate.
Defined.

Lemma get_true_datastream_object_base_name_witness :
  let w := example_held (NameStr "/data/q_2000.ds.gz") None
             (files example_world) in
  files w !! "/data/q_2000.ds.gz" = Some example_double_stream
  /\ @get_true_datastream example_env (FileObj 0) w
     = (Raise (FileNotFoundError "q_2000.ds.gz"), w).
Proof.
  split; [vm_compute; reflexivity|].
  apply (@get_true_datastream_object_base_name example_env 0
           (example_object (NameStr "/data/q_2000.ds.gz") None)
           "/data/q_2000.ds.gz");
    try reflexivity.
  discriminate.
Defined.

(** ** sample_gdbc *)

Section SampleGrid.
Context `{Env}.

Lemma pipe_name (gdbc network : string) (w w0 : world) (file_buf : nat) :
  gdbc_to_ds_buffer gdbc network w = (Ok file_buf, w0) ->
  exists f n, objects w0 !! file_buf = Some f /\ f_name f = NameInt n.
Proof.
  unfold gdbc_to_ds_buffer. rewrite run_bind. unfold lift at 1.
  destruct (Popen _) as [out|e]; [|discriminate].
  unfold new_pipe, new_object. intros [= <- <-].
  eexists _, _. cbn. rewrite lookup_insert_eq. split; reflexivity.
Qed.

(** The check of the network comes first: when the part of its file name
    after the first dot does not hold the text gdbn, the call fails
    before any process is started and nothing has changed. *)
Lemma sample_gdbc_network_check (mask_nc file_path network : string)
    (mask_layers : list string) (output_dir : string) (year : Z)
    (variable time_step : string) (w : world) :
  str_contains "gdbn" (last_item (split_dot_once (path_name network)))
  = false ->
  sample_gdbc mask_nc file_path network mask_layers output_dir year
              variable time_step w
  = (Raise (AssertionError "Network must be gdbn"), w).
Proof. intros Hname. unfold sample_gdbc. now rewrite Hname. Qed.

(** X24: With a network that passes the check, [sample_gdbc] is [sample_ds] on
    the pipe of the conversion process, and [sample_ds] reads from that
    very pipe: [get_true_datastream] hands it back as it is. *)
Theorem sample_gdbc_is_sample_ds_over_pipe
    (mask_nc file_path network : string) (mask_layers : list string)
    (output_dir : string) (year : Z) (variable time_step : string)
    (w w0 : world) (file_buf : nat) :
  str_contains "gdbn" (last_item (split_dot_once (path_name network)))
  = true ->
  gdbc_to_ds_buffer file_path network w = (Ok file_buf, w0) ->
  get_true_datastream (FileObj file_buf) w0 = (Ok file_buf, w0)
  /\ sample_gdbc mask_nc file_path network mask_layers output_dir year
                 variable time_step w
     = sample_ds mask_nc (FileObj file_buf) mask_layers output_dir year
                 variable time_step w0.
Proof.
  intros Hname Hspawn. split.
  - destruct (pipe_name _ _ _ _ _ Hspawn) as (f & n & Hf & Hn).
    cbn [get_true_datastream]. rewrite run_bind. unfold get_object at 1.
    rewrite Hf. cbn beta iota. now rewrite Hn.
  - unfold sample_gdbc. rewrite Hname. cbn [negb].
    rewrite run_bind. now rewrite Hspawn.
Qed.
End SampleGrid.

Lemma sample_gdbc_is_sample_ds_over_pipe_witness :
  let w0 := snd (@gdbc_to_ds_buffer example_env "/data/q_2001.gdbc"
                   "/data/net.gdbn" example_world) in
  @get_true_datastream example_env (FileObj 0) w0 = (Ok 0%nat, w0)
  /\ @sample_gdbc example_env "/data/masks.nc" "/data/q_2001.gdbc"
       "/data/net.gdbn" ["Gauges"] "/out" 2001 "Discharge" "monthly"
       example_world
     = @sample_ds example_env "/data/masks.nc" (FileObj 0) ["Gauges"]
         "/out" 2001 "Discharge" "monthly" w0.
Proof.
  apply (@sample_gdbc_is_sample_ds_over_pipe example_env).
  - reflexivity.
  - vm_compute. reflexivity.
Defined.

(** The check looks for the text anywhere after the first dot: a network
    named [net.gdbn.bak] passes, and so does one without a dot whose
    name holds the text. *)
Example network_check_is_a_substring_test :
  map (fun network =>
         str_contains "gdbn" (last_item (split_dot_once (path_name network))))
      ["/data/net.gdbn"; "/data/net.gdbn.bak"; "/data/gdbn_net";
       "/data/net.gdb"; "/data.gdbn/net.txt"]
  = [true; true; true; false; false].
Proof. reflexivity. Qed.

(** ** get_masks over layers of a known type *)

Section Masks.
Context `{Env}.

Lemma get_masks_loop_known_step (mask_ds : gmap string layer) (out : string)
    (year : Z) (ts m : string) (rest : list string) (var : layer)
    (t : string) (dfOut : option nat) (acc : list mask_entry) (w : world) :
  mask_ds !! m = Some var ->
  l_attrs var !! "Type" = Some t ->
  t = "Polygon" \/ t = "Point" ->
  get_masks_loop mask_ds (m :: rest) out year ts dfOut acc w
  = let r := fresh (dom (frames w)) in
    let MaskValues := list_set (non_nan_ints (data (flatten (l_data var)))) in
    get_masks_loop mask_ds rest out year ts (Some r)
      (acc ++ [{| me_name := m; me_Mask := l_data var; me_MaskType := t;
                  me_MaskValues := MaskValues;
                  me_OutputPath := joinpath out m (capitalize ts);
                  me_dfOut := r |}])
      (set_frames
         (<[r := empty_table MaskValues (date_cols year ts)]> (frames w))
         (set_dirs ({[ joinpath out m (capitalize ts) ]} ∪ dirs w) w)).
Proof.
  intros Hvar Ht Hknown.
  cbn [get_masks_loop]. unfold getitem. rewrite Hvar.
  rewrite run_bind. unfold lift at 1. cbn beta iota. rewrite Ht.
  mrun.
  destruct Hknown as [-> | ->]; cbn [String.eqb Ascii.eqb Bool.eqb];
    mrun; reflexivity.
Qed.

Lemma get_masks_loop_known (mask_ds : gmap string layer) (out : string)
    (year : Z) (ts : string) (pre : list string) :
  Forall (known_layer mask_ds) pre ->
  forall (rest : list string) (dfOut : option nat) (acc : list mask_entry)
         (w : world),
  exists (masks : list mask_entry) (w' : world) (dfOut' : option nat),
    get_masks_loop mask_ds (pre ++ rest) out year ts dfOut acc w
    = get_masks_loop mask_ds rest out year ts dfOut' (acc ++ masks) w'
    /\ map me_name masks = pre
    /\ Forall (entry_of_layer mask_ds out ts) masks
    /\ NoDup (map me_dfOut masks)
    /\ Forall (new_table year ts w w') masks
    /\ Forall (fun me => me_OutputPath me ∈ dirs w') masks
    /\ (forall r, is_Some (frames w !! r) -> frames w' !! r = frames w !! r)
    /\ dirs w ⊆ dirs w'
    /\ objects w' = objects w /\ files w' = files w
    /\ csv_files w' = csv_files w.
Proof.
  induction 1 as [|m pre (var & t & Hvar & Ht & Hknown) _ IH];
    intros rest dfOut acc w.
  - exists [], w, dfOut. rewrite app_nil_r. cbn [app map].
    repeat split; try constructor; auto.
  - cbn [app].
    rewrite (get_masks_loop_known_step mask_ds out year ts m (pre ++ rest)
               var t dfOut acc w Hvar Ht Hknown).
    cbn zeta.
    set (r := fresh (dom (frames w))).
    set (vals := list_set (non_nan_ints (data (flatten (l_data var))))).
    set (entry := {| me_name := m; me_Mask := l_data var; me_MaskType := t;
                     me_MaskValues := vals;
                     me_OutputPath := joinpath out m (capitalize ts);
                     me_dfOut := r |}).
    set (w2 := set_frames _ _).
    assert (Hfresh : frames w !! r = None).
    { apply not_elem_of_dom. apply is_fresh. }
    assert (Hr2 : frames w2 !! r
                  = Some (empty_table vals (date_cols year ts))).
    { unfold w2. cbn. apply lookup_insert_eq. }
    destruct (IH rest (Some r) (acc ++ [entry]) w2)
      as (masks & w' & dfOut' & Hrun & Hnames & Hentries & Hnodup & Hnew
          & Hdirs & Hold & Hsub & Hobj & Hfiles & Hcsv).
    exists (entry :: masks), w', dfOut'.
    split; [rewrite Hrun, <- app_assoc; reflexivity|].
    split; [cbn; now rewrite Hnames|].
    split.
    { constructor; [|exact Hentries]. exists var. repeat split; assumption. }
    split.
    { cbn [map]. constructor; [|exact Hnodup].
      intros Hin. apply list_elem_of_In in Hin. apply in_map_iff in Hin
        as (me & Hme & Hin).
      rewrite List.Forall_forall in Hnew.
      destruct (Hnew me Hin) as [Hnone _].
      rewrite Hme in Hnone. change (me_dfOut entry) with r in Hnone.
      congruence. }
    split.
    { constructor.
      - split; [exact Hfresh|]. cbn [me_dfOut me_MaskValues entry].
        rewrite (Hold r) by (rewrite Hr2; eauto). exact Hr2.
      - rewrite List.Forall_forall in Hnew |- *. intros me Hin.
        destruct (Hnew me Hin) as [Hnone Hsome]. split; [|exact Hsome].
        unfold w2 in Hnone. cbn in Hnone.
        apply lookup_insert_None in Hnone. tauto. }
    split.
    { constructor; [|exact Hdirs]. cbn [me_OutputPath entry].
      apply Hsub. unfold w2. cbn. apply elem_of_union_l.
      now apply elem_of_singleton. }
    split.
    { intros r0 Hsome.
      assert (Hne : r <> r0) by (intros <-; rewrite Hfresh in Hsome;
                                  now destruct Hsome).
      assert (H2 : frames w2 !! r0 = frames w !! r0).
      { unfold w2. cbn. now apply lookup_insert_ne. }
      rewrite <- H2. apply Hold. now rewrite H2. }
    split.
    { etrans; [|exact Hsub]. unfold w2. cbn. apply union_subseteq_r. }
    rewrite Hobj, Hfiles, Hcsv. repeat split.
Qed.

(** X25: Over layers that are all of type Polygon or Point [get_masks] ends
    well with one element for each layer, in the order asked for; each
    holds the array, the type and the identifiers of its layer, and the
    directory of the layer and the capitalized time step under the
    output directory, which has been made.  No file is written, opened
    or closed. *)
Theorem get_masks_entries (mask_ds : gmap string layer) (out : string)
    (year : Z) (ts : string) (layers : list string) (w : world) :
  Forall (known_layer mask_ds) layers ->
  exists (masks : list mask_entry) (w' : world),
    get_masks mask_ds layers out year ts w = (Ok masks, w')
    /\ map me_name masks = layers
    /\ Forall (entry_of_layer mask_ds out ts) masks
    /\ Forall (fun me => me_OutputPath me ∈ dirs w') masks
    /\ objects w' = objects w /\ files w' = files w
    /\ csv_files w' = csv_files w.
Proof.
  intros Hknown. unfold get_masks.
  destruct (get_masks_loop_known mask_ds out year ts layers Hknown [] None
              [] w)
    as (masks & w' & dfOut' & Hrun & Hnames & Hentries & _ & _
        & Hdirs & _ & _ & Hobj & Hfiles & Hcsv).
  rewrite app_nil_r in Hrun. exists masks, w'. rewrite Hrun.
  repeat split; assumption.
Qed.

(** X26: Every layer of such a list gets a table of its own: the tables are
    new objects, no two elements share one, each has a row for every
    identifier of its layer and a column for every date of the year at
    the time step, without a value, and the tables that were there
    before are as they were. *)
Theorem get_masks_tables (mask_ds : gmap string layer) (out : string)
    (year : Z) (ts : string) (layers : list string) (w : world) :
  Forall (known_layer mask_ds) layers ->
  exists (masks : list mask_entry) (w' : world),
    get_masks mask_ds layers out year ts w = (Ok masks, w')
    /\ NoDup (map me_dfOut masks)
    /\ Forall (new_table year ts w w') masks
    /\ (forall r, is_Some (frames w !! r) -> frames w' !! r = frames w !! r).
Proof.
  intros Hknown. unfold get_masks.
  destruct (get_masks_loop_known mask_ds out year ts layers Hknown [] None
              [] w)
    as (masks & w' & dfOut' & Hrun & _ & _ & Hnodup & Hnew & _ & Hold & _).
  rewrite app_nil_r in Hrun. exists masks, w'. rewrite Hrun.
  repeat split; assumption.
Qed.

(** X27: A layer that is not in the dataset ends [get_masks] with the
    [KeyError] of its name; the directories of the layers before it have
    been made by then and stay, and no table was written. *)
Theorem get_masks_missing_layer (mask_ds : gmap string layer) (out : string)
    (year : Z) (ts m : string) (pre rest : list string) (w : world) :
  Forall (known_layer mask_ds) pre ->
  mask_ds !! m = None ->
  exists (w' : world),
    get_masks mask_ds (pre ++ m :: rest) out year ts w
    = (Raise (KeyError m), w')
    /\ (forall p, In p pre -> joinpath out p (capitalize ts) ∈ dirs w')
    /\ csv_files w' = csv_files w.
Proof.
  intros Hknown Hm. unfold get_masks.
  destruct (get_masks_loop_known mask_ds out year ts pre Hknown (m :: rest)
              None [] w)
    as (masks & w' & dfOut' & Hrun & Hnames & Hentries & _ & _
        & Hdirs & _ & _ & _ & _ & Hcsv).
  exists w'. rewrite Hrun. split; [|split; [|exact Hcsv]].
  - cbn [get_masks_loop]. unfold getitem. rewrite Hm.
    rewrite run_bind. reflexivity.
  - intros p Hp. rewrite <- Hnames in Hp. apply in_map_iff in Hp
      as (me & <- & Hin).
    rewrite List.Forall_forall in Hdirs, Hentries.
    destruct (Hentries me Hin) as (var & _ & _ & _ & _ & Hpath).
    rewrite <- Hpath. now apply Hdirs.
Qed.
End Masks.

Lemma example_known_layers :
  Forall (known_layer example_masks) ["Gauges"; "Basins"].
Proof.
  repeat constructor.
  - eexists _, "Point". split; [reflexivity|]. split; [reflexivity|].
    now right.
  - eexists _, "Polygon". split; [reflexivity|]. split; [reflexivity|].
    now left.
Qed.

Lemma get_masks_entries_witness :
  exists (masks : list mask_entry) (w' : world),
    @get_masks example_env example_masks ["Gauges"; "Basins"] "/out" 2001
      "monthly" example_world = (Ok masks, w')
    /\ map me_name masks = ["Gauges"; "Basins"]
    /\ Forall (@entry_of_layer example_env example_masks "/out" "monthly")
              masks
    /\ Forall (fun me => me_OutputPath me ∈ dirs w') masks
    /\ objects w' = objects example_world /\ files w' = files example_world
    /\ csv_files w' = csv_files example_world.
Proof.
  apply (@get_masks_entries example_env). exact example_known_layers.
Defined.

Lemma get_masks_tables_witness :
  exists (masks : list mask_entry) (w' : world),
    @get_masks example_env example_masks ["Gauges"; "Basins"] "/out" 2001
      "monthly" example_world = (Ok masks, w')
    /\ NoDup (map me_dfOut masks)
    /\ Forall (@new_table example_env 2001 "monthly" example_world w') masks
    /\ (forall r, is_Some (frames example_world !! r) ->
                  frames w' !! r = frames example_world !! r).
Proof.
  apply (@get_masks_tables example_env). exact example_known_layers.
Defined.

Lemma get_masks_missing_layer_witness :
  exists (w' : world),
    @get_masks example_env example_masks (["Gauges"; "Basins"] ++ ["Lakes"])
      "/out" 2001 "monthly" example_world
    = (Raise (KeyError "Lakes"), w')
    /\ (forall p, In p ["Gauges"; "Basins"] ->
                  joinpath "/out" p (capitalize "monthly") ∈ dirs w')
    /\ csv_files w' = csv_files example_world.
Proof.
  apply (@get_masks_missing_layer example_env).
  - exact example_known_layers.
  - reflexivity.
Defined.

(** ** The tables are written *)

Lemma write_tables_run (variable : string) (year : Z)
    (masks : list mask_entry) :
  forall (w : world),
    Forall (fun me => is_Some (frames w !! me_dfOut me)) masks ->
    exists (w' : world),
      write_tables masks variable year w = (Ok tt, w')
      /\ objects w' = objects w /\ files w' = files w
      /\ frames w' = frames w /\ dirs w' = dirs w
      /\ (forall p, ~ In p (map (fun me => csv_path me variable year) masks) ->
                    csv_files w' !! p = csv_files w !! p)
      /\ Forall (fun me =>
                   exists me', In me' masks
                     /\ csv_path me' variable year = csv_path me variable year
                     /\ csv_files w' !! csv_path me variable year
                        = frames w !! me_dfOut me') masks.
Proof.
  unfold write_tables.
  induction masks as [|me masks IH]; intros w Hall.
  - exists w. cbn. repeat split; auto.
  - apply Forall_cons in Hall as [[df Hdf] Hall].
    cbn [for_masks]. rewrite run_bind. unfold to_csv at 1. rewrite Hdf.
    cbn beta iota.
    change (me_OutputPath me +:+ "/" +:+ variable +:+ "_"
            +:+ str_of_int year +:+ ".csv")
      with (csv_path me variable year).
    set (w1 := set_csv_files _ w).
    destruct (IH w1 Hall)
      as (w' & Hrun & Hobj & Hfiles & Hframes & Hdirs & Hother & Heach).
    exists w'. split; [exact Hrun|].
    split; [exact Hobj|]. split; [exact Hfiles|].
    split; [exact Hframes|]. split; [exact Hdirs|].
    split.
    { intros p Hp. cbn [map] in Hp.
      rewrite Hother by (intros Hin; apply Hp; now right).
      unfold w1. cbn. apply lookup_insert_ne. intros Heq. apply Hp.
      now left. }
    constructor.
    + destruct (in_dec string_dec (csv_path me variable year)
                  (map (fun me => csv_path me variable year) masks))
        as [Hin|Hnin].
      * apply in_map_iff in Hin as (me2 & Hpath & Hin2).
        rewrite List.Forall_forall in Heach.
        destruct (Heach me2 Hin2) as (me' & Hin' & Hpath' & Hlook).
        exists me'. split; [now right|]. split; [congruence|].
        rewrite <- Hpath. exact Hlook.
      * exists me. split; [now left|]. split; [reflexivity|].
        rewrite (Hother _ Hnin). unfold w1. cbn.
        rewrite lookup_insert_eq. now rewrite Hdf.
    + rewrite List.Forall_forall in Heach |- *. intros me2 Hin2.
      destruct (Heach me2 Hin2) as (me' & Hin' & Hpath' & Hlook).
      exists me'. split; [now right|]. split; [exact Hpath'|exact Hlook].
Qed.

Lemma find_over_app {A} (f : A -> bool) (l1 l2 : list A) :
  List.find f (l1 ++ l2)
  = match List.find f l1 with
    | Some x => Some x
    | None => List.find f l2
    end.
Proof.
  induction l1 as [|x l1 IH]; cbn; [reflexivity|].
  destruct (f x); [reflexivity | exact IH].
Qed.

(** X28: When the table of every mask is there, the second loop of
    [sample_ds] ends well and changes nothing but the written tables:
    a path holds the table of the last mask of the list that has this
    path (so when several masks share a path, the table of the later
    one replaces that of the earlier), and a path of no mask is as it
    was. *)
Theorem write_tables_writes_each (variable : string) (year : Z)
    (masks : list mask_entry) (w : world) :
  Forall (fun me => is_Some (frames w !! me_dfOut me)) masks ->
  exists (w' : world),
    write_tables masks variable year w = (Ok tt, w')
    /\ objects w' = objects w /\ files w' = files w
    /\ frames w' = frames w /\ dirs w' = dirs w
    /\ (forall p,
          csv_files w' !! p
          = match last_at_path masks variable year p with
            | Some me => frames w !! me_dfOut me
            | None => csv_files w !! p
            end).
Proof.
  unfold write_tables. revert w.
  induction masks as [|me masks IH]; intros w Hall.
  - exists w. cbn. repeat split; auto.
  - apply Forall_cons in Hall as [[df Hdf] Hall].
    cbn [for_masks]. rewrite run_bind. unfold to_csv at 1. rewrite Hdf.
    cbn beta iota.
    change (me_OutputPath me +:+ "/" +:+ variable +:+ "_"
            +:+ str_of_int year +:+ ".csv")
      with (csv_path me variable year).
    set (w1 := set_csv_files _ w).
    destruct (IH w1 Hall)
      as (w' & Hrun & Hobj & Hfiles & Hframes & Hdirs & Hpaths).
    exists w'. split; [exact Hrun|].
    split; [exact Hobj|]. split; [exact Hfiles|].
    split; [exact Hframes|]. split; [exact Hdirs|].
    intros p. rewrite Hpaths. unfold last_at_path. cbn [rev].
    rewrite find_over_app.
    destruct (List.find _ (rev masks)) as [me'|]; [reflexivity|].
    cbn [List.find].
    destruct (String.eqb_spec (csv_path me variable year) p) as [<-|Hne].
    + unfold w1. cbn. now rewrite lookup_insert_eq, Hdf.
    + unfold w1. cbn. now apply lookup_insert_ne.
Qed.

Lemma write_tables_writes_each_witness :
  let entry r := {| me_name := "Gauges"; me_Mask := example_ID;
                    me_MaskType := "Point"; me_MaskValues := [1; 2];
                    me_OutputPath := "/out/Gauges/Annual"; me_dfOut := r |} in
  let masks := [entry 0%nat; entry 1%nat] in
  let w := set_frames {[ 0%nat := empty_table [1; 2] [];
                         1%nat := empty_table [3] [] ]} example_world in
  exists (w' : world),
    write_tables masks "Discharge" 2000 w = (Ok tt, w')
    /\ objects w' = objects w /\ files w' = files w
    /\ frames w' = frames w /\ dirs w' = dirs w
    /\ (forall p,
          csv_files w' !! p
          = match last_at_path masks "Discharge" 2000 p with
            | Some me => frames w !! me_dfOut me
            | None => csv_files w !! p
            end).
Proof.
  apply write_tables_writes_each.
  repeat constructor; cbn; eexists; reflexivity.
Defined.

(** Two masks with one path: the table of the second is the one on
    disk. *)
Example write_tables_last_wins :
  let entry r := {| me_name := "Gauges"; me_Mask := example_ID;
                    me_MaskType := "Point"; me_MaskValues := [1; 2];
                    me_OutputPath := "/out/Gauges/Annual"; me_dfOut := r |} in
  let w := set_frames {[ 0%nat := empty_table [1; 2] [];
                         1%nat := empty_table [3] [] ]} example_world in
  csv_files (snd (write_tables [entry 0%nat; entry 1%nat] "Discharge" 2000 w))
    !! "/out/Gauges/Annual/Discharge_2000.csv"
  = Some (empty_table [3] []).
Proof. vm_compute. reflexivity. Qed.

(** ** A run of sample_ds that ends well *)

Lemma frames_stay_refl (w : world) : frames_stay w w.
Proof. intros r Hr. exact Hr. Qed.

Lemma frames_stay_trans (w1 w2 w3 : world) :
  frames_stay w1 w2 -> frames_stay w2 w3 -> frames_stay w1 w3.
Proof. intros H12 H23 r Hr. apply H23, H12, Hr. Qed.

Lemma frames_stay_set_content (h : nat) (f : fileobj) (c : bytes)
    (w : world) :
  objects w !! h = Some f ->
  frames_stay w (snd (set_object h (set_content f c) w)).
Proof. intros _ r Hr. exact Hr. Qed.

Lemma frames_stay_update_frame (r : nat)
    (f : DataFrame -> result DataFrame) :
  keeps frames_stay (update_frame r f).
Proof.
  intros w. unfold update_frame.
  destruct (frames w !! r) as [df|] eqn:Hr; [|apply frames_stay_refl].
  destruct (f df) as [df'|e]; [|apply frames_stay_refl].
  intros r0 Hr0. cbn. apply lookup_insert_is_Some.
  destruct (decide (r = r0)); [now left | now right].
Qed.

Section Run.
Context `{Env}.

Lemma frames_stay_sample_mask (Data : ndarray) (d : datetime)
    (me : mask_entry) :
  keeps frames_stay (sample_mask Data d me).
Proof.
  pose proof frames_stay_refl as Hrefl.
  pose proof frames_stay_trans as Htrans.
  unfold sample_mask.
  destruct (String.eqb (me_MaskType me) "Polygon");
    [|destruct (String.eqb (me_MaskType me) "Point")].
  - apply (keeps_bind frames_stay Htrans);
      [apply (keeps_lift frames_stay Hrefl)|]. intros means.
    apply (keeps_bind frames_stay Htrans);
      [apply frames_stay_update_frame|]. intros _.
    apply (keeps_bind frames_stay Htrans);
      [apply (keeps_lift frames_stay Hrefl)|]. intros sums.
    apply frames_stay_update_frame.
  - apply (keeps_bind frames_stay Htrans);
      [apply (keeps_lift frames_stay Hrefl)|]. intros values.
    apply frames_stay_update_frame.
  - apply (keeps_mret frames_stay Hrefl).
Qed.

Lemma frames_stay_sample_iterate (file_buf : nat) (ID : ndarray) (year : Z)
    (ts : string) (masks : list mask_entry) :
  keeps frames_stay (sample_iterate file_buf ID year ts masks).
Proof.
  intros w. unfold sample_iterate.
  match goal with
  | |- context [for_loop ?nx ?body ?fuel ?g w] =>
      pose proof (for_loop_keeps nx frames_stay frames_stay_refl
                    frames_stay_trans
                    (iter_ds_next_keeps frames_stay frames_stay_refl
                       frames_stay_trans frames_stay_set_content)
                    body
                    (fun y => keeps_for_masks frames_stay frames_stay_refl
                                frames_stay_trans _ masks
                                (frames_stay_sample_mask (fst y) (snd y)))
                    fuel g w) as Hk;
      destruct (for_loop nx body fuel g w) as [[r|] w1]
  end; exact Hk.
Qed.

(** One turn of the loop of [get_masks] for a layer that is in the
    dataset and has a type, with all that it does. *)
Lemma get_masks_loop_unfold (mask_ds : gmap string layer) (out : string)
    (year : Z) (ts m : string) (rest : list string) (var : layer)
    (t : string) (dfOut : option nat) (acc : list mask_entry) (w : world) :
  mask_ds !! m = Some var ->
  l_attrs var !! "Type" = Some t ->
  get_masks_loop mask_ds (m :: rest) out year ts dfOut acc w
  = let MaskValues := list_set (non_nan_ints (data (flatten (l_data var)))) in
    let entry r := {| me_name := m; me_Mask := l_data var; me_MaskType := t;
                      me_MaskValues := MaskValues;
                      me_OutputPath := joinpath out m (capitalize ts);
                      me_dfOut := r |} in
    let w1 := set_dirs ({[ joinpath out m (capitalize ts) ]} ∪ dirs w) w in
    if String.eqb t "Polygon" || String.eqb t "Point"
    then
      let r := fresh (dom (frames w)) in
      get_masks_loop mask_ds rest out year ts (Some r) (acc ++ [entry r])
        (set_frames
           (<[r := empty_table MaskValues (date_cols year ts)]> (frames w))
           w1)
    else
      match dfOut with
      | Some r =>
          get_masks_loop mask_ds rest out year ts (Some r) (acc ++ [entry r])
            w1
      | None => (Raise (UnboundLocalError "dfOut"), w1)
      end.
Proof.
  intros Hvar Ht.
  cbn [get_masks_loop]. unfold getitem. rewrite Hvar.
  rewrite run_bind. unfold lift at 1. cbn beta iota. rewrite Ht.
  mrun.
  destruct (String.eqb t "Polygon"); [mrun; reflexivity|].
  destruct (String.eqb t "Point"); [mrun; reflexivity|].
  mrun. cbn [orb]. destruct dfOut; reflexivity.
Qed.

(** What a list of masks that [get_masks] returned is like, whatever the
    types of the layers: an element for each layer, in order, with the
    directory of the layer, and a table that is there. *)
Lemma get_masks_loop_ok (mask_ds : gmap string layer) (out : string)
    (year : Z) (ts : string) (layers : list string) :
  forall (dfOut : option nat) (acc : list mask_entry) (w : world)
         (masks : list mask_entry) (w' : world),
    get_masks_loop mask_ds layers out year ts dfOut acc w = (Ok masks, w') ->
    Forall (fun me => is_Some (frames w !! me_dfOut me)) acc ->
    (forall r, dfOut = Some r -> is_Some (frames w !! r)) ->
    exists (new : list mask_entry),
      masks = (acc ++ new)%list
      /\ map (fun me => (me_name me, me_OutputPath me)) new
         = map (fun m => (m, joinpath out m (capitalize ts))) layers
      /\ Forall (fun me => is_Some (frames w' !! me_dfOut me)) masks.
Proof.
  induction layers as [|m rest IH]; intros dfOut acc w masks w' Hrun Hacc Hdf.
  - cbn in Hrun. injection Hrun as <- <-. exists [].
    rewrite app_nil_r. repeat split; assumption.
  - destruct (mask_ds !! m) as [var|] eqn:Hvar.
    2:{ cbn [get_masks_loop] in Hrun. unfold getitem in Hrun.
        rewrite Hvar, run_bind in Hrun. discriminate Hrun. }
    destruct (l_attrs var !! "Type") as [t|] eqn:Ht.
    2:{ cbn [get_masks_loop] in Hrun. unfold getitem in Hrun.
        rewrite Hvar, run_bind in Hrun. unfold lift at 1 in Hrun.
        cbn beta iota in Hrun. rewrite Ht, run_bind in Hrun.
        discriminate Hrun. }
    rewrite (get_masks_loop_unfold mask_ds out year ts m rest var t dfOut
               acc w Hvar Ht) in Hrun.
    cbn zeta in Hrun.
    destruct (String.eqb t "Polygon" || String.eqb t "Point").
    + apply IH in Hrun as (new & -> & Hnames & Hall).
      * eexists (_ :: new). split; [now rewrite <- app_assoc|].
        split; [cbn [map]; now rewrite Hnames | exact Hall].
      * apply Forall_app. split.
        -- eapply Forall_impl; [exact Hacc|]. intros me Hme. cbn.
           apply lookup_insert_is_Some.
           destruct (decide (fresh (dom (frames w)) = me_dfOut me));
             [now left | now right].
        -- repeat constructor. cbn. rewrite lookup_insert_eq. eauto.
      * intros r [= <-]. cbn. rewrite lookup_insert_eq. eauto.
    + destruct dfOut as [r|]; [|discriminate Hrun].
      apply IH in Hrun as (new & -> & Hnames & Hall).
      * eexists (_ :: new). split; [now rewrite <- app_assoc|].
        split; [cbn [map]; now rewrite Hnames | exact Hall].
      * apply Forall_app. split; [exact Hacc|].
        repeat constructor. cbn. now apply Hdf.
      * intros r' [= <-]. cbn. now apply Hdf.
Qed.

(** X29: A run of [sample_ds] that ends well has written a table for every
    layer that was asked for, whatever the stream and the types of the
    layers: under the output directory, in the directory of the layer
    and of the capitalized time step, named by the variable and the
    year. *)
Theorem sample_ds_writes_every_layer (mask_nc : string) (file_in : file_arg)
    (mask_layers : list string) (out : string) (year : Z)
    (variable ts : string) (w w' : world) :
  sample_ds mask_nc file_in mask_layers out year variable ts w = (Ok tt, w') ->
  forall m, In m mask_layers ->
    is_Some (csv_files w' !! table_path out m ts variable year).
Proof.
  unfold sample_ds. rewrite run_bind.
  destruct (sample_setup mask_nc file_in mask_layers out year ts w)
    as [[[[file_buf masks] ID]|e] w1] eqn:Hsetup; [|discriminate].
  cbn beta iota. rewrite run_bind.
  pose proof (frames_stay_sample_iterate file_buf ID year ts masks w1)
    as Hstay.
  destruct (sample_iterate file_buf ID year ts masks w1) as [[[]|e] w2];
    [|discriminate].
  cbn [snd] in Hstay. cbn beta iota. intros Hwrite m Hm.
  (* the masks of the setup *)
  unfold sample_setup in Hsetup. rewrite run_bind in Hsetup.
  destruct (get_true_datastream file_in w) as [[fb|e] w0];
    [|discriminate Hsetup].
  cbn beta iota in Hsetup. rewrite run_bind in Hsetup.
  unfold lift at 1 in Hsetup.
  destruct (open_dataset mask_nc) as [mask_ds|e]; [|discriminate Hsetup].
  cbn beta iota in Hsetup. rewrite run_bind in Hsetup.
  destruct (get_masks mask_ds mask_layers out year ts w0)
    as [[masks0|e] w1'] eqn:Hmasks; [|discriminate Hsetup].
  cbn beta iota in Hsetup. rewrite run_bind in Hsetup.
  unfold lift at 1 in Hsetup.
  destruct (getitem mask_ds "ID") as [IDl|e]; [|discriminate Hsetup].
  injection Hsetup as <- <- <- <-.
  unfold get_masks in Hmasks.
  apply get_masks_loop_ok in Hmasks as (new & Hnew & Hnames & Hall);
    [|constructor|discriminate].
  cbn [app] in Hnew. subst new.
  (* the tables are still there after the loop over the records *)
  assert (Hall2 : Forall (fun me => is_Some (frames w2 !! me_dfOut me))
                         masks0).
  { eapply Forall_impl; [exact Hall|]. intros me. apply Hstay. }
  destruct (write_tables_run variable year masks0 w2 Hall2)
    as (w'' & Hrun & _ & _ & _ & _ & _ & Heach).
  rewrite Hrun in Hwrite. injection Hwrite as <-.
  assert (Hin : In (m, joinpath out m (capitalize ts))
                   (map (fun me => (me_name me, me_OutputPath me)) masks0)).
  { rewrite Hnames. apply in_map_iff. eauto. }
  apply in_map_iff in Hin as (me & Heq & Hin). injection Heq as _ Hpath.
  rewrite List.Forall_forall in Heach, Hall2.
  destruct (Heach me Hin) as (me' & Hin' & _ & Hlook).
  unfold csv_path in Hlook. rewrite Hpath in Hlook.
  unfold table_path. rewrite Hlook. now apply Hall2.
Qed.
End Run.

Lemma sample_ds_writes_every_layer_witness :
  is_Some (csv_files
             (snd (@sample_ds example_env "/data/mask.nc"
                     (PathLike "/data/q_2000.gds") ["Gauges"; "Basins"]
                     "/out" 2000 "Discharge" "annual" example_world))
           !! "/out/Basins/Annual/Discharge_2000.csv").
Proof.
  apply (@sample_ds_writes_every_layer example_env "/data/mask.nc"
           (PathLike "/data/q_2000.gds") ["Gauges"; "Basins"] "/out" 2000
           "Discharge" "annual" example_world _ ltac:(vm_compute; reflexivity)
           "Basins").
  right. now left.
Defined.

(** ** A stream that stops early *)

Section ShortStream.
Context `{Env}.
Variables (h : nat) (f : fileobj) (w0 : world).
Hypothesis f_open : f_closed f = false.
Hypothesis f_binary : f_kind f <> TextIOWrapper.

Lemma headDS_short_content (ts : string) (c : bytes) :
  (length c < 40)%nat ->
  headDS h ts (with_content h f c w0)
  = (Raise (ValueError "Buffer size too small"), with_content h f [] w0).
Proof.
  intros Hlen. unfold headDS. rewrite run_bind.
  rewrite (read_with_content h f w0 f_open f_binary) by lia.
  change (Z.to_nat 40) with 40%nat.
  rewrite firstn_all2, skipn_all2 by lia.
  unfold lift. now rewrite parse_header_short.
Qed.

Lemma drain_suspended_short (ts : string) (cell_id : ndarray)
    (n rgisType : Z) (npType : nptype) (NoData : scalar) (Cells : Z)
    (chunks : list (bytes * bytes)) (ys : list (ndarray * datetime))
    (rest : bytes) :
  Forall2 (record_ok ts cell_id rgisType npType NoData Cells) chunks ys ->
  (length rest < 40)%nat ->
  forall (Date0 : datetime) (day : Z) (fuel : nat),
    0 <= day ->
    day + 1 + Z.of_nat (length chunks) < n ->
    (length chunks < fuel)%nat ->
    drain iter_ds_next fuel
          (DsSuspended h ts cell_id n rgisType npType NoData Date0 Cells day)
          (with_content h f (stream_of chunks ++ rest) w0)
    = (ys, Some (Raise (ValueError "Buffer size too small")),
       with_content h f [] w0).
Proof.
  intros Hall Hrest.
  induction Hall as [|chunk y chunks ys Hok _ IH];
    intros Date0 day fuel Hday Hn Hfuel.
  - destruct fuel as [|fuel]; [cbn in Hfuel; lia|].
    cbn [drain iter_ds_next]. unfold ds_loop.
    replace (day + 1 <? n) with true
      by (symmetry; apply Z.ltb_lt; cbn in Hn; lia).
    unfold ds_iteration.
    replace (day + 1 =? 0) with false by (symmetry; apply Z.eqb_neq; lia).
    cbn [negb stream_of flat_map app]. rewrite !run_bind.
    rewrite headDS_short_content by exact Hrest. reflexivity.
  - destruct fuel as [|fuel]; [cbn in Hfuel; lia|].
    cbn [drain iter_ds_next]. unfold ds_loop.
    replace (day + 1 <? n) with true
      by (symmetry; apply Z.ltb_lt; cbn [length] in Hn; lia).
    cbn [stream_of flat_map]. rewrite <- !app_assoc.
    rewrite (ds_iteration_later h f w0 f_open f_binary ts cell_id rgisType
               npType NoData Cells Date0 (day + 1) chunk y)
      by (lia || exact Hok).
    destruct y as [g d].
    fold (stream_of chunks).
    rewrite (IH d (day + 1) fuel) by (cbn [length] in *; lia).
    reflexivity.
Qed.
End ShortStream.

Section ShortStreamIter.
Context `{Env}.

(** X30: A stream that holds fewer records than the time step asks for, and
    then less than a header: [iter_ds] yields a pair for each record that
    is there and then raises the [ValueError] of the header that could
    not be read; the stream has been read to its end. *)
Theorem iter_ds_short_stream
    (h : nat) (f : fileobj) (w : world) (mask_id : ndarray)
    (year : Z) (ts : string) (n rgisType : Z) (npType : nptype)
    (NoData : scalar) (Date1 : datetime) (Cells : Z)
    (chunk : bytes * bytes) (chunks : list (bytes * bytes))
    (ys : list (ndarray * datetime)) (rest : bytes) :
  objects w !! h = Some f ->
  f_closed f = false ->
  f_kind f <> TextIOWrapper ->
  f_content f = Ok (stream_of (chunk :: chunks) ++ rest) ->
  n_records year ts = Ok n ->
  Z.of_nat (length (chunk :: chunks)) < n ->
  (length rest < 40)%nat ->
  parse_header ts (fst chunk) = Ok (rgisType, npType, NoData, Date1, Cells) ->
  Forall2 (record_ok ts (nan_to_num_int32 mask_id) rgisType npType NoData
                     Cells)
          (chunk :: chunks) ys ->
  forall fuel : nat,
    (length (chunk :: chunks) < fuel)%nat ->
    drain iter_ds_next fuel (iter_ds h mask_id year ts) w
    = (ys, Some (Raise (ValueError "Buffer size too small")),
       with_content h f [] w).
Proof.
  intros Hobj Hopen Hbin Hc Hn Hlen Hrest Hhead Hall fuel Hfuel.
  inversion Hall as [|? y ? ys' Hok Hmore]; subst.
  destruct fuel as [|fuel]; [cbn in Hfuel; lia|].
  rewrite <- (with_content_same h f _ w Hobj Hc) at 1.
  unfold iter_ds. cbn [drain iter_ds_next].
  cbn zeta.
  rewrite !run_bind. unfold lift at 1. rewrite Hn.
  rewrite !run_bind.
  cbn [stream_of flat_map]. rewrite <- !app_assoc.
  pose proof Hok as (Hhd & _ & (t' & n' & m' & c' & Hparse) & _).
  rewrite (headDS_with_content h f w Hopen Hbin ts) by exact Hhd.
  rewrite Hhead. unfold mret at 1, M_ret at 1. cbn beta iota.
  unfold ds_loop.
  replace (0 <? n) with true
    by (symmetry; apply Z.ltb_lt; cbn [length] in Hlen; lia).
  rewrite (ds_iteration_first h f w Hopen Hbin ts (nan_to_num_int32 mask_id)
             rgisType npType NoData Cells Date1 chunk y) by exact Hok.
  fold (stream_of chunks).
  rewrite (drain_suspended_short h f w Hopen Hbin ts
             (nan_to_num_int32 mask_id) n rgisType npType NoData Cells
             chunks ys' rest Hmore Hrest Date1 0 fuel)
    by (cbn [length] in *; lia).
  rewrite Hhead in Hparse. injection Hparse as _ _ _ Hdate _.
  destruct y as [g d]. cbn [fst snd] in *. now subst.
Qed.
End ShortStreamIter.

Lemma iter_ds_short_stream_witness :
  drain (@iter_ds_next example_env) 13 (iter_ds 0 example_ID 2001 "monthly")
        (example_open (stream_of (firstn 2 example_monthly_chunks)
                       ++ [0; 0; 0]))
  = (firstn 2 example_monthly_yields,
     Some (Raise (ValueError "Buffer size too small")), example_open []).
Proof.
  refine (@iter_ds_short_stream example_env 0
            {| f_kind := BufferedReader; f_name := NameStr "/data/stream.gds";
               f_content := Ok (stream_of (firstn 2 example_monthly_chunks)
                                ++ [0; 0; 0]);
               f_closed := false; f_buffer := None |}
            (example_open (stream_of (firstn 2 example_monthly_chunks)
                           ++ [0; 0; 0]))
            example_ID
            2001 "monthly" 12 8 np_float64 (SFloat (float_of_Z (-9999)))
            {| dt_year := 2001; dt_month := 1; dt_day := 1 |} 2
            (hd ([], []) example_monthly_chunks)
            (firstn 1 (tl example_monthly_chunks))
            (firstn 2 example_monthly_yields) [0; 0; 0]
            eq_refl eq_refl _ eq_refl eq_refl _ _ _ _ 13%nat _).
  - discriminate.
  - vm_compute. reflexivity.
  - cbn. lia.
  - vm_compute. reflexivity.
  - change (hd ([], []) example_monthly_chunks
            :: firstn 1 (tl example_monthly_chunks))
      with (firstn 2 example_monthly_chunks).
    unfold example_monthly_chunks, example_monthly_yields.
    rewrite !firstn_map.
    apply Forall2_fmap, Forall_Forall2_diag.
    change (firstn 2 (Zrange 12)) with [1; 2].
    repeat (constructor;
            [ split; [vm_compute; reflexivity|];
              split; [vm_compute; reflexivity|];
              split; [eexists _, _, _, _|]; vm_compute; reflexivity | ]).
    constructor.
  - vm_compute. lia.
Defined.
